(** * DockerDiff: a shallow embedding of [ddiff.py] and [hub2registry.py]

    The development follows the two Python programs of the repository:

    - [ddiff.py]: the diff / pack / replay pipeline ([diff_image],
      [load_image]) over a registry reached through [urllib];
    - [hub2registry.py]: the store seeder ([fetch_manifest],
      [stream_download_blob], [process_image]) with its retry wrapper.

    Python values are embedded as follows.  A [str] is a [string] (a
    sequence of 8-bit characters); a decoded JSON document is a [json] tree;
    a [set] of digests is a [gset]; the file system is a [gmap] from paths to
    nodes; the registry is an oracle answering each request from the history
    of events so far; exceptions are an error result threaded through a
    state-and-error monad whose state survives the exception, as side effects
    do in Python. *)

From Stdlib Require Import ZArith Ascii String List Bool Lia.
From stdpp Require Import base option list gmap strings sets.

Local Open Scope string_scope.
Local Open Scope Z_scope.
Set Warnings "-register-all".

(** ** Python string operations *)

Module PyStr.

(** [a + b] on [str]. *)
Definition cat (a b : string) : string := String.append a b.

(** [s.startswith(p)]. *)
Fixpoint startswith (p s : string) : bool :=
  match p, s with
  | EmptyString, _ => true
  | String a p', String b s' => if Ascii.eqb a b then startswith p' s' else false
  | String _ _, EmptyString => false
  end.

(** [sub in s] for two [str]. *)
Fixpoint contains (sub s : string) : bool :=
  startswith sub s ||
  match s with
  | EmptyString => false
  | String _ s' => contains sub s'
  end.

(** [s.endswith(p)]. *)
Fixpoint endswith (p s : string) : bool :=
  String.eqb p s ||
  match s with
  | EmptyString => false
  | String _ s' => endswith p s'
  end.

(** [s.replace(old, new)] for a non-empty [old]: the occurrences of [old]
    are replaced from left to right, without overlap.  [skip] counts the
    characters of an occurrence that was just replaced and still has to be
    dropped. *)
Fixpoint replace_go (old new : string) (skip : nat) (s : string) : string :=
  match s with
  | EmptyString => EmptyString
  | String c s' =>
      match skip with
      | S k => replace_go old new k s'
      | O =>
          if startswith old s
          then cat new (replace_go old new (Nat.pred (String.length old)) s')
          else String c (replace_go old new O s')
      end
  end.

Definition replace (old new s : string) : string := replace_go old new O s.

(** [s.split(sep)] for a one-character separator.  The result is never the
    empty list: [split sep ""] is [[""]]. *)
Fixpoint split (sep : ascii) (s : string) : list string :=
  match s with
  | EmptyString => [EmptyString]
  | String c s' =>
      if Ascii.eqb c sep then EmptyString :: split sep s'
      else match split sep s' with
           | h :: t => String c h :: t
           | [] => [String c EmptyString]
           end
  end.

(** [s.split(sep, 1)] for a one-character separator: at most one cut, at
    the first separator. *)
Fixpoint split1 (sep : ascii) (s : string) : list string :=
  match s with
  | EmptyString => [EmptyString]
  | String c s' =>
      if Ascii.eqb c sep then [EmptyString; s']
      else match split1 sep s' with
           | h :: t => String c h :: t
           | [] => [String c EmptyString]
           end
  end.

(** [sep.join(l)]. *)
Fixpoint join (sep : string) (l : list string) : string :=
  match l with
  | [] => EmptyString
  | [x] => x
  | x :: rest => cat x (cat sep (join sep rest))
  end.

(** The characters [str.strip()] removes, among those below 256: tab,
    line feed, vertical tab, form feed, carriage return, the four
    separators 0x1c-0x1f, the space, the next-line character 0x85 and the
    no-break space 0xa0. *)
Definition is_space (c : ascii) : bool :=
  let n := N_of_ascii c in
  ((9 <=? n) && (n <=? 13) || (28 <=? n) && (n <=? 32) || (n =? 133) || (n =? 160))%N.

Fixpoint lstrip (s : string) : string :=
  match s with
  | EmptyString => EmptyString
  | String c s' => if is_space c then lstrip s' else s
  end.

Fixpoint rstrip (s : string) : string :=
  match s with
  | EmptyString => EmptyString
  | String c s' =>
      match rstrip s' with
      | EmptyString => if is_space c then EmptyString else String c EmptyString
      | r => String c r
      end
  end.

(** [s.strip()]. *)
Definition strip (s : string) : string := rstrip (lstrip s).

(** [s[:n]]. *)
Fixpoint take (n : nat) (s : string) : string :=
  match n, s with
  | S k, String c s' => String c (take k s')
  | _, _ => EmptyString
  end.

(** Truth value of a [str]. *)
Definition nonempty (s : string) : bool :=
  match s with EmptyString => false | _ => true end.

(** [s.rsplit(sep, 1)] for a one-character separator: at most one cut, at
    the last separator. *)
Fixpoint rsplit1 (sep : ascii) (s : string) : list string :=
  match s with
  | EmptyString => [EmptyString]
  | String c s' =>
      match rsplit1 sep s' with
      | [h; t] => [String c h; t]
      | _ => if Ascii.eqb c sep then [EmptyString; s'] else [String c s']
      end
  end.

End PyStr.

(** ** Exceptions and results *)

(** The exceptions the two programs raise or let through.  [RuntimeError]
    carries the message it is built with ([print_error] of [ddiff.py] raises
    it bare, after printing; the printed text is not modelled).  [HTTPError]
    carries the status code, when the error has a response. *)
Inductive exn : Type :=
  | RuntimeError (msg : string)
  | TypeError
  | KeyError
  | AttributeError
  | ValueError
  | JSONDecodeError
  | FileNotFoundError
  | FileExistsError
  | IsADirectoryError
  | NotADirectoryError
  | HTTPError (status : option Z)
  | URLError
  | ConnectionError
  | Timeout
  | ChunkedEncodingError
  | IndexError.

Inductive result (A : Type) : Type :=
  | Ok (a : A)
  | Raise (e : exn).
Arguments Ok {A} a.
Arguments Raise {A} e.

Definition is_ok {A} (r : result A) : bool :=
  match r with Ok _ => true | Raise _ => false end.

Definition rbind {A B} (r : result A) (k : A -> result B) : result B :=
  match r with Ok a => k a | Raise e => Raise e end.

(** ** Decoded JSON documents as Python values *)

(** What [json.loads] returns: [None], [bool], [int], [str], [list], [dict].
    A [dict] is kept as its items in order; a key is looked up from the
    front.  Numbers with a fraction or an exponent are outside the model. *)
Inductive json : Type :=
  | JNull
  | JBool (b : bool)
  | JNum (n : Z)
  | JStr (s : string)
  | JArr (items : list json)
  | JObj (fields : list (string * json)).

Module Py.

Fixpoint assoc (k : string) (fields : list (string * json)) : option json :=
  match fields with
  | [] => None
  | (k', v) :: rest => if String.eqb k k' then Some v else assoc k rest
  end.

(** [bool(x)]. *)
Definition truthy (x : json) : bool :=
  match x with
  | JNull => false
  | JBool b => b
  | JNum n => negb (n =? 0)
  | JStr s => PyStr.nonempty s
  | JArr l => match l with [] => false | _ => true end
  | JObj f => match f with [] => false | _ => true end
  end.

(** [x == s] for a [str] literal [s]. *)
Definition eq_str (x : json) (s : string) : bool :=
  match x with JStr t => String.eqb t s | _ => false end.

(** [x in [s1, ..., sn]] for a list of [str] literals. *)
Definition in_strs (x : json) (l : list string) : bool := existsb (eq_str x) l.

(** [x.get(k, default)]: only a [dict] has [get]. *)
Definition get (x : json) (k : string) (default : json) : result json :=
  match x with
  | JObj f => Ok (match assoc k f with Some v => v | None => default end)
  | _ => Raise AttributeError
  end.

(** [x.get(k)], with [None] for a missing key. *)
Definition get_none (x : json) (k : string) : result json := get x k JNull.

(** [k in x] for a [str] [k]: key of a [dict], element of a [list],
    substring of a [str]; anything else is not iterable. *)
Definition contains (k : string) (x : json) : result bool :=
  match x with
  | JObj f => Ok (match assoc k f with Some _ => true | None => false end)
  | JArr l => Ok (existsb (fun y => eq_str y k) l)
  | JStr s => Ok (PyStr.contains k s)
  | _ => Raise TypeError
  end.

(** [x[k]] for a [str] [k]. *)
Definition getitem (x : json) (k : string) : result json :=
  match x with
  | JObj f => match assoc k f with Some v => Ok v | None => Raise KeyError end
  | _ => Raise TypeError
  end.

Fixpoint chars (s : string) : list json :=
  match s with
  | EmptyString => []
  | String c s' => JStr (String c EmptyString) :: chars s'
  end.

(** The elements [for y in x] visits. *)
Definition iter (x : json) : result (list json) :=
  match x with
  | JArr l => Ok l
  | JObj f => Ok (map (fun kv => JStr (fst kv)) f)
  | JStr s => Ok (chars s)
  | _ => Raise TypeError
  end.

End Py.

(** ** Hashable values and sets *)

(** The values of a decoded document that can be members of a [set].  [True]
    and [False] are the integers 1 and 0 there. *)
Inductive key : Type :=
  | KNone
  | KInt (n : Z)
  | KStr (s : string).

#[global] Instance key_eq_dec : EqDecision key.
Proof. solve_decision. Defined.

Definition key_to_sum (k : key) : () + Z + string :=
  match k with KNone => inl (inl ()) | KInt n => inl (inr n) | KStr s => inr s end.

Definition key_of_sum (x : () + Z + string) : key :=
  match x with inl (inl _) => KNone | inl (inr n) => KInt n | inr s => KStr s end.

#[global] Instance key_countable : Countable key.
Proof.
  refine (inj_countable' key_to_sum key_of_sum _).
  intros []; reflexivity.
Defined.

Module PySet.

Definition hash_key (x : json) : result key :=
  match x with
  | JNull => Ok KNone
  | JBool b => Ok (KInt (if b then 1 else 0))
  | JNum n => Ok (KInt n)
  | JStr s => Ok (KStr s)
  | JArr _ | JObj _ => Raise TypeError
  end.

(** [set(l)]: fails on the first unhashable element. *)
Fixpoint of_list (l : list json) : result (gset key) :=
  match l with
  | [] => Ok ∅
  | x :: rest =>
      rbind (hash_key x) (fun k =>
      rbind (of_list rest) (fun s => Ok ({[ k ]} ∪ s)))
  end.

(** The [str] elements of a sequence handed to [str.join]; any other
    element makes [join] raise. *)
Fixpoint strs (l : list key) : result (list string) :=
  match l with
  | [] => Ok []
  | KStr s :: rest => rbind (strs rest) (fun t => Ok (s :: t))
  | _ :: _ => Raise TypeError
  end.

(** [sep.join(l)] over hashable values. *)
Definition join (sep : string) (l : list key) : result string :=
  rbind (strs l) (fun t => Ok (PyStr.join sep t)).

(** The order in which a [set] is iterated: some enumeration of its
    elements, the same every time the same set is iterated. *)
Class Order : Type := {
  order : gset key -> list key;
  order_perm : forall s, order s ≡ₚ elements s
}.

End PySet.

(** ** State and exceptions *)

(** A computation over a world [W]: it returns a value or raises, and leaves
    a world behind in both cases. *)
Definition M (W A : Type) : Type := W -> result A * W.

Definition ret {W A} (a : A) : M W A := fun w => (Ok a, w).

Definition raise {W A} (e : exn) : M W A := fun w => (Raise e, w).

Definition bind {W A B} (m : M W A) (k : A -> M W B) : M W B :=
  fun w => match m w with
           | (Ok a, w') => k a w'
           | (Raise e, w') => (Raise e, w')
           end.

Definition lift {W A} (r : result A) : M W A := fun w => (r, w).

(** [try: m  except: h]. *)
Definition catch {W A} (m : M W A) (h : exn -> M W A) : M W A :=
  fun w => match m w with
           | (Ok a, w') => (Ok a, w')
           | (Raise e, w') => h e w'
           end.

Definition gets {W A} (f : W -> A) : M W A := fun w => (Ok (f w), w).

Definition modify {W} (f : W -> W) : M W unit := fun w => (Ok tt, f w).

Declare Scope py_scope.
Delimit Scope py_scope with py.
Notation "x <- m ;; k" := (bind m (fun x => k))
  (at level 100, m at next level, right associativity) : py_scope.
Notation "m ;;; k" := (bind m (fun _ => k))
  (at level 100, right associativity) : py_scope.

(** [for x in l: body(x)]. *)
Fixpoint for_each {W A} (l : list A) (body : A -> M W unit) : M W unit :=
  match l with
  | [] => ret tt
  | x :: rest => bind (body x) (fun _ => for_each rest body)
  end.

Local Open Scope py_scope.

(** ** The registry and the file system seen by [ddiff.py] *)

Module Net.

(** A [urllib.request.Request]. *)
Record request : Type := {
  req_method : string;
  req_url : string;
  req_headers : list (string * string);
  req_data : option string
}.

(** What comes back on the wire: a response with its status, headers and
    body, or nothing (connection refused, timeout, ...). *)
Inductive reply : Type :=
  | Response (status : Z) (headers : list (string * string)) (body : string)
  | Unreachable.

(** What [urlopen] hands to the caller. *)
Record response : Type := {
  status : Z;
  headers : list (string * string);
  content : string
}.

Fixpoint header (name : string) (h : list (string * string)) : option string :=
  match h with
  | [] => None
  | (n, v) :: rest => if String.eqb n name then Some v else header name rest
  end.

(** [response.getheader(name)]. *)
Definition getheader (r : response) (name : string) : option string :=
  header name (headers r).

End Net.

Module Ddiff.

Import Net.

Definition DOCKER_MANIFEST_V2 : string :=
  "application/vnd.docker.distribution.manifest.v2+json".
Definition DOCKER_MANIFEST_LIST_V2 : string :=
  "application/vnd.docker.distribution.manifest.list.v2+json".
Definition OCI_MANIFEST_V1 : string :=
  "application/vnd.oci.image.manifest.v1+json".
Definition OCI_INDEX_V1 : string :=
  "application/vnd.oci.image.index.v1+json".

Definition SUPPORTED_MANIFEST_TYPES : list string :=
  [DOCKER_MANIFEST_V2; OCI_MANIFEST_V1].

Definition ACCEPT_MANIFEST_TYPES : string :=
  PyStr.join ", " (SUPPORTED_MANIFEST_TYPES ++ [DOCKER_MANIFEST_LIST_V2; OCI_INDEX_V1])%list.

(** Everything the program does to the outside, in the order it happens:
    shell commands handed to [run_command] and exchanges with the
    registry. *)
Inductive event : Type :=
  | EvShell (cmd : string)
  | EvHttp (req : request) (rep : reply).

Inductive node : Type :=
  | Dir
  | File (content : string).

(** The world of one invocation.  Paths are relative to the working
    directory, so [os.path.join(os.getcwd(), ".ddiff-image")] of
    [diff_image] and the relative [".ddiff-image"] of [load_image] are the
    same key.  The [.tar.gz] archives of the working directory are kept by
    name in [archives], each as the tree it packs. *)
Record world : Type := {
  fs : gmap string node;
  archives : gmap string (gmap string node);
  trace : list event
}.

Definition set_fs (f : gmap string node) (w : world) : world :=
  {| fs := f; archives := archives w; trace := trace w |}.
Definition set_archives (a : gmap string (gmap string node)) (w : world) : world :=
  {| fs := fs w; archives := a; trace := trace w |}.
Definition log (e : event) (w : world) : world :=
  {| fs := fs w; archives := archives w; trace := trace w ++ [e] |}.

(** What the program is run in: the environment variables, the registry
    (it answers a request knowing every event so far), [json.loads]
    ([None] when it raises) and the iteration order of sets. *)
Class Env : Type := {
  getenv : string -> option string;
  registry : list event -> request -> reply;
  json_loads : string -> option json;
  set_order :: PySet.Order
}.

Section Program.

Context `{Env}.

(** *** Default values (lines 31-37) *)

Definition ddiff_port : string :=
  match getenv "DDIFF_PORT" with Some p => p | None => "5000" end.

Definition ddiff_url : string :=
  match getenv "DDIFF_URL" with
  | None => PyStr.cat "http://localhost:" ddiff_port
  | Some u => u
  end.

Definition ddiff_url_base : string :=
  PyStr.replace "//" "/"
    (PyStr.replace "http://" "" (PyStr.replace "https://" "" ddiff_url)).

(** [os.getenv("DDIFF_DISABLE_RESPOSITORY", False)], used as a condition. *)
Definition ddiff_disable_repository : bool :=
  match getenv "DDIFF_DISABLE_RESPOSITORY" with
  | Some v => PyStr.nonempty v
  | None => false
  end.

(** *** Helpers *)

(** [print_error]: prints, then raises a bare [RuntimeError]. *)
Definition print_error {A} : result A := Raise (RuntimeError "").

(** [run_command(cmd)] without captured output: the command goes to the
    shell, whatever it does there, and [None] comes back. *)
Definition run_command (cmd : string) : M world unit :=
  modify (log (EvShell cmd)).

(** [urllib.request.urlopen]: a status outside 200..299 is raised as
    [HTTPError], no answer at all as [URLError]. *)
Definition urlopen (r : request) : M world response :=
  fun w =>
    let rep := registry (trace w) r in
    let w' := log (EvHttp r rep) w in
    match rep with
    | Response st h b =>
        if (200 <=? st) && (st <? 300)
        then (Ok {| status := st; headers := h; content := b |}, w')
        else (Raise (HTTPError (Some st)), w')
    | Unreachable => (Raise URLError, w')
    end.

(** *** The file system *)

(** [k] is [p] or lies below it. *)
Definition is_under (p k : string) : bool :=
  String.eqb k p || PyStr.startswith (PyStr.cat p "/") k.

Definition remove_tree (p : string) (f : gmap string node) : gmap string node :=
  filter (fun kv => is_under p (fst kv) = false) f.

(** [shutil.rmtree(p, ignore_errors=True)]. *)
Definition rmtree_ignore_errors (p : string) : M world unit :=
  modify (fun w => set_fs (remove_tree p (fs w)) w).

(** [shutil.rmtree(p)]. *)
Definition rmtree (p : string) : M world unit :=
  fun w =>
    match fs w !! p with
    | Some Dir => (Ok tt, set_fs (remove_tree p (fs w)) w)
    | Some (File _) => (Raise NotADirectoryError, w)
    | None => (Raise FileNotFoundError, w)
    end.

(** The proper ancestors of a path: every prefix that ends just before
    a ["/"]. *)
Fixpoint ancestors_go (pre s : string) : list string :=
  match s with
  | EmptyString => []
  | String c s' =>
      (if Ascii.eqb c "/" && PyStr.nonempty pre then [pre] else [])
        ++ ancestors_go (PyStr.cat pre (String c EmptyString)) s'
  end.

Definition mkdir_if_missing (d : string) (f : gmap string node) : gmap string node :=
  match f !! d with Some _ => f | None => <[ d := Dir ]> f end.

(** [os.makedirs(p)]: the leaf must not exist. *)
Definition makedirs (p : string) : M world unit :=
  fun w =>
    match fs w !! p with
    | Some _ => (Raise FileExistsError, w)
    | None =>
        (Ok tt, set_fs (foldr mkdir_if_missing (fs w) (p :: rev (ancestors_go "" p))) w)
    end.

(** [open(p, "w")] followed by [write(content)], in a directory that
    exists (the pipelines write only below the staging directory they
    have just made). *)
Definition write_file (p content : string) : M world unit :=
  fun w =>
    match fs w !! p with
    | Some Dir => (Raise IsADirectoryError, w)
    | _ => (Ok tt, set_fs (<[ p := File content ]> (fs w)) w)
    end.

(** [open(p).read()]. *)
Definition read_file (p : string) : M world string :=
  fun w =>
    match fs w !! p with
    | Some (File c) => (Ok c, w)
    | Some Dir => (Raise IsADirectoryError, w)
    | None => (Raise FileNotFoundError, w)
    end.

(** [os.path.exists(p)]. *)
Definition path_exists (p : string) : M world bool :=
  gets (fun w => match fs w !! p with Some _ => true | None => false end).

(** [tarfile.open(name, "w:gz")] then [tar.add(dir, arcname=dir)]: the
    archive packs [dir] and everything below it. *)
Definition tar_create (name dir : string) : M world unit :=
  modify (fun w =>
    set_archives
      (<[ name := filter (fun kv => is_under dir (fst kv) = true) (fs w) ]> (archives w)) w).

(** [tarfile.open(name)] then [tar.extractall()] into the working
    directory. *)
Definition tar_extractall (name : string) : M world unit :=
  fun w =>
    match archives w !! name with
    | Some entries => (Ok tt, set_fs (entries ∪ fs w) w)
    | None => (Raise FileNotFoundError, w)
    end.

(** *** Tags and manifests *)

Definition _prepare_tag (tag : string) : string :=
  let tag := if ddiff_disable_repository then PyStr.replace "/" "-" tag else tag in
  if negb (PyStr.contains ":" tag) then PyStr.cat tag ":latest" else tag.

(** [tag.split(":")[0]]. *)
Definition repo_of (tag : string) : string :=
  match PyStr.split ":" tag with r :: _ => r | [] => "" end.

Definition manifest_url (repo version_tag : string) : string :=
  PyStr.cat ddiff_url (PyStr.cat "/v2/" (PyStr.cat repo (PyStr.cat "/manifests/" version_tag))).

(** Returns the manifest text and the content type up to its first
    [";"].  The unpacking [repo, version_tag = tag.split(":")] needs
    exactly two parts. *)
Definition _request_manifest (tag : string) : M world (string * string) :=
  match PyStr.split ":" tag with
  | [repo; version_tag] =>
      let req := {| req_method := "GET";
                    req_url := manifest_url repo version_tag;
                    req_headers := [("Accept", ACCEPT_MANIFEST_TYPES)];
                    req_data := None |} in
      catch
        (response <- urlopen req ;;
         let manifest := content response in
         let ct := match getheader response "Content-Type" with Some v => v | None => "" end in
         let content_type := match PyStr.split ";" ct with h :: _ => h | [] => "" end in
         ret (manifest, content_type))
        (fun e => match e with
                  | HTTPError _ => lift print_error
                  | _ => lift print_error
                  end)
  | _ => raise ValueError
  end.

Definition _validate_manifest_media_type (manifest : json) : result json :=
  rbind (Py.get manifest "mediaType" (JStr "")) (fun media_type =>
  rbind (if Py.in_strs media_type [DOCKER_MANIFEST_LIST_V2; OCI_INDEX_V1]
         then print_error else Ok tt) (fun _ =>
  rbind (if Py.truthy media_type && negb (Py.in_strs media_type SUPPORTED_MANIFEST_TYPES)
         then print_error else Ok tt) (fun _ =>
  Ok media_type))).

(** The config blob (lines 95-97). *)
Definition config_digest (manifest : json) : result (list json) :=
  rbind (Py.contains "config" manifest) (fun has_config =>
  if has_config then
    rbind (Py.getitem manifest "config") (fun config =>
    rbind (Py.contains "digest" config) (fun has_digest =>
    if has_digest then
      rbind (Py.getitem config "digest") (fun d => Ok [d])
    else Ok []))
  else Ok []).

(** The layer blobs (lines 99-102). *)
Fixpoint layer_digests (layers : list json) : result (list json) :=
  match layers with
  | [] => Ok []
  | layer :: rest =>
      rbind (Py.contains "digest" layer) (fun has_digest =>
      rbind (if has_digest
             then rbind (Py.getitem layer "digest") (fun d => Ok [d])
             else Ok []) (fun here =>
      rbind (layer_digests rest) (fun there => Ok (here ++ there)%list)))
  end.

Definition blob_list_of (manifest : json) : result (list json) :=
  rbind (_validate_manifest_media_type manifest) (fun _ =>
  rbind (config_digest manifest) (fun digests =>
  rbind (Py.get manifest "layers" (JArr [])) (fun layers_value =>
  rbind (Py.iter layers_value) (fun layers =>
  rbind (layer_digests layers) (fun more =>
  Ok (digests ++ more)%list))))).

Definition _parse_blob_list (manifest_str : string) : result (list json) :=
  match json_loads manifest_str with
  | None => Raise JSONDecodeError
  | Some manifest => blob_list_of manifest
  end.

(** *** Blobs *)

Definition in_range (lo hi : ascii) (c : ascii) : bool :=
  ((N_of_ascii lo <=? N_of_ascii c) && (N_of_ascii c <=? N_of_ascii hi))%N.

(** The class [[a-z0-9_+.-]]. *)
Definition algo_char (c : ascii) : bool :=
  in_range "a" "z" c || in_range "0" "9" c
  || Ascii.eqb c "_" || Ascii.eqb c "+" || Ascii.eqb c "." || Ascii.eqb c "-".

(** The class [[a-fA-F0-9]]. *)
Definition hex_char (c : ascii) : bool :=
  in_range "a" "f" c || in_range "A" "F" c || in_range "0" "9" c.

Fixpoint all_chars (p : ascii -> bool) (s : string) : bool :=
  match s with
  | EmptyString => true
  | String c s' => p c && all_chars p s'
  end.

(** [[a-fA-F0-9]+$]: one or more hex characters up to the end of the
    string, or up to a last line feed ([$] also matches there). *)
Fixpoint hex_to_end (s : string) : bool :=
  match s with
  | EmptyString => false
  | String c s' =>
      hex_char c &&
      match s' with
      | EmptyString => true
      | String "010"%char EmptyString => true
      | _ => hex_to_end s'
      end
  end.

(** [re.match(r"^[a-z0-9_+.-]+:[a-fA-F0-9]+$", digest)].  The first class
    has no [":"], so the algorithm part is what precedes the first
    [":"]. *)
Definition digest_format_ok (digest : string) : bool :=
  match PyStr.split1 ":" digest with
  | [algo; hexd] => PyStr.nonempty algo && all_chars algo_char algo && hex_to_end hexd
  | _ => false
  end.

Definition blob_url (repo digest : string) : string :=
  PyStr.cat ddiff_url (PyStr.cat "/v2/" (PyStr.cat repo (PyStr.cat "/blobs/" digest))).

Definition blob_file (dir digest : string) : string :=
  PyStr.cat dir (PyStr.cat "/" (PyStr.cat digest ".tar")).

(** [digest] is an element of a set of hashable values; [re.match] takes
    a [str] only. *)
Definition _download_blob (repo : string) (digest : key) (output_path : string)
  : M world unit :=
  match digest with
  | KStr digest =>
      (if negb (digest_format_ok digest) then lift print_error else ret tt) ;;;
      catch
        (response <- urlopen {| req_method := "GET";
                                req_url := blob_url repo digest;
                                req_headers := [];
                                req_data := None |} ;;
         write_file (blob_file output_path digest) (content response))
        (fun e => match e with
                  | HTTPError _ => lift print_error
                  | _ => lift print_error
                  end)
  | _ => raise TypeError
  end.

Definition uploads_url (repo : string) : string :=
  PyStr.cat ddiff_url (PyStr.cat "/v2/" (PyStr.cat repo "/blobs/uploads/")).

(** Returns the [Location] header, [None] when there is none. *)
Definition _request_upload_session (repo : string) : M world (option string) :=
  catch
    (res <- urlopen {| req_method := "POST";
                       req_url := uploads_url repo;
                       req_headers := [];
                       req_data := None |} ;;
     ret (getheader res "Location"))
    (fun e => match e with
              | HTTPError _ => lift print_error
              | _ => raise e
              end).

Definition hex_digit (n : N) : ascii :=
  match String.get (N.to_nat n) "0123456789ABCDEF" with
  | Some c => c
  | None => "0"%char
  end.

(** The characters [urllib.parse.quote] leaves alone: letters, digits,
    [_.-~] and the default safe character ["/"]. *)
Definition quote_safe (c : ascii) : bool :=
  in_range "a" "z" c || in_range "A" "Z" c || in_range "0" "9" c
  || Ascii.eqb c "_" || Ascii.eqb c "." || Ascii.eqb c "-" || Ascii.eqb c "~"
  || Ascii.eqb c "/".

(** [urllib.parse.quote(s)]. *)
Fixpoint quote (s : string) : string :=
  match s with
  | EmptyString => EmptyString
  | String c s' =>
      if quote_safe c then String c (quote s')
      else
        let n := N_of_ascii c in
        String "%" (String (hex_digit (n / 16)) (String (hex_digit (n mod 16)) (quote s')))
  end.

Definition upload_url (session_url digest : string) : string :=
  let delimiter := if PyStr.contains "?" session_url then "&" else "?" in
  PyStr.cat session_url (PyStr.cat delimiter (PyStr.cat "digest=" (quote digest))).

Definition _upload_blob (repo digest blob_dir : string) : M world unit :=
  catch
    (session_url <- _request_upload_session repo ;;
     data <- read_file (blob_file blob_dir digest) ;;
     match session_url with
     | None => raise TypeError
     | Some session_url =>
         res <- urlopen {| req_method := "PUT";
                           req_url := upload_url session_url digest;
                           req_headers := [("Content-Type", "application/octet-stream")];
                           req_data := Some data |} ;;
         ret tt
     end)
    (fun e => match e with
              | HTTPError _ => lift print_error
              | _ => raise e
              end).

Definition mount_url (target_repo base_repo digest : string) : string :=
  PyStr.cat ddiff_url (PyStr.cat "/v2/" (PyStr.cat target_repo
    (PyStr.cat "/blobs/uploads/?mount=" (PyStr.cat digest (PyStr.cat "&from=" base_repo))))).

Definition _cross_mount (target_repo base_repo digest : string) : M world unit :=
  catch
    (res <- urlopen {| req_method := "POST";
                       req_url := mount_url target_repo base_repo digest;
                       req_headers := [];
                       req_data := None |} ;;
     if status res =? 201 then ret tt
     else if status res =? 202 then lift print_error
     else ret tt)
    (fun e => match e with
              | HTTPError _ => lift print_error
              | _ => raise e
              end).

Definition _upload_manifest (tag manifest_path manifest_media_type : string)
  : M world unit :=
  match PyStr.split ":" tag with
  | [repo; version_tag] =>
      catch
        (data <- read_file manifest_path ;;
         res <- urlopen {| req_method := "PUT";
                           req_url := manifest_url repo version_tag;
                           req_headers := [("Content-Type", manifest_media_type)];
                           req_data := Some data |} ;;
         ret tt)
        (fun e => match e with
                  | HTTPError _ => lift print_error
                  | _ => raise e
                  end)
  | _ => raise ValueError
  end.

(** *** The container engine *)

Definition registry_tag_of (tag : string) : string :=
  PyStr.cat ddiff_url_base (PyStr.cat "/" tag).

Definition push_images (tags : list string) : M world unit :=
  for_each tags (fun host_tag =>
    let registry_tag := registry_tag_of (_prepare_tag host_tag) in
    run_command (PyStr.cat "docker tag " (PyStr.cat host_tag (PyStr.cat " " registry_tag))) ;;;
    run_command (PyStr.cat "docker push " registry_tag) ;;;
    run_command (PyStr.cat "docker rmi " registry_tag)).

(** *** Pack *)

Definition staging_dir : string := ".ddiff-image".

(** [os.path.join(dir, name)] for a relative [name] under a directory
    name that does not end in ["/"]. *)
Definition path_join (dir name : string) : string :=
  PyStr.cat dir (PyStr.cat "/" name).

Definition archive_name_of (target_tag : string) : string :=
  PyStr.cat (PyStr.replace ":" "-" (PyStr.replace "/" "--" target_tag)) ".tar.gz".

(** [with open(p, "w") as f: f.write(sep.join(xs))]: the file is opened,
    hence created or emptied, before the text is built. *)
Definition write_joined (p sep : string) (xs : list key) : M world unit :=
  write_file p "" ;;;
  text <- lift (PySet.join sep xs) ;;
  write_file p text.

(** What lines 199-214 of [diff_image] leave for the rest: the prepared
    tags, the two manifests and the target's content type. *)
Record fetched : Type := {
  f_base_tag : string;
  f_target_tag : string;
  f_base_manifest : string;
  f_target_manifest : string;
  f_target_manifest_media_type : string
}.

(** [diff_image], lines 199-214: push both images, make the staging
    tree, download the manifests. *)
Definition stage_and_fetch (base_tag target_tag : string) : M world fetched :=
  push_images [base_tag; target_tag] ;;;
  let base_tag := _prepare_tag base_tag in
  let target_tag := _prepare_tag target_tag in
  let output_dir := staging_dir in
  rmtree_ignore_errors output_dir ;;;
  let blob_dir := path_join output_dir "blobs" in
  makedirs blob_dir ;;;
  (* Download manifest *)
  base <- _request_manifest base_tag ;;
  target <- _request_manifest target_tag ;;
  ret {| f_base_tag := base_tag;
         f_target_tag := target_tag;
         f_base_manifest := fst base;
         f_target_manifest := fst target;
         f_target_manifest_media_type := snd target |}.

(** [diff_image], lines 216-246: the blob sets, the downloads, the
    metadata, the archive, the cleanup. *)
Definition pack (f : fetched) : M world unit :=
  let base_tag := f_base_tag f in
  let target_tag := f_target_tag f in
  let target_repo := repo_of target_tag in
  let output_dir := staging_dir in
  let blob_dir := path_join output_dir "blobs" in
  (* Download different blobs *)
  base_blobs <- lift (_parse_blob_list (f_base_manifest f)) ;;
  target_blobs <- lift (_parse_blob_list (f_target_manifest f)) ;;
  target_set <- lift (PySet.of_list target_blobs) ;;
  base_set <- lift (PySet.of_list base_blobs) ;;
  let diff_blobs := target_set ∖ base_set in
  _ <- lift (PySet.join "," (PySet.order diff_blobs)) ;;
  for_each (PySet.order diff_blobs) (fun digest =>
    _download_blob target_repo digest blob_dir) ;;;
  (* Write back metadata *)
  write_file (PyStr.cat output_dir "/manifest.json") (f_target_manifest f) ;;;
  write_file (path_join output_dir "MANIFEST_MEDIA_TYPE") (f_target_manifest_media_type f) ;;;
  write_file (path_join output_dir "BASE") base_tag ;;;
  write_file (path_join output_dir "TARGET") target_tag ;;;
  write_joined (path_join output_dir "MOUNT_BLOBS") "|"
    (PySet.order (target_set ∖ diff_blobs)) ;;;
  write_joined (path_join output_dir "UPLOAD_BLOBS") "|" (PySet.order diff_blobs) ;;;
  (* Archiving *)
  let archive_name := archive_name_of target_tag in
  tar_create archive_name output_dir ;;;
  rmtree output_dir.

Definition diff_image (base_tag target_tag : string) : M world unit :=
  f <- stage_and_fetch base_tag target_tag ;;
  pack f.

(** *** Replay *)

(** [f.read().strip().split("|")]. *)
Definition read_blob_list (text : string) : list string :=
  PyStr.split "|" (PyStr.strip text).

(** What lines 249-274 of [load_image] read from the package. *)
Record package : Type := {
  pk_base_tag : string;
  pk_target_tag : string;
  pk_mount_blobs : list string;
  pk_upload_blobs : list string;
  pk_manifest_media_type : string
}.

(** [load_image], lines 249-274: extract the archive, push the base
    image, read the metadata. *)
Definition open_package (base_tag : option string) (image_tarball : string)
  : M world package :=
  let input_dir := staging_dir in
  rmtree_ignore_errors input_dir ;;;
  tar_extractall image_tarball ;;;
  (* Parse base tag from the manifest only if not given *)
  base_tag <- match base_tag with
              | None => text <- read_file (path_join input_dir "BASE") ;;
                        ret (PyStr.strip text)
              | Some t => ret t
              end ;;
  push_images [base_tag] ;;;
  target_text <- read_file (path_join input_dir "TARGET") ;;
  let target_tag := PyStr.strip target_text in
  mount_text <- read_file (path_join input_dir "MOUNT_BLOBS") ;;
  let mount_blobs := read_blob_list mount_text in
  upload_text <- read_file (path_join input_dir "UPLOAD_BLOBS") ;;
  let upload_blobs := read_blob_list upload_text in
  let manifest_media_type_path := path_join input_dir "MANIFEST_MEDIA_TYPE" in
  there <- path_exists manifest_media_type_path ;;
  manifest_media_type <-
    (if there : bool then
       text <- read_file manifest_media_type_path ;;
       ret (let t := PyStr.strip text in
            if PyStr.nonempty t then t else DOCKER_MANIFEST_V2)
     else ret DOCKER_MANIFEST_V2) ;;
  ret {| pk_base_tag := base_tag;
         pk_target_tag := target_tag;
         pk_mount_blobs := mount_blobs;
         pk_upload_blobs := upload_blobs;
         pk_manifest_media_type := manifest_media_type |}.

(** [load_image], lines 276-296: mount, upload, put the manifest, clean
    up, pull the image back from a local registry. *)
Definition replay (p : package) : M world unit :=
  let input_dir := staging_dir in
  let base_repo := repo_of (pk_base_tag p) in
  let target_tag := pk_target_tag p in
  let target_repo := repo_of target_tag in
  (* Mount *)
  for_each (pk_mount_blobs p) (fun blob => _cross_mount target_repo base_repo blob) ;;;
  (* Upload *)
  let blob_dir := PyStr.cat input_dir "/blobs" in
  for_each (pk_upload_blobs p) (fun blob => _upload_blob target_repo blob blob_dir) ;;;
  _upload_manifest target_tag (PyStr.cat input_dir "/manifest.json")
    (pk_manifest_media_type p) ;;;
  rmtree input_dir ;;;
  if PyStr.contains "localhost" ddiff_url then
    let registry_tag := registry_tag_of target_tag in
    run_command (PyStr.cat "docker pull " registry_tag) ;;;
    run_command (PyStr.cat "docker tag " (PyStr.cat registry_tag (PyStr.cat " " target_tag))) ;;;
    run_command (PyStr.cat "docker rmi " registry_tag)
  else ret tt.

Definition load_image (base_tag : option string) (image_tarball : string)
  : M world unit :=
  p <- open_package base_tag image_tarball ;;
  replay p.

End Program.

End Ddiff.

(** ** The store seeder, [hub2registry.py] *)

Module Hub.

Definition SRC_REG : string := "https://registry-1.docker.io".

Definition ACCEPT : string :=
  PyStr.join "," [
    "application/vnd.docker.distribution.manifest.list.v2+json";
    "application/vnd.oci.image.index.v1+json";
    "application/vnd.docker.distribution.manifest.v2+json";
    "application/vnd.oci.image.manifest.v1+json"
  ].

(** A [GET] through the worker's [requests.Session].  The bearer token of
    the session ([get_session], [dockerhub_token]) is left to the
    registry side. *)
Record request : Type := {
  req_url : string;
  req_headers : list (string * string);
  req_stream : bool
}.

(** What comes back: a response whose body arrives in chunks and may break
    off before its end, a refused connection, or a timeout. *)
Inductive reply : Type :=
  | Response (status : Z) (headers : list (string * string))
             (chunks : list string) (complete : bool)
  | Refused
  | TimedOut.

Record response : Type := {
  status_code : Z;
  headers : list (string * string);
  chunks : list string;
  complete : bool
}.

(** [r.content]. *)
Definition content (r : response) : string :=
  fold_right PyStr.cat "" (chunks r).

Inductive event : Type :=
  | EvSleep (seconds : Z)
  | EvGet (req : request) (rep : reply).

(** One worker's world: the files of the output tree by path (directories
    are implicit, [ensure] always succeeds), the [DOWNLOADED] set, and the
    events so far. *)
Record world : Type := {
  fs : gmap string string;
  DOWNLOADED : gset string;
  trace : list event
}.

Definition set_fs (f : gmap string string) (w : world) : world :=
  {| fs := f; DOWNLOADED := DOWNLOADED w; trace := trace w |}.
Definition set_downloaded (d : gset string) (w : world) : world :=
  {| fs := fs w; DOWNLOADED := d; trace := trace w |}.
Definition log (e : event) (w : world) : world :=
  {| fs := fs w; DOWNLOADED := DOWNLOADED w; trace := trace w ++ [e] |}.

(** The surroundings: the source registry, [json.loads] ([None] when it
    raises), [hashlib.sha256(...).hexdigest()], and the text an f-string
    gives a value that is not a [str]. *)
Class Env : Type := {
  registry : list event -> request -> reply;
  json_loads : string -> option json;
  sha256_hex : string -> string;
  str_of : json -> string
}.

Section Program.

Context `{Env}.

(** *** FS helpers *)

(** [ensure(path)]: [os.makedirs(path, exist_ok=True)]. *)
Definition ensure (path : string) : M world unit := ret tt.

(** [os.path.join(a, *p)] of [posixpath]. *)
Definition join2 (path b : string) : string :=
  if PyStr.startswith "/" b then b
  else if negb (PyStr.nonempty path) || PyStr.endswith "/" path then PyStr.cat path b
  else PyStr.cat path (PyStr.cat "/" b).

Definition path_join (a : string) (p : list string) : string :=
  fold_left join2 p a.

(** [algo, hexd = digest.split(":", 1)]. *)
Definition split_digest (digest : string) : result (string * string) :=
  match PyStr.split1 ":" digest with
  | [algo; hexd] => Ok (algo, hexd)
  | _ => Raise ValueError
  end.

Definition blob_file_path (root digest : string) : result string :=
  rbind (split_digest digest) (fun ah =>
  let algo := fst ah in
  let hexd := snd ah in
  Ok (path_join root ["docker"; "registry"; "v2"; "blobs"; algo; PyStr.take 2 hexd; hexd; "data"])).

Definition path_exists (p : string) : M world bool :=
  gets (fun w => match fs w !! p with Some _ => true | None => false end).

Definition write_bytes (p data : string) : M world unit :=
  modify (fun w => set_fs (<[ p := data ]> (fs w)) w).

Definition read_bytes (p : string) : M world string :=
  fun w => match fs w !! p with
           | Some c => (Ok c, w)
           | None => (Raise FileNotFoundError, w)
           end.

(** [f.write(chunk)] on a file open for writing. *)
Definition append_bytes (p data : string) : M world unit :=
  modify (fun w =>
    set_fs (<[ p := PyStr.cat (match fs w !! p with Some c => c | None => "" end) data ]> (fs w)) w).

(** [os.remove(p)]. *)
Definition os_remove (p : string) : M world unit :=
  fun w => match fs w !! p with
           | Some _ => (Ok tt, set_fs (delete p (fs w)) w)
           | None => (Raise FileNotFoundError, w)
           end.

(** [os.replace(src, dst)]. *)
Definition os_replace (src dst : string) : M world unit :=
  fun w => match fs w !! src with
           | Some c => (Ok tt, set_fs (<[ dst := c ]> (delete src (fs w))) w)
           | None => (Raise FileNotFoundError, w)
           end.

Definition write_link (path digest : string) : M world unit :=
  ensure path ;;;
  write_bytes path digest.

Definition sha256_hex_of_file (p : string) : M world string :=
  data <- read_bytes p ;;
  ret (sha256_hex data).

Definition sha256_hex_of_bytes (b : string) : string := sha256_hex b.

Definition downloaded_add (digest : string) : M world unit :=
  modify (fun w => set_downloaded ({[ digest ]} ∪ DOWNLOADED w) w).

Definition downloaded_discard (digest : string) : M world unit :=
  modify (fun w => set_downloaded (DOWNLOADED w ∖ {[ digest ]}) w).

(** *** HTTP helpers with simple retry *)

Definition sleep (seconds : Z) : M world unit := modify (log (EvSleep seconds)).

(** [s.get(url, headers=..., stream=...)].  Without [stream] the body is
    read at once, and a body that breaks off is an error of the call. *)
Definition session_get (url : string) (hdrs : list (string * string)) (stream : bool)
  : M world response :=
  fun w =>
    let req := {| req_url := url; req_headers := hdrs; req_stream := stream |} in
    let rep := registry (trace w) req in
    let w' := log (EvGet req rep) w in
    match rep with
    | Response st h cs full =>
        if stream || full
        then (Ok {| status_code := st; headers := h; chunks := cs; complete := full |}, w')
        else (Raise ChunkedEncodingError, w')
    | Refused => (Raise ConnectionError, w')
    | TimedOut => (Raise Timeout, w')
    end.

(** [r.raise_for_status()]. *)
Definition raise_for_status (r : response) : M world unit :=
  if (400 <=? status_code r) && (status_code r <? 600)
  then raise (HTTPError (Some (status_code r)))
  else ret tt.

(** The statuses [_with_retry] tries again on. *)
Definition retry_status (status : option Z) : bool :=
  match status with
  | Some s => (s =? 429) || (s =? 500) || (s =? 502) || (s =? 503) || (s =? 504)
  | None => false
  end.

(** [min(max_delay, base_delay * (2 ** i))].  The delays are whole
    seconds: with the defaults 1.0 and 8.0 every product is an integer
    that a float holds exactly. *)
Definition backoff (base_delay max_delay : Z) (i : nat) : Z :=
  Z.min max_delay (base_delay * 2 ^ Z.of_nat i).

(** The loop [for i in range(retries)] from index [i] on, with [left]
    rounds to go; after the loop, [last] is raised when there is one, and
    [None] is returned otherwise. *)
Fixpoint retry_loop {A} (fn : M world A) (base_delay max_delay : Z)
         (i left : nat) (last : option exn) : M world (option A) :=
  match left with
  | O => match last with
         | Some e => raise e
         | None => ret None
         end
  | S left' =>
      catch
        (a <- fn ;; ret (Some a))
        (fun e =>
           match e with
           | HTTPError st =>
               if retry_status st then
                 sleep (backoff base_delay max_delay i) ;;;
                 retry_loop fn base_delay max_delay (S i) left' (Some e)
               else raise e
           | ConnectionError | Timeout =>
               sleep (backoff base_delay max_delay i) ;;;
               retry_loop fn base_delay max_delay (S i) left' (Some e)
           | _ => raise e
           end)
  end.

Definition _with_retry {A} (fn : M world A) (retries : nat) (base_delay max_delay : Z)
  : M world (option A) :=
  retry_loop fn base_delay max_delay O retries None.

(** [_with_retry(fn)] with the defaults [retries=5, base_delay=1.0,
    max_delay=8.0], used as a response: [None] has no attributes. *)
Definition with_retry_default {A} (fn : M world A) : M world A :=
  r <- _with_retry fn 5 1 8 ;;
  match r with
  | Some a => ret a
  | None => raise AttributeError
  end.

(** *** Manifest and blob fetch *)

Definition manifest_url (repo ref : string) : string :=
  PyStr.cat SRC_REG (PyStr.cat "/v2/" (PyStr.cat repo (PyStr.cat "/manifests/" ref))).

(** The inner [_get(url)] of [fetch_manifest]. *)
Definition _get (url : string) : M world response :=
  r <- session_get url [("Accept", ACCEPT)] false ;;
  raise_for_status r ;;;
  ret r.

(** [r.headers.get("Content-Type", "")]. *)
Definition content_type (r : response) : string :=
  match Net.header "Content-Type" (headers r) with Some v => v | None => "" end.

(** The loop over [idx.get("manifests", [])]: the digest of the first
    entry whose platform has [os == "linux"] and
    [architecture == "amd64"], [None] when the loop ends without one. *)
Fixpoint pick_platform (manifests : list json) : result json :=
  match manifests with
  | [] => Ok JNull
  | m :: rest =>
      rbind (Py.get m "platform" (JObj [])) (fun p =>
      rbind (Py.get_none p "os") (fun os =>
      if Py.eq_str os "linux" then
        rbind (Py.get_none p "architecture") (fun arch =>
        if Py.eq_str arch "amd64" then Py.getitem m "digest"
        else pick_platform rest)
      else pick_platform rest))
  end.

(** A value inside an f-string. *)
Definition format_value (x : json) : string :=
  match x with JStr s => s | _ => str_of x end.

Definition parse_json (body : string) : M world json :=
  match json_loads body with
  | Some j => ret j
  | None => raise JSONDecodeError
  end.

(** Returns [(manifest_bytes, manifest_json, content_type)]. *)
Definition fetch_manifest (repo ref : string) : M world (string * json * string) :=
  r <- with_retry_default (_get (manifest_url repo ref)) ;;
  let ct := content_type r in
  let body := content r in
  selected <-
    (if PyStr.contains "manifest.list.v2+json" ct || PyStr.contains "image.index.v1+json" ct
     then
       idx <- parse_json (content r) ;;
       manifests_value <- lift (Py.get idx "manifests" (JArr [])) ;;
       manifests <- lift (Py.iter manifests_value) ;;
       picked <- lift (pick_platform manifests) ;;
       (if negb (Py.truthy picked)
        then raise (RuntimeError
                      (PyStr.cat "linux/amd64 not found in index for "
                         (PyStr.cat repo (PyStr.cat ":" ref))))
        else ret tt) ;;;
       r2 <- with_retry_default (_get (manifest_url repo (format_value picked))) ;;
       ret (content r2, content_type r2)
     else ret (body, ct)) ;;
  let body := fst selected in
  let ct := snd selected in
  man <- parse_json body ;;
  ret (body, man, ct).

Definition blob_url (repo digest : string) : string :=
  PyStr.cat SRC_REG (PyStr.cat "/v2/" (PyStr.cat repo (PyStr.cat "/blobs/" digest))).

(** The inner [_get_stream()] of [stream_download_blob]. *)
Definition _get_stream (url : string) : M world response :=
  r <- session_get url [] true ;;
  raise_for_status r ;;;
  ret r.

(** [for chunk in r.iter_content(...)]: every non-empty chunk goes into
    the hash [h] (kept as the bytes hashed so far) and into the file. *)
Fixpoint write_chunks (tmp : string) (cs : list string) (h : string) : M world string :=
  match cs with
  | [] => ret h
  | chunk :: rest =>
      if PyStr.nonempty chunk then
        append_bytes tmp chunk ;;;
        write_chunks tmp rest (PyStr.cat h chunk)
      else write_chunks tmp rest h
  end.

(** The body of [with open(tmp, "wb") as f]; a stream that breaks off
    raises once its chunks are through. *)
Definition stream_to_file (r : response) (tmp : string) : M world string :=
  write_bytes tmp "" ;;;
  h <- write_chunks tmp (chunks r) "" ;;
  if complete r then ret h else raise ChunkedEncodingError.

Fixpoint upto_last_slash (s : string) : option string :=
  match s with
  | EmptyString => None
  | String c s' =>
      match upto_last_slash s' with
      | Some h => Some (String c h)
      | None => if Ascii.eqb c "/" then Some "/" else None
      end
  end.

Fixpoint rstrip_slashes (s : string) : string :=
  match s with
  | EmptyString => EmptyString
  | String c s' =>
      match rstrip_slashes s' with
      | EmptyString => if Ascii.eqb c "/" then EmptyString else String c EmptyString
      | r => String c r
      end
  end.

(** [os.path.dirname(p)]. *)
Definition dirname (p : string) : string :=
  match upto_last_slash p with
  | None => ""
  | Some head =>
      match rstrip_slashes head with
      | EmptyString => head
      | stripped => stripped
      end
  end.

Definition stream_download_blob (repo digest dest_path : string) : M world unit :=
  (* Check if already present on disk *)
  there <- path_exists dest_path ;;
  if there : bool then downloaded_add digest
  else
    (* Best-effort in-memory dedup *)
    known <- gets (fun w => bool_decide (digest ∈ DOWNLOADED w)) ;;
    if known : bool then ret tt
    else
      downloaded_add digest ;;;
      let url := blob_url repo digest in
      r <- with_retry_default (_get_stream url) ;;
      ah <- lift (split_digest digest) ;;
      let hexd := snd ah in
      ensure (dirname dest_path) ;;;
      let tmp := PyStr.cat dest_path ".part" in
      h <- stream_to_file r tmp ;;
      let got := sha256_hex h in
      if negb (String.eqb got hexd) then
        (* Clear downloaded marker on mismatch so another attempt can proceed *)
        downloaded_discard digest ;;;
        os_remove tmp ;;;
        raise (RuntimeError
                 (PyStr.cat "SHA256 mismatch for " (PyStr.cat digest (PyStr.cat ": got " got))))
      else os_replace tmp dest_path.

(** *** Registry mapping *)

(** [dg.split(":", 1)[1]]. *)
Definition hex_part (dg : string) : result string :=
  match PyStr.split1 ":" dg with
  | _ :: hexd :: _ => Ok hexd
  | _ => Raise IndexError
  end.

Definition map_repository (root repo tag manifest_digest config : string)
           (layers : list string) : M world unit :=
  let regv2 := path_join root ["docker"; "registry"; "v2"] in
  let repo_root := path_join regv2 ("repositories" :: PyStr.split "/" repo) in
  (* _layers (config + layers) *)
  for_each (config :: layers) (fun dg =>
    hexd <- lift (hex_part dg) ;;
    let link := path_join repo_root ["_layers"; "sha256"; hexd; "link"] in
    write_link link dg) ;;;
  (* revisions/<mdgst>/link *)
  mdhex <- lift (hex_part manifest_digest) ;;
  let rev_link := path_join repo_root ["_manifests"; "revisions"; "sha256"; mdhex; "link"] in
  write_link rev_link manifest_digest ;;;
  (* tags/<tag>/index/sha256/<mdgst>/link *)
  let idx_link := path_join repo_root ["_manifests"; "tags"; tag; "index"; "sha256"; mdhex; "link"] in
  write_link idx_link manifest_digest ;;;
  (* tags/<tag>/current/link *)
  let cur_link := path_join repo_root ["_manifests"; "tags"; tag; "current"; "link"] in
  write_link cur_link manifest_digest.

(** *** Per-image worker *)

Record image_meta : Type := {
  meta_repo : string;
  meta_tag : string;
  meta_manifest_digest : string;
  meta_config : json;
  meta_layers : list json;
  meta_manifest_media_type : string
}.

(** [[l["digest"] for l in ...]]. *)
Fixpoint layer_digests (layers : list json) : result (list json) :=
  match layers with
  | [] => Ok []
  | l :: rest =>
      rbind (Py.getitem l "digest") (fun d =>
      rbind (layer_digests rest) (fun ds => Ok (d :: ds)))
  end.

(** A digest used as a [str]: [digest.split] exists on a [str] only. *)
Definition as_str (x : json) : result string :=
  match x with
  | JStr s => Ok s
  | _ => Raise AttributeError
  end.

(** Lines 258-273: the manifest stored as a blob, if missing. *)
Definition store_manifest_blob (out man_bytes mdhex mdgst : string) : M world unit :=
  m_dest <- lift (blob_file_path out mdgst) ;;
  there <- path_exists m_dest ;;
  if there : bool then ret tt
  else
    ensure (dirname m_dest) ;;;
    let tmp := PyStr.cat m_dest ".part" in
    write_bytes tmp man_bytes ;;;
    (* Verify content hash just in case *)
    got <- sha256_hex_of_file tmp ;;
    if negb (String.eqb got mdhex) then
      os_remove tmp ;;;
      raise (RuntimeError (PyStr.cat "Manifest blob sha mismatch for " mdgst))
    else
      os_replace tmp m_dest ;;;
      downloaded_add mdgst.

(** Lines 275-283: config and layer blobs, skipping existing ones. *)
Definition download_blobs (out repo : string) (digests : list json) : M world unit :=
  for_each digests (fun dg =>
    dg_str <- lift (as_str dg) ;;
    dest <- lift (blob_file_path out dg_str) ;;
    there <- path_exists dest ;;
    if there : bool then downloaded_add dg_str
    else stream_download_blob repo dg_str dest).

Fixpoint as_strs (l : list json) : result (list string) :=
  match l with
  | [] => Ok []
  | x :: rest => rbind (as_str x) (fun s => rbind (as_strs rest) (fun t => Ok (s :: t)))
  end.

Definition process_image (out repo tag : string) : M world image_meta :=
  (* Fetch manifest (or selected platform manifest) *)
  fetched <- fetch_manifest repo tag ;;
  let man_bytes := fst (fst fetched) in
  let man := snd (fst fetched) in
  let mct := snd fetched in
  let mdhex := sha256_hex_of_bytes man_bytes in
  let mdgst := PyStr.cat "sha256:" mdhex in
  (* Prepare list of required blobs for this image *)
  config <- lift (Py.getitem man "config") ;;
  cfg <- lift (Py.getitem config "digest") ;;
  layers_value <- lift (Py.get man "layers" (JArr [])) ;;
  layer_list <- lift (Py.iter layers_value) ;;
  layers <- lift (layer_digests layer_list) ;;
  (* Ensure manifest blob exists *)
  store_manifest_blob out man_bytes mdhex mdgst ;;;
  (* Download config + layer blobs (skip existing) *)
  download_blobs out repo (cfg :: layers) ;;;
  (* Write repository links so the registry can discover the tag *)
  cfg_str <- lift (as_str cfg) ;;
  layer_strs <- lift (as_strs layers) ;;
  map_repository out repo tag mdgst cfg_str layer_strs ;;;
  ret {| meta_repo := repo;
         meta_tag := tag;
         meta_manifest_digest := mdgst;
         meta_config := cfg;
         meta_layers := layers;
         meta_manifest_media_type := mct |}.

(** *** Image ref parsing (lines 97-109) *)

(** [parse_ref(line)]: [None] for a blank line, [(repo, tag)] otherwise.
    The unpacking [repo, tag = line.rsplit(":", 1)] needs two parts. *)
Definition parse_ref (line : string) : result (option (string * string)) :=
  let line := PyStr.strip line in
  if negb (PyStr.nonempty line) then Ok None
  else
    rbind (if PyStr.contains ":" (List.last (PyStr.split "/" line) "")
           then match PyStr.rsplit1 ":" line with
                | [repo; tag] => Ok (repo, tag)
                | _ => Raise ValueError
                end
           else Ok (line, "latest")) (fun repo_tag =>
    let repo := fst repo_tag in
    let tag := snd repo_tag in
    (* "library" fallback if single segment like "ubuntu" *)
    let repo := if negb (PyStr.contains "/" repo) then PyStr.cat "library/" repo else repo in
    Ok (Some (repo, tag))).

End Program.

End Hub.

(** ** Vocabulary of the statements *)

(** A relation between the world before and the world after that every step
    of a computation keeps: a frame. *)
Definition keeps {W A} (R : W -> W -> Prop) (m : M W A) : Prop :=
  forall w, R w (snd (m w)).

(** From a world in [P], the computation ends in [Q] when it returns and in
    [E] when it raises. *)
Definition hoare {W A} (P : W -> Prop) (m : M W A)
           (Q : A -> W -> Prop) (E : exn -> W -> Prop) : Prop :=
  forall w, P w ->
    match m w with
    | (Ok a, w') => Q a w'
    | (Raise e, w') => E e w'
    end.

Module Spec.

(** The manifest is a [dict] whose ["config"] is a [dict] with digest [c]. *)
Definition config_is (manifest c : json) : Prop :=
  exists config,
    Py.getitem manifest "config" = Ok config /\ Py.getitem config "digest" = Ok c.

(** The manifest's ["layers"] is a list of [dict]s whose digests are, in
    order, [ls]. *)
Definition layers_are (manifest : json) (ls : list json) : Prop :=
  exists layers,
    Py.getitem manifest "layers" = Ok (JArr layers)
    /\ Forall2 (fun layer l => Py.getitem layer "digest" = Ok l) layers ls.

(** The media type the validation looks at: the ["mediaType"] of the
    manifest, the empty string when there is none. *)
Definition media_type_is (manifest mt : json) : Prop :=
  Py.get manifest "mediaType" (JStr "") = Ok mt.

(** Between two worlds of [ddiff.py], only the trace has grown. *)
Definition quiet (w w' : Ddiff.world) : Prop :=
  Ddiff.fs w' = Ddiff.fs w /\ Ddiff.archives w' = Ddiff.archives w.

(** Between two worlds of [ddiff.py], the archives are the same and no
    directory has disappeared. *)
Definition steady (w w' : Ddiff.world) : Prop :=
  Ddiff.archives w' = Ddiff.archives w
  /\ forall k, Ddiff.fs w !! k = Some Ddiff.Dir -> Ddiff.fs w' !! k = Some Ddiff.Dir.

(** Nothing is left of the staging directory. *)
Definition staging_gone (w : Ddiff.world) : Prop :=
  forall k, Ddiff.is_under Ddiff.staging_dir k = true -> Ddiff.fs w !! k = None.

(** The staging directory is there. *)
Definition staging_there (w : Ddiff.world) : Prop :=
  Ddiff.fs w !! Ddiff.staging_dir = Some Ddiff.Dir.

(** The archives are [a0] and the staging directory is there. *)
Definition packing (a0 : gmap string (gmap string Ddiff.node)) (w : Ddiff.world) : Prop :=
  Ddiff.archives w = a0 /\ staging_there w.

(** The request [_cross_mount] sends. *)
Definition mount_request `{Ddiff.Env} (target_repo base_repo digest : string)
  : Net.request :=
  {| Net.req_method := "POST";
     Net.req_url := Ddiff.mount_url target_repo base_repo digest;
     Net.req_headers := [];
     Net.req_data := None |}.

(** The request [_request_upload_session] sends. *)
Definition session_request `{Ddiff.Env} (repo : string) : Net.request :=
  {| Net.req_method := "POST";
     Net.req_url := Ddiff.uploads_url repo;
     Net.req_headers := [];
     Net.req_data := None |}.

(** The request [_upload_blob] sends once it has a session. *)
Definition put_request (session_url digest data : string) : Net.request :=
  {| Net.req_method := "PUT";
     Net.req_url := Ddiff.upload_url session_url digest;
     Net.req_headers := [("Content-Type", "application/octet-stream")];
     Net.req_data := Some data |}.

(** The request [_download_blob] sends. *)
Definition blob_request `{Ddiff.Env} (repo digest : string) : Net.request :=
  {| Net.req_method := "GET";
     Net.req_url := Ddiff.blob_url repo digest;
     Net.req_headers := [];
     Net.req_data := None |}.

(** The registry did not answer with a 2xx status. *)
Definition failed (rep : Net.reply) : Prop :=
  match rep with
  | Net.Response st _ _ => ((200 <=? st) && (st <? 300)) = false
  | Net.Unreachable => True
  end.

(** *** The store seeder *)

(** The errors worth another attempt: HTTP 429, 500, 502, 503, 504, a
    failed connection, a timeout. *)
Definition retryable (e : exn) : bool :=
  match e with
  | HTTPError (Some s) => (s =? 429) || (s =? 500) || (s =? 502) || (s =? 503) || (s =? 504)
  | ConnectionError | Timeout => true
  | _ => false
  end.

(** The retry policy of the specification, with the sleep the code makes
    after the fifth failed attempt written out.
    [retry_policy fn i w out]: the attempts from number [i] on (counted
    from 0, five at most), the first of them made in world [w], end as
    [out].  An attempt that returns ends the call; an error that is not
    [retryable] is raised at once; a [retryable] error is followed by a
    sleep of [min(8, 2^i)] seconds and, while attempts are left, by the
    next attempt; after the fifth, the last error is raised. *)
Inductive retry_policy {A} (fn : M Hub.world A)
  : nat -> Hub.world -> result (option A) * Hub.world -> Prop :=
  | attempt_returns i w a w' :
      (i < 5)%nat ->
      fn w = (Ok a, w') ->
      retry_policy fn i w (Ok (Some a), w')
  | attempt_fatal i w e w' :
      (i < 5)%nat ->
      fn w = (Raise e, w') ->
      retryable e = false ->
      retry_policy fn i w (Raise e, w')
  | attempt_retried i w e w' out :
      (S i < 5)%nat ->
      fn w = (Raise e, w') ->
      retryable e = true ->
      retry_policy fn (S i) (Hub.log (Hub.EvSleep (Z.min 8 (2 ^ Z.of_nat i))) w') out ->
      retry_policy fn i w out
  | attempts_exhausted w e w' :
      fn w = (Raise e, w') ->
      retryable e = true ->
      retry_policy fn 4 w (Raise e, Hub.log (Hub.EvSleep 8) w').

(** The sleeps of a trace, in order. *)
Fixpoint sleeps (t : list Hub.event) : list Z :=
  match t with
  | [] => []
  | Hub.EvSleep s :: rest => s :: sleeps rest
  | Hub.EvGet _ _ :: rest => sleeps rest
  end.

(** Between two worlds of the seeder, only the trace has grown. *)
Definition same_store (w w' : Hub.world) : Prop :=
  Hub.fs w' = Hub.fs w /\ Hub.DOWNLOADED w' = Hub.DOWNLOADED w.

Definition is_str (x : option json) (s : string) : bool :=
  match x with Some y => Py.eq_str y s | None => false end.

(** An entry of an index whose platform says [os: linux] and
    [architecture: amd64]. *)
Definition is_linux_amd64 (m : json) : bool :=
  match m with
  | JObj f =>
      match Py.assoc "platform" f with
      | Some (JObj p) =>
          is_str (Py.assoc "os" p) "linux" && is_str (Py.assoc "architecture" p) "amd64"
      | _ => false
      end
  | _ => false
  end.

(** A well-formed entry of an index: a [dict] whose ["platform"], when it
    has one, is a [dict]. *)
Definition index_entry (m : json) : Prop :=
  exists f, m = JObj f
            /\ (Py.assoc "platform" f = None \/ exists p, Py.assoc "platform" f = Some (JObj p)).

(** The content type of a manifest list or index, as [fetch_manifest]
    recognises it. *)
Definition is_index_type (ct : string) : bool :=
  PyStr.contains "manifest.list.v2+json" ct || PyStr.contains "image.index.v1+json" ct.

(** The file at [p] is the blob of some digest with canonical path [p],
    and its bytes hash to the hex part of that digest. *)
Definition verified_at `{Hub.Env} (out : string) (files : gmap string string) (p : string)
  : Prop :=
  exists digest algo hexd data,
    Hub.split_digest digest = Ok (algo, hexd)
    /\ Hub.blob_file_path out digest = Ok p
    /\ files !! p = Some data
    /\ Hub.sha256_hex data = hexd.

(** Every path whose content differs between [w] and [w'] is a temporary
    [.part] file, a [link] file, or a canonical blob path holding verified
    bytes. *)
Definition verified_writes `{Hub.Env} (out : string) (w w' : Hub.world) : Prop :=
  forall p,
    Hub.fs w' !! p = Hub.fs w !! p
    \/ PyStr.endswith ".part" p = true
    \/ PyStr.endswith "link" p = true
    \/ verified_at out (Hub.fs w') p.

(** *** More vocabulary *)

(** A tag with two colons at least: [a:b:c]. *)
Definition two_colons (a b c : string) : string :=
  PyStr.cat a (String ":" (PyStr.cat b (String ":" c))).

(** Between two worlds of [ddiff.py], nothing has changed outside the
    staging directory, and no archive other than [name] has changed. *)
Definition confined (name : string) (w w' : Ddiff.world) : Prop :=
  (forall k, Ddiff.is_under Ddiff.staging_dir k = false -> Ddiff.fs w' !! k = Ddiff.fs w !! k)
  /\ (forall n, n <> name -> Ddiff.archives w' !! n = Ddiff.archives w !! n).

(** Between two worlds of [ddiff.py], every regular file is still a
    regular file. *)
Definition files_stay (w w' : Ddiff.world) : Prop :=
  forall k c, Ddiff.fs w !! k = Some (Ddiff.File c) ->
              exists c', Ddiff.fs w' !! k = Some (Ddiff.File c').

(** A path component that [os.path.join] takes as it is: not empty and
    without ["/"]. *)
Definition plain_name (s : string) : bool :=
  PyStr.nonempty s && negb (PyStr.contains "/" s).

(** A directory name that [os.path.join] extends with a ["/"]. *)
Definition open_dir (p : string) : Prop :=
  PyStr.nonempty p = true /\ PyStr.endswith "/" p = false.

(** A digest [<algo>:<hex>] whose two parts are plain path components. *)
Definition plain_digest (digest : string) : bool :=
  match PyStr.split1 ":" digest with
  | [algo; hexd] => plain_name algo && plain_name hexd
  | _ => false
  end.

(** The blob of [digest] is in the store under [out]. *)
Definition present (out digest : string) (w : Hub.world) : Prop :=
  exists dest, Hub.blob_file_path out digest = Ok dest /\ is_Some (Hub.fs w !! dest).

(** Every digest marked in [DOWNLOADED] has its blob in the store. *)
Definition marked_present (out : string) (w : Hub.world) : Prop :=
  forall digest, digest ∈ Hub.DOWNLOADED w -> present out digest w.

(** Between two worlds of the seeder, no file has disappeared, temporary
    [.part] files apart. *)
Definition files_kept (w w' : Hub.world) : Prop :=
  forall p, PyStr.endswith ".part" p = false ->
            is_Some (Hub.fs w !! p) -> is_Some (Hub.fs w' !! p).

End Spec.

(** ** A small registry to run the pipeline on *)

Module Fixture.

Import Net Ddiff.

(** Sets iterated in the order of [elements]. *)
Definition elements_order : PySet.Order :=
  {| PySet.order := elements; PySet.order_perm := fun s => reflexivity (elements s) |}.

Definition manifest_of (media_type cfg : string) (layers : list string) : json :=
  JObj [("schemaVersion", JNum 2);
        ("mediaType", JStr media_type);
        ("config", JObj [("digest", JStr cfg)]);
        ("layers", JArr (map (fun d => JObj [("digest", JStr d)]) layers))].

(** The decoded form of the bodies the registry below serves. *)
Definition decode (body : string) : option json :=
  if String.eqb body "<base manifest>" then
    Some (manifest_of DOCKER_MANIFEST_V2 "sha256:aa" ["sha256:bb"; "sha256:cc"])
  else if String.eqb body "<target manifest>" then
    Some (manifest_of DOCKER_MANIFEST_V2 "sha256:aa" ["sha256:bb"; "sha256:dd"])
  else if String.eqb body "<other manifest>" then
    Some (manifest_of OCI_MANIFEST_V1 "sha256:ee" ["sha256:ff"])
  else if String.eqb body "<index>" then
    Some (JObj [("mediaType", JStr OCI_INDEX_V1); ("manifests", JArr [])])
  else None.

(** A registry given by a table: the first rule with the method and the
    URL of the request answers; 404 otherwise. *)
Definition rule : Type := string * string * reply.

Fixpoint answer (rules : list rule) (r : request) : reply :=
  match rules with
  | [] => Response 404 [] ""
  | (m, u, rep) :: rest =>
      if String.eqb m (req_method r) && String.eqb u (req_url r) then rep
      else answer rest r
  end.

Definition env_of (rules : list rule) : Env :=
  {| getenv := fun _ => None;
     registry := fun _ r => answer rules r;
     json_loads := decode;
     set_order := elements_order |}.

Definition v2 : string := "http://localhost:5000/v2/".

(** Base image [aa; bb; cc], target image [aa; bb; dd], and a third image
    [ee; ff] that shares nothing with them. *)
Definition rules : list rule :=
  [ ("GET", PyStr.cat v2 "base/manifests/latest",
     Response 200 [("Content-Type", DOCKER_MANIFEST_V2)] "<base manifest>");
    ("GET", PyStr.cat v2 "target/manifests/latest",
     Response 200 [("Content-Type", DOCKER_MANIFEST_V2)] "<target manifest>");
    ("GET", PyStr.cat v2 "other/manifests/latest",
     Response 200 [("Content-Type", DOCKER_MANIFEST_V2)] "<other manifest>");
    ("GET", PyStr.cat v2 "target/blobs/sha256:aa", Response 200 [] "<config aa>");
    ("GET", PyStr.cat v2 "target/blobs/sha256:bb", Response 200 [] "<layer bb>");
    ("GET", PyStr.cat v2 "target/blobs/sha256:dd", Response 200 [] "<layer dd>");
    ("POST", PyStr.cat v2 "target/blobs/uploads/?mount=sha256:aa&from=base",
     Response 201 [] "");
    ("POST", PyStr.cat v2 "target/blobs/uploads/?mount=sha256:bb&from=base",
     Response 201 [] "");
    ("POST", PyStr.cat v2 "target/blobs/uploads/",
     Response 202 [("Location", PyStr.cat v2 "target/blobs/uploads/session-1")] "");
    ("PUT", PyStr.cat v2 "target/blobs/uploads/session-1?digest=sha256%3Add",
     Response 201 [] "");
    ("PUT", PyStr.cat v2 "target/manifests/latest", Response 201 [] "") ].

Definition env : Env := env_of rules.

(** The same registry with some answers replaced. *)
Definition env_with (overrides : list rule) : Env := env_of (overrides ++ rules)%list.

Definition empty_world : world := {| fs := ∅; archives := ∅; trace := [] |}.

Definition base_blobs : list json :=
  [JStr "sha256:aa"; JStr "sha256:bb"; JStr "sha256:cc"].
Definition target_blobs : list json :=
  [JStr "sha256:aa"; JStr "sha256:bb"; JStr "sha256:dd"].
Definition base_set : gset key :=
  {[ KStr "sha256:aa" ]} ∪ ({[ KStr "sha256:bb" ]} ∪ ({[ KStr "sha256:cc" ]} ∪ ∅)).
Definition target_set : gset key :=
  {[ KStr "sha256:aa" ]} ∪ ({[ KStr "sha256:bb" ]} ∪ ({[ KStr "sha256:dd" ]} ∪ ∅)).

(** What [ddiff diff base target] has fetched when it starts to pack. *)
Definition fetched_manifests : fetched :=
  {| f_base_tag := "base:latest";
     f_target_tag := "target:latest";
     f_base_manifest := "<base manifest>";
     f_target_manifest := "<target manifest>";
     f_target_manifest_media_type := DOCKER_MANIFEST_V2 |}.

Definition staged_world (E : Env) : world :=
  snd (stage_and_fetch (H := E) "base" "target" empty_world).

(** The world after [ddiff diff <base> target] against [E]. *)
Definition packed_world (E : Env) (base : string) : world :=
  snd (diff_image (H := E) base "target" empty_world).

Definition archive : string := "target-latest.tar.gz".

(** The blob request for [dd] is refused. *)
Definition env_no_blob : Env :=
  env_with [("GET", PyStr.cat v2 "target/blobs/sha256:dd", Response 404 [] "")].

(** The base manifest is missing. *)
Definition env_no_base : Env :=
  env_with [("GET", PyStr.cat v2 "base/manifests/latest", Response 404 [] "")].

(** The registry cannot mount [aa] from the base repository. *)
Definition env_no_mount : Env :=
  env_with [("POST", PyStr.cat v2 "target/blobs/uploads/?mount=sha256:aa&from=base",
             Response 202 [("Location", PyStr.cat v2 "target/blobs/uploads/session-2")] "")].

(** A package made by hand: no [BASE] file, a blank media type, and
    texts that end in a line feed. *)
Definition line (s : string) : string := PyStr.cat s (String "010" "").

Definition bare_tree : gmap string node :=
  <[ path_join staging_dir "TARGET" := File (line "target:latest") ]>
  (<[ path_join staging_dir "MOUNT_BLOBS" := File "sha256:aa|sha256:bb" ]>
  (<[ path_join staging_dir "UPLOAD_BLOBS" := File (line "sha256:dd") ]>
  (<[ path_join staging_dir "MANIFEST_MEDIA_TYPE" := File " " ]> ∅))).

Definition bare_world : world :=
  {| fs := ∅; archives := <[ "package.tar.gz" := bare_tree ]> ∅; trace := [] |}.

End Fixture.

(** ** A small source registry to run the seeder on *)

Module HubFixture.

Import Hub.

(** A stand-in for SHA-256, injective and easy to read. *)
Definition toy_hash (data : string) : string := PyStr.cat "hash-of-" data.

Definition entry (os arch digest : string) : json :=
  JObj [("mediaType", JStr "application/vnd.oci.image.manifest.v1+json");
        ("digest", JStr digest);
        ("platform", JObj [("architecture", JStr arch); ("os", JStr os)])].

Definition decode (body : string) : option json :=
  if String.eqb body "<index>" then
    Some (JObj [("manifests", JArr [entry "linux" "arm64" "sha256:arm";
                                   entry "linux" "amd64" "sha256:amd"])])
  else if String.eqb body "<arm index>" then
    Some (JObj [("manifests", JArr [entry "linux" "arm64" "sha256:arm"])])
  else if String.eqb body "<manifest>" then
    Some (JObj [("config", JObj [("digest", JStr "sha256:hash-of-<config>")]);
                ("layers", JArr [JObj [("digest", JStr "sha256:hash-of-<layer>")]])])
  else None.

Definition rule : Type := string * reply.

Fixpoint answer (rules : list rule) (r : request) : reply :=
  match rules with
  | [] => Response 404 [] [] true
  | (u, rep) :: rest => if String.eqb u (req_url r) then rep else answer rest r
  end.

Definition env_of (rules : list rule) : Env :=
  {| registry := fun _ r => answer rules r;
     json_loads := decode;
     sha256_hex := toy_hash;
     str_of := fun _ => "" |}.

Definition v2 : string := "https://registry-1.docker.io/v2/".

Definition index_type : string := "application/vnd.oci.image.index.v1+json".
Definition manifest_type : string := "application/vnd.oci.image.manifest.v1+json".

(** [library/app:latest] is an index over arm64 and amd64; the amd64
    manifest has one config and one layer; [library/busy] answers 503. *)
Definition rules : list rule :=
  [ (PyStr.cat v2 "library/app/manifests/latest",
     Response 200 [("Content-Type", index_type)] ["<index>"] true);
    (PyStr.cat v2 "library/arm/manifests/latest",
     Response 200 [("Content-Type", index_type)] ["<arm index>"] true);
    (PyStr.cat v2 "library/app/manifests/sha256:amd",
     Response 200 [("Content-Type", manifest_type)] ["<manifest>"] true);
    (PyStr.cat v2 "library/app/blobs/sha256:hash-of-<config>",
     Response 200 [] ["<con"; ""; "fig>"] true);
    (PyStr.cat v2 "library/app/blobs/sha256:hash-of-<layer>",
     Response 200 [] ["<layer>"] true);
    (PyStr.cat v2 "library/busy/manifests/latest", Response 503 [] [] true) ].

Definition env : Env := env_of rules.

(** The same registry serving a layer with one byte changed. *)
Definition env_corrupt : Env :=
  env_of ((PyStr.cat v2 "library/app/blobs/sha256:hash-of-<layer>",
           Response 200 [] ["<l4yer>"] true) :: rules).

Definition empty_world : world := {| fs := ∅; DOWNLOADED := ∅; trace := [] |}.

Definition out : string := "/srv/registry".

Definition layer_path : string :=
  "/srv/registry/docker/registry/v2/blobs/sha256/ha/hash-of-<layer>/data".

(** The store after [library/app:latest] has been seeded from an empty
    one, and what the worker reports for it. *)
Definition seeded : world :=
  snd (process_image (H := env) out "library/app" "latest" empty_world).

Definition app_meta : image_meta :=
  {| meta_repo := "library/app";
     meta_tag := "latest";
     meta_manifest_digest := "sha256:hash-of-<manifest>";
     meta_config := JStr "sha256:hash-of-<config>";
     meta_layers := [JStr "sha256:hash-of-<layer>"];
     meta_manifest_media_type := manifest_type |}.

End HubFixture.

(** * Properties *)

(** ** Computations: equations and frames *)

Section Monad.

Context {W : Type}.

Lemma bind_ok {A B} (m : M W A) (k : A -> M W B) w a w1 :
  m w = (Ok a, w1) -> bind m k w = k a w1.
Proof. intros Hm. unfold bind. now rewrite Hm. Qed.

Lemma bind_raise {A B} (m : M W A) (k : A -> M W B) w e w1 :
  m w = (Raise e, w1) -> bind m k w = (Raise e, w1).
Proof. intros Hm. unfold bind. now rewrite Hm. Qed.

Lemma bind_cases {A B} (m : M W A) (k : A -> M W B) w r w' :
  bind m k w = (r, w') ->
  (exists a w1, m w = (Ok a, w1) /\ k a w1 = (r, w'))
  \/ (exists e, m w = (Raise e, w') /\ r = Raise e).
Proof.
  unfold bind. destruct (m w) as [[a|e] w1]; intros Hk.
  - left. eauto.
  - right. inversion Hk; subst. eauto.
Qed.

Lemma bind_inv_ok {A B} (m : M W A) (k : A -> M W B) w b w' :
  bind m k w = (Ok b, w') ->
  exists a w1, m w = (Ok a, w1) /\ k a w1 = (Ok b, w').
Proof.
  intros Hb. destruct (bind_cases _ _ _ _ _ Hb) as [?|(e & _ & He)]; [assumption|discriminate].
Qed.

Lemma catch_ok {A} (m : M W A) h w a w1 :
  m w = (Ok a, w1) -> catch m h w = (Ok a, w1).
Proof. intros Hm. unfold catch. now rewrite Hm. Qed.

Lemma catch_raise {A} (m : M W A) h w e w1 :
  m w = (Raise e, w1) -> catch m h w = h e w1.
Proof. intros Hm. unfold catch. now rewrite Hm. Qed.

Lemma for_each_app {A} (l1 l2 : list A) (body : A -> M W unit) w w1 :
  for_each l1 body w = (Ok tt, w1) ->
  for_each (l1 ++ l2) body w = for_each l2 body w1.
Proof.
  revert w. induction l1 as [|x l1 IH]; simpl; intros w Hl.
  - inversion Hl; subst. reflexivity.
  - destruct (bind_inv_ok _ _ _ _ _ Hl) as ([] & w0 & Hx & Hrest).
    rewrite (bind_ok _ _ _ _ _ Hx). now apply IH.
Qed.

Lemma for_each_stops {A} (l1 l2 : list A) x (body : A -> M W unit) w w1 e w2 :
  for_each l1 body w = (Ok tt, w1) ->
  body x w1 = (Raise e, w2) ->
  for_each (l1 ++ x :: l2) body w = (Raise e, w2).
Proof.
  intros Hl Hx. rewrite (for_each_app _ _ _ _ _ Hl). simpl.
  now apply bind_raise.
Qed.

Section Frames.

Context (R : W -> W -> Prop) `{!Reflexive R} `{!Transitive R}.

Lemma keeps_ret {A} (a : A) : keeps R (ret a).
Proof. intros w. simpl. reflexivity. Qed.

Lemma keeps_raise {A} e : keeps R (@raise W A e).
Proof. intros w. simpl. reflexivity. Qed.

Lemma keeps_lift {A} (r : result A) : keeps R (lift r).
Proof. intros w. simpl. reflexivity. Qed.

Lemma keeps_gets {A} (f : W -> A) : keeps R (gets f).
Proof. intros w. simpl. reflexivity. Qed.

Lemma keeps_bind {A B} (m : M W A) (k : A -> M W B) :
  keeps R m -> (forall a, keeps R (k a)) -> keeps R (bind m k).
Proof.
  intros Hm Hk w. unfold bind. specialize (Hm w).
  destruct (m w) as [[a|e] w1]; simpl in *; [|assumption].
  etransitivity; [exact Hm|apply Hk].
Qed.

Lemma keeps_catch {A} (m : M W A) h :
  keeps R m -> (forall e, keeps R (h e)) -> keeps R (catch m h).
Proof.
  intros Hm Hh w. unfold catch. specialize (Hm w).
  destruct (m w) as [[a|e] w1]; simpl in *; [assumption|].
  etransitivity; [exact Hm|apply Hh].
Qed.

Lemma keeps_for_each {A} (l : list A) (body : A -> M W unit) :
  (forall x, keeps R (body x)) -> keeps R (for_each l body).
Proof.
  intros Hb. induction l as [|x l IH]; simpl.
  - apply keeps_ret.
  - apply keeps_bind; [apply Hb|intros _; exact IH].
Qed.

Lemma keeps_if {A} (b : bool) (m1 m2 : M W A) :
  keeps R m1 -> keeps R m2 -> keeps R (if b then m1 else m2).
Proof. destruct b; auto. Qed.

End Frames.

Lemma keeps_run {A} (R : W -> W -> Prop) (m : M W A) w r w' :
  keeps R m -> m w = (r, w') -> R w w'.
Proof. intros Hm Hr. specialize (Hm w). now rewrite Hr in Hm. Qed.

End Monad.

(** ** Strings *)

Lemma split_nonempty sep s : PyStr.split sep s <> [].
Proof.
  destruct s as [|c s]; simpl; [discriminate|].
  destruct (Ascii.eqb c sep); [discriminate|].
  destruct (PyStr.split sep s); discriminate.
Qed.

Lemma strip_empty : PyStr.strip "" = "".
Proof. reflexivity. Qed.

(** ** Manifests ([ddiff.py]) *)

Section Manifests.

Import Ddiff.

Lemma getitem_obj m k v :
  Py.getitem m k = Ok v -> exists f, m = JObj f /\ Py.assoc k f = Some v.
Proof.
  destruct m; simpl; try discriminate.
  destruct (Py.assoc k fields) eqn:Hk; [|discriminate].
  intros [= ->]. eauto.
Qed.

Lemma layer_digests_all layers ls :
  Forall2 (fun layer l => Py.getitem layer "digest" = Ok l) layers ls ->
  layer_digests layers = Ok ls.
Proof.
  induction 1 as [|layer l layers ls Hl _ IH]; simpl; [reflexivity|].
  destruct (getitem_obj _ _ _ Hl) as (f & -> & Hf).
  cbn [layer_digests Py.contains Py.getitem rbind]. rewrite Hf.
  cbn [rbind]. rewrite IH. reflexivity.
Qed.

Lemma blob_list_of_manifest manifest c ls :
  is_ok (_validate_manifest_media_type manifest) = true ->
  Spec.config_is manifest c ->
  Spec.layers_are manifest ls ->
  blob_list_of manifest = Ok (c :: ls).
Proof.
  intros Hv (config & Hc & Hd) (layers & Hl & Hls).
  unfold blob_list_of.
  destruct (_validate_manifest_media_type manifest) as [mt|]; [|discriminate].
  simpl. unfold config_digest.
  destruct (getitem_obj _ _ _ Hc) as (f & -> & Hf).
  destruct (getitem_obj _ _ _ Hd) as (cf & -> & Hcf).
  destruct (getitem_obj _ _ _ Hl) as (f' & [= <-] & Hlf).
  cbn [rbind Py.contains Py.getitem Py.get Py.iter]. rewrite Hf.
  cbn [rbind Py.contains Py.getitem]. rewrite Hcf, Hlf. cbn [rbind Py.iter].
  rewrite (layer_digests_all _ _ Hls). reflexivity.
Qed.

(** C4.  For every manifest that passes the media-type validation, whose
    config has digest [c] and whose layers have, in manifest order, the
    digests [ls], the extracted blob list is [c :: ls]: the config digest
    first, then the layer digests in their order. *)
Theorem parse_blob_list_order `{Env} (manifest_str : string) (manifest c : json)
        (ls : list json) :
  json_loads manifest_str = Some manifest ->
  is_ok (_validate_manifest_media_type manifest) = true ->
  Spec.config_is manifest c ->
  Spec.layers_are manifest ls ->
  _parse_blob_list manifest_str = Ok (c :: ls).
Proof.
  intros Hj Hv Hc Hl. unfold _parse_blob_list. rewrite Hj.
  now apply blob_list_of_manifest.
Qed.

End Manifests.

(** ** Pre- and postconditions *)

Section Hoare.

Context {W : Type}.

Lemma hoare_ret {A} (P : W -> Prop) (a : A) E : hoare P (ret a) (fun _ => P) E.
Proof. intros w Hw. exact Hw. Qed.

Lemma hoare_raise {A} (P : W -> Prop) e Q : hoare P (@raise W A e) Q (fun _ => P).
Proof. intros w Hw. exact Hw. Qed.

Lemma hoare_lift {A} (P : W -> Prop) (r : result A) :
  hoare P (lift r) (fun _ => P) (fun _ => P).
Proof. intros w Hw. unfold lift. destruct r; exact Hw. Qed.

Lemma hoare_bind {A B} (P : W -> Prop) (m : M W A) (k : A -> M W B) Q Q' E :
  hoare P m Q E -> (forall a, hoare (Q a) (k a) Q' E) -> hoare P (bind m k) Q' E.
Proof.
  intros Hm Hk w Hw. unfold bind. specialize (Hm w Hw).
  destruct (m w) as [[a|e] w1]; [|exact Hm].
  apply (Hk a w1 Hm).
Qed.

Lemma hoare_catch {A} (P : W -> Prop) (m : M W A) h Q E1 E :
  hoare P m Q E1 -> (forall e, hoare (E1 e) (h e) Q E) -> hoare P (catch m h) Q E.
Proof.
  intros Hm Hh w Hw. unfold catch. specialize (Hm w Hw).
  destruct (m w) as [[a|e] w1]; [exact Hm|].
  apply (Hh e w1 Hm).
Qed.

Lemma hoare_weaken {A} (P P' : W -> Prop) (m : M W A) (Q Q' : A -> W -> Prop)
      (E E' : exn -> W -> Prop) :
  hoare P m Q E ->
  (forall w, P' w -> P w) ->
  (forall a w, Q a w -> Q' a w) ->
  (forall e w, E e w -> E' e w) ->
  hoare P' m Q' E'.
Proof.
  intros Hm HP HQ HE w Hw. specialize (Hm w (HP w Hw)).
  destruct (m w) as [[a|e] w1]; auto.
Qed.

Lemma hoare_for_each {A} (I : W -> Prop) (l : list A) (body : A -> M W unit) E :
  (forall x, hoare I (body x) (fun _ => I) E) ->
  hoare I (for_each l body) (fun _ => I) E.
Proof.
  intros Hb. induction l as [|x l IH]; simpl.
  - apply hoare_ret.
  - eapply hoare_bind; [apply Hb|intros ?; exact IH].
Qed.

Lemma hoare_if {A} (b : bool) (P : W -> Prop) (m1 m2 : M W A) Q E :
  hoare P m1 Q E -> hoare P m2 Q E -> hoare P (if b then m1 else m2) Q E.
Proof. destruct b; auto. Qed.

(** A frame gives a triple for any property the frame carries over. *)
Lemma hoare_keeps {A} (R : W -> W -> Prop) (P P' : W -> Prop) (m : M W A) :
  keeps R m ->
  (forall w w', P w -> R w w' -> P' w') ->
  hoare P m (fun _ => P') (fun _ => P').
Proof.
  intros Hm HR w Hw. specialize (Hm w).
  destruct (m w) as [[a|e] w1]; simpl in Hm; eauto.
Qed.

Lemma hoare_run_ok {A} (P : W -> Prop) (m : M W A) Q E w a w' :
  hoare P m Q E -> P w -> m w = (Ok a, w') -> Q a w'.
Proof. intros Hm Hw Hr. specialize (Hm w Hw). now rewrite Hr in Hm. Qed.

Lemma hoare_run_raise {A} (P : W -> Prop) (m : M W A) Q E w e w' :
  hoare P m Q E -> P w -> m w = (Raise e, w') -> E e w'.
Proof. intros Hm Hw Hr. specialize (Hm w Hw). now rewrite Hr in Hm. Qed.

End Hoare.
(** ** Frames of [ddiff.py] *)

Section DdiffProofs.

Import Net Ddiff Spec.
Context `{Env}.

#[local] Instance quiet_refl : Reflexive quiet.
Proof. intros w. split; reflexivity. Qed.
#[local] Instance quiet_trans : Transitive quiet.
Proof. intros a b c [] []. split; congruence. Qed.
#[local] Instance steady_refl : Reflexive steady.
Proof. intros w. split; auto. Qed.
#[local] Instance steady_trans : Transitive steady.
Proof. intros a b c [? Hab] [? Hbc]. split; [congruence|auto]. Qed.

Lemma quiet_steady {A} (m : M world A) : keeps quiet m -> keeps steady m.
Proof.
  intros Hm w. destruct (Hm w) as [Hf Ha]. split; [exact Ha|].
  intros k. now rewrite Hf.
Qed.

Ltac frame_step :=
  match goal with
  | |- keeps ?R (bind _ _) => apply (keeps_bind R); [|intros ?]
  | |- keeps ?R (ret _) => apply (keeps_ret R)
  | |- keeps ?R (raise _) => apply (keeps_raise R)
  | |- keeps ?R (lift _) => apply (keeps_lift R)
  | |- keeps ?R (gets _) => apply (keeps_gets R)
  | |- keeps ?R (catch _ _) => apply (keeps_catch R); [|intros ?]
  | |- keeps ?R (for_each _ _) => apply (keeps_for_each R); intros ?
  | |- keeps _ (match ?x with _ => _ end) => destruct x
  | |- keeps _ (let _ := _ in _) => cbv zeta
  end.

Lemma run_command_quiet cmd : keeps quiet (run_command cmd).
Proof. intros w. split; reflexivity. Qed.

Lemma urlopen_quiet r : keeps quiet (urlopen r).
Proof.
  intros w. unfold urlopen.
  destruct (registry (trace w) r) as [st h b|]; [destruct (_ && _)|]; split; reflexivity.
Qed.

Lemma read_file_quiet p : keeps quiet (read_file p).
Proof. intros w. unfold read_file. destruct (fs w !! p) as [[]|]; split; reflexivity. Qed.

Lemma path_exists_quiet p : keeps quiet (path_exists p).
Proof. intros w. split; reflexivity. Qed.

Create HintDb frames discriminated.
Hint Resolve run_command_quiet urlopen_quiet read_file_quiet path_exists_quiet : frames.

Ltac frames := repeat frame_step; auto with frames.

Lemma push_images_quiet tags : keeps quiet (push_images tags).
Proof. unfold push_images. frames. Qed.

Lemma request_manifest_quiet tag : keeps quiet (_request_manifest tag).
Proof. unfold _request_manifest. frames. Qed.

Lemma request_upload_session_quiet repo : keeps quiet (_request_upload_session repo).
Proof. unfold _request_upload_session. frames. Qed.

Hint Resolve push_images_quiet request_manifest_quiet request_upload_session_quiet : frames.

Lemma upload_blob_quiet repo digest dir : keeps quiet (_upload_blob repo digest dir).
Proof. unfold _upload_blob. frames. Qed.

Lemma cross_mount_quiet t b d : keeps quiet (_cross_mount t b d).
Proof. unfold _cross_mount. frames. Qed.

Lemma upload_manifest_quiet tag path mt : keeps quiet (_upload_manifest tag path mt).
Proof. unfold _upload_manifest. frames. Qed.

Hint Resolve upload_blob_quiet cross_mount_quiet upload_manifest_quiet : frames.

Lemma write_file_steady p c : keeps steady (write_file p c).
Proof.
  intros w. unfold write_file.
  destruct (fs w !! p) as [[|old]|] eqn:Hp; split; simpl; auto; intros k Hk;
    (destruct (decide (p = k)) as [->|Hne]; [congruence|now rewrite lookup_insert_ne]).
Qed.

Lemma mkdir_if_missing_dirs d f k :
  f !! k = Some Dir -> mkdir_if_missing d f !! k = Some Dir.
Proof.
  intros Hk. unfold mkdir_if_missing. destruct (f !! d) eqn:Hd; [exact Hk|].
  rewrite lookup_insert_ne; [exact Hk|congruence].
Qed.

Lemma makedirs_steady p : keeps steady (makedirs p).
Proof.
  intros w. unfold makedirs. generalize (p :: rev (ancestors_go "" p)). intros l.
  destruct (fs w !! p); split; simpl; auto.
  intros k Hk.
  induction l as [|d l IH]; simpl; [exact Hk|]. now apply mkdir_if_missing_dirs.
Qed.

Hint Resolve write_file_steady makedirs_steady : frames.
Hint Resolve quiet_steady : frames.

Lemma download_blob_steady repo digest dir : keeps steady (_download_blob repo digest dir).
Proof. unfold _download_blob. frames. Qed.

Lemma write_joined_steady p sep xs : keeps steady (write_joined p sep xs).
Proof. unfold write_joined. frames. Qed.

Hint Resolve download_blob_steady write_joined_steady : frames.


(** *** What [diff_image] leaves behind *)

Lemma packing_steady a0 w w' : packing a0 w -> steady w w' -> packing a0 w'.
Proof. intros [Ha Hs] [Ha' Hd]. split; [congruence|now apply Hd]. Qed.

Lemma hoare_packing {A} a0 (m : M world A) :
  keeps steady m -> hoare (packing a0) m (fun _ => packing a0) (fun _ => packing a0).
Proof. intros Hm. apply (hoare_keeps steady); [exact Hm|apply packing_steady]. Qed.

Lemma remove_tree_lookup p f k :
  is_under p k = true -> remove_tree p f !! k = None.
Proof.
  intros Hu. unfold remove_tree. apply map_lookup_filter_None. right.
  intros x _. simpl. congruence.
Qed.

Lemma rmtree_gone : hoare staging_there (rmtree staging_dir)
                          (fun _ => staging_gone) (fun _ _ => False).
Proof.
  intros w Hw. unfold rmtree. red in Hw. rewrite Hw.
  intros k Hk. simpl. now apply remove_tree_lookup.
Qed.

Lemma pack_outcome a0 f :
  hoare (packing a0) (pack f) (fun _ => staging_gone) (fun _ => packing a0).
Proof.
  unfold pack. cbv zeta.
  repeat (eapply hoare_bind; [apply hoare_packing; solve [frames]|intros ?]).
  eapply hoare_bind.
  - instantiate (1 := fun _ => staging_there).
    intros w [_ Hw]. exact Hw.
  - intros ?. eapply hoare_weaken; [apply rmtree_gone|auto..]. intros e w [].
Qed.

Lemma hoare_modify (P Q : world -> Prop) (f : world -> world) :
  (forall w, P w -> Q (f w)) -> hoare P (modify f) (fun _ => Q) (fun _ _ => False).
Proof. intros Hf w Hw. simpl. auto. Qed.

Lemma hoare_bind_total {A B} (P : world -> Prop) (m : M world A) (k : A -> M world B)
      Q Q' E :
  hoare P m Q (fun _ _ => False) ->
  (forall a, hoare (Q a) (k a) Q' E) ->
  hoare P (bind m k) Q' E.
Proof.
  intros Hm Hk. eapply hoare_bind; [|exact Hk].
  eapply hoare_weaken; [exact Hm|auto..]. intros e w [].
Qed.

Lemma push_images_total (P : world -> Prop) tags :
  (forall w e, P w -> P (log e w)) ->
  hoare P (push_images tags) (fun _ => P) (fun _ _ => False).
Proof.
  intros HP. unfold push_images. apply hoare_for_each. intros tag. cbv zeta.
  unfold run_command.
  repeat (eapply hoare_bind; [apply (hoare_modify P P); auto|intros ?]).
  apply (hoare_modify P P); auto.
Qed.

Lemma makedirs_staging a0 :
  hoare (fun w => archives w = a0
                  /\ fs w !! staging_dir = None
                  /\ fs w !! path_join staging_dir "blobs" = None)
        (makedirs (path_join staging_dir "blobs"))
        (fun _ => packing a0) (fun _ _ => False).
Proof.
  intros w (Ha & Hs & Hb). unfold makedirs. rewrite Hb. split; [exact Ha|].
  red. simpl. apply mkdir_if_missing_dirs.
  unfold mkdir_if_missing, staging_dir in *. rewrite Hs. apply lookup_insert_eq.
Qed.

Lemma stage_and_fetch_outcome a0 b t :
  hoare (fun w => archives w = a0) (stage_and_fetch b t)
        (fun _ => packing a0) (fun _ => packing a0).
Proof.
  unfold stage_and_fetch. cbv zeta.
  eapply hoare_bind_total; [apply push_images_total; auto|intros ?].
  eapply hoare_bind_total; [|intros ?].
  { apply hoare_modify with
      (Q := fun w => archives w = a0
                     /\ fs w !! staging_dir = None
                     /\ fs w !! path_join staging_dir "blobs" = None).
    intros w Hw. simpl. repeat split; [exact Hw|now apply remove_tree_lookup..]. }
  eapply hoare_bind_total; [apply makedirs_staging|intros ?].
  repeat (eapply hoare_bind; [apply hoare_packing; solve [frames]|intros ?]).
  intros w Hw. exact Hw.
Qed.

Lemma diff_image_outcome a0 b t :
  hoare (fun w => archives w = a0) (diff_image b t)
        (fun _ => staging_gone) (fun _ => packing a0).
Proof.
  unfold diff_image. eapply hoare_bind; [apply stage_and_fetch_outcome|].
  intros f. apply pack_outcome.
Qed.


(** *** Replay leaves no staging directory when it succeeds *)

Lemma quiet_gone w w' : staging_gone w -> quiet w w' -> staging_gone w'.
Proof. intros Hg [Hf _] k Hk. rewrite Hf. now apply Hg. Qed.

Lemma replay_outcome p :
  hoare (fun _ => True) (replay p) (fun _ => staging_gone) (fun _ _ => True).
Proof.
  unfold replay. cbv zeta.
  do 3 (eapply hoare_bind;
        [apply (hoare_keeps quiet _ (fun _ => True)); [solve [frames]|auto]|intros ?]).
  eapply hoare_bind.
  - instantiate (1 := fun _ => staging_gone).
    intros w _. unfold rmtree. destruct (fs w !! staging_dir) as [[]|]; try exact I.
    intros k Hk. simpl. now apply remove_tree_lookup.
  - intros ?. eapply hoare_weaken;
      [apply (hoare_keeps quiet staging_gone staging_gone); [frames|apply quiet_gone]
      |auto..].
Qed.

Lemma load_image_outcome bt tar :
  hoare (fun _ => True) (load_image bt tar) (fun _ => staging_gone) (fun _ _ => True).
Proof.
  unfold load_image. eapply hoare_bind; [|intros p; apply replay_outcome].
  intros w _. now destruct (open_package bt tar w) as [[]].
Qed.


(** *** Downloads *)

Lemma bind_lift_ok {A B} (a : A) (k : A -> M world B) w :
  bind (lift (Ok a)) k w = k a w.
Proof. reflexivity. Qed.

Lemma strs_all l t :
  PySet.strs l = Ok t -> l = KStr <$> t.
Proof.
  revert t. induction l as [|k l IH]; simpl; intros t Ht.
  - now inversion Ht.
  - destruct k; try discriminate.
    destruct (PySet.strs l) as [t'|]; [|discriminate].
    inversion Ht; subst. simpl. f_equal. now apply IH.
Qed.

Lemma join_ok_strs sep l :
  is_ok (PySet.join sep l) = true -> exists t, PySet.strs l = Ok t /\ l = KStr <$> t.
Proof.
  unfold PySet.join. destruct (PySet.strs l) as [t|] eqn:Ht; [|discriminate].
  intros _. exists t. split; [reflexivity|now apply strs_all].
Qed.

Lemma download_blob_raises repo d dir w e w' :
  _download_blob repo (KStr d) dir w = (Raise e, w') -> e = RuntimeError "".
Proof.
  unfold _download_blob. intros Hd.
  destruct (bind_cases _ _ _ _ _ Hd) as [(a & w1 & _ & Hc)|(e' & Hf & [= ->])].
  - unfold catch in Hc.
    destruct (bind _ _ w1) as [[|e1] w2]; [discriminate|].
    destruct e1; unfold lift, print_error in Hc; now inversion Hc.
  - destruct (digest_format_ok d); simpl in Hf; unfold lift, print_error, ret in Hf;
      now inversion Hf.
Qed.

(** A blob request that the registry does not answer with a 2xx status
    makes [_download_blob] raise. *)
Lemma download_blob_failed repo d dir w :
  failed (registry (trace w) (blob_request repo d)) ->
  exists w', _download_blob repo (KStr d) dir w = (Raise (RuntimeError ""), w').
Proof.
  intros Hf. unfold _download_blob.
  destruct (digest_format_ok d); simpl.
  - unfold bind at 1. simpl. unfold catch, bind, urlopen.
    change {| req_method := "GET"; req_url := blob_url repo d;
              req_headers := []; req_data := None |} with (blob_request repo d).
    destruct (registry (trace w) (blob_request repo d)) as [st h body|]; simpl in Hf.
    + rewrite Hf. eauto.
    + eauto.
  - eauto.
Qed.

(** C8.  When the download of one exclusive blob fails, [diff_image] stops
    there with an error: the world it leaves is the one of the failed
    download, and the archives of the working directory are what they were
    before the invocation, so no package is emitted. *)
Theorem download_failure_aborts_pack b t w f w1 base_blobs target_blobs
        target_set base_set l1 d l2 w2 e w3 :
  stage_and_fetch b t w = (Ok f, w1) ->
  _parse_blob_list (f_base_manifest f) = Ok base_blobs ->
  _parse_blob_list (f_target_manifest f) = Ok target_blobs ->
  PySet.of_list target_blobs = Ok target_set ->
  PySet.of_list base_blobs = Ok base_set ->
  is_ok (PySet.join "," (PySet.order (target_set ∖ base_set))) = true ->
  PySet.order (target_set ∖ base_set) = (l1 ++ d :: l2)%list ->
  for_each l1 (fun digest =>
    _download_blob (repo_of (f_target_tag f)) digest (path_join staging_dir "blobs")) w1
  = (Ok tt, w2) ->
  _download_blob (repo_of (f_target_tag f)) d (path_join staging_dir "blobs") w2
  = (Raise e, w3) ->
  diff_image b t w = (Raise (RuntimeError ""), w3)
  /\ archives w3 = archives w.
Proof.
  intros Hs Hb Ht Hts Hbs Hj Ho Hl Hd.
  assert (He : e = RuntimeError "").
  { destruct (join_ok_strs _ _ Hj) as (ts & _ & Hk).
    assert (Hin : d ∈ KStr <$> ts) by (rewrite <- Hk, Ho; set_solver).
    apply list_elem_of_fmap in Hin as (s & -> & _).
    exact (download_blob_raises _ _ _ _ _ _ Hd). }
  subst e.
  assert (Hrun : diff_image b t w = (Raise (RuntimeError ""), w3)).
  { unfold diff_image. rewrite (bind_ok _ _ _ _ _ Hs).
    unfold pack. cbv zeta.
    rewrite Hb, bind_lift_ok. rewrite Ht, bind_lift_ok.
    rewrite Hts, bind_lift_ok. rewrite Hbs, bind_lift_ok.
    destruct (PySet.join "," _) as [text|] eqn:Htext; [|discriminate].
    rewrite bind_lift_ok, Ho.
    apply bind_raise. exact (for_each_stops _ _ _ _ _ _ _ _ Hl Hd). }
  split; [exact Hrun|].
  exact (proj1 (hoare_run_raise _ _ _ _ _ _ _ (diff_image_outcome (archives w) b t) eq_refl Hrun)).
Qed.


(** *** The partition and its files *)

Lemma write_file_ok p c w w' :
  write_file p c w = (Ok tt, w') ->
  fs w' = <[ p := File c ]> (fs w) /\ archives w' = archives w.
Proof.
  unfold write_file. destruct (fs w !! p) as [[]|]; intros [= <-]; split; reflexivity.
Qed.

Lemma write_joined_ok p sep xs w w' :
  write_joined p sep xs w = (Ok tt, w') ->
  exists t, xs = KStr <$> t
            /\ fs w' = <[ p := File (PyStr.join sep t) ]> (fs w)
            /\ archives w' = archives w.
Proof.
  unfold write_joined. intros Hw.
  apply bind_inv_ok in Hw as ([] & w1 & Hopen & Hw).
  apply bind_inv_ok in Hw as (text & w2 & Hjoin & Hw).
  apply write_file_ok in Hopen as [Hf1 Ha1].
  apply write_file_ok in Hw as [Hf Ha].
  unfold lift, PySet.join in Hjoin.
  destruct (PySet.strs xs) as [t|] eqn:Ht; simpl in Hjoin; [|discriminate].
  injection Hjoin as Htext Hw2. subst text w2.
  exists t. split; [now apply strs_all|]. split; [|congruence].
  rewrite Hf, Hf1. apply insert_insert_eq.
Qed.

Lemma partition_sets (target_set base_set : gset key) :
  target_set ∖ (target_set ∖ base_set) = target_set ∩ base_set
  /\ (target_set ∖ (target_set ∖ base_set)) ## (target_set ∖ base_set)
  /\ (target_set ∖ (target_set ∖ base_set)) ∪ (target_set ∖ base_set) = target_set.
Proof.
  split; [|split].
  - apply set_eq. intros x. rewrite elem_of_intersection, !elem_of_difference.
    destruct (decide (x ∈ base_set)); intuition.
  - intros x Hm Hx. apply elem_of_difference in Hm as [_ Hn]. contradiction.
  - apply set_eq. intros x. rewrite elem_of_union, !elem_of_difference.
    destruct (decide (x ∈ base_set)); intuition.
Qed.

(** C1.  For a base and a target manifest that parse, with blob sets
    [base_set] and [target_set]: the mountable set the code computes,
    [target_set - (target_set - base_set)], is the intersection of the two
    sets, the exclusive set is [target_set - base_set], the two are
    disjoint and their union is [target_set]; and when [diff_image]
    succeeds, the archive it has written holds a [MOUNT_BLOBS] file and an
    [UPLOAD_BLOBS] file whose texts are the ["|"]-joined enumerations of
    exactly these two sets. *)
Theorem diff_partition_persisted b t w f w1 base_blobs target_blobs
        target_set base_set w' :
  stage_and_fetch b t w = (Ok f, w1) ->
  _parse_blob_list (f_base_manifest f) = Ok base_blobs ->
  _parse_blob_list (f_target_manifest f) = Ok target_blobs ->
  PySet.of_list target_blobs = Ok target_set ->
  PySet.of_list base_blobs = Ok base_set ->
  diff_image b t w = (Ok tt, w') ->
  let exclusive := target_set ∖ base_set in
  let mountable := target_set ∖ exclusive in
  mountable = target_set ∩ base_set
  /\ mountable ## exclusive
  /\ mountable ∪ exclusive = target_set
  /\ exists tree mount_list upload_list,
       archives w' !! archive_name_of (f_target_tag f) = Some tree
       /\ tree !! path_join staging_dir "MOUNT_BLOBS"
          = Some (File (PyStr.join "|" mount_list))
       /\ tree !! path_join staging_dir "UPLOAD_BLOBS"
          = Some (File (PyStr.join "|" upload_list))
       /\ KStr <$> mount_list ≡ₚ elements mountable
       /\ KStr <$> upload_list ≡ₚ elements exclusive.
Proof.
  intros Hs Hb Ht Hts Hbs Hrun exclusive mountable.
  destruct (partition_sets target_set base_set) as (Hi & Hd & Hu).
  repeat split; [exact Hi|exact Hd|exact Hu|].
  unfold diff_image in Hrun. rewrite (bind_ok _ _ _ _ _ Hs) in Hrun.
  unfold pack in Hrun. cbv zeta in Hrun.
  rewrite Hb, bind_lift_ok in Hrun. rewrite Ht, bind_lift_ok in Hrun.
  rewrite Hts, bind_lift_ok in Hrun. rewrite Hbs, bind_lift_ok in Hrun.
  fold exclusive in Hrun. fold mountable in Hrun.
  apply bind_inv_ok in Hrun as (text & w2 & _ & Hrun).
  apply bind_inv_ok in Hrun as ([] & w3 & _ & Hrun).
  apply bind_inv_ok in Hrun as ([] & w4 & _ & Hrun).
  apply bind_inv_ok in Hrun as ([] & w5 & _ & Hrun).
  apply bind_inv_ok in Hrun as ([] & w6 & _ & Hrun).
  apply bind_inv_ok in Hrun as ([] & w7 & _ & Hrun).
  apply bind_inv_ok in Hrun as ([] & w8 & Hm & Hrun).
  apply bind_inv_ok in Hrun as ([] & w9 & Hup & Hrun).
  apply bind_inv_ok in Hrun as ([] & w10 & Htar & Hrun).
  apply write_joined_ok in Hm as (lm & Hlm & Hfm & _).
  apply write_joined_ok in Hup as (lu & Hlu & Hfu & _).
  injection Htar as <-.
  assert (Ha : archives w' = archives
                 (set_archives (<[ archive_name_of (f_target_tag f) :=
                      filter (fun kv => is_under staging_dir (fst kv) = true) (fs w9) ]>
                      (archives w9)) w9)).
  { unfold rmtree in Hrun. simpl in Hrun.
    destruct (fs w9 !! staging_dir) as [[]|]; now inversion Hrun. }
  exists (filter (fun kv => is_under staging_dir (fst kv) = true) (fs w9)), lm, lu.
  split; [rewrite Ha; simpl; apply lookup_insert_eq|].
  split; [|split; [|split]].
  - apply map_lookup_filter_Some. split; [|reflexivity].
    rewrite Hfu, lookup_insert_ne by discriminate.
    rewrite Hfm. apply lookup_insert_eq.
  - apply map_lookup_filter_Some. split; [|reflexivity].
    rewrite Hfu. apply lookup_insert_eq.
  - rewrite <- Hlm. apply PySet.order_perm.
  - rewrite <- Hlu. apply PySet.order_perm.
Qed.


(** *** Validation *)

Lemma validate_rejects manifest mt :
  media_type_is manifest mt ->
  Py.truthy mt = true ->
  Py.in_strs mt SUPPORTED_MANIFEST_TYPES = false ->
  _validate_manifest_media_type manifest = Raise (RuntimeError "").
Proof.
  intros Hm Ht Hs. unfold _validate_manifest_media_type. rewrite Hm. cbn [rbind].
  destruct (Py.in_strs mt [DOCKER_MANIFEST_LIST_V2; OCI_INDEX_V1]); [reflexivity|].
  cbn [rbind]. rewrite Ht, Hs. reflexivity.
Qed.


(** *** Cross-mount *)

Lemma cross_mount_run target_repo base_repo digest w :
  _cross_mount target_repo base_repo digest w
  = let rep := registry (trace w) (mount_request target_repo base_repo digest) in
    let w' := log (EvHttp (mount_request target_repo base_repo digest) rep) w in
    match rep with
    | Response st _ _ =>
        if (200 <=? st) && (st <? 300) then
          if st =? 201 then (Ok tt, w')
          else if st =? 202 then (Raise (RuntimeError ""), w')
          else (Ok tt, w')
        else (Raise (RuntimeError ""), w')
    | Unreachable => (Raise URLError, w')
    end.
Proof.
  unfold _cross_mount, catch, bind, urlopen. fold (mount_request target_repo base_repo digest).
  cbv zeta. destruct (registry _ _) as [st h body|]; [|reflexivity].
  destruct (_ && _); [|reflexivity]. simpl.
  destruct (st =? 201); [reflexivity|]. destruct (st =? 202); reflexivity.
Qed.

(** C6.  A cross-mount answered with 201 is a successful mount.  A
    cross-mount answered with 202 raises; in [replay], and so in
    [load_image], the error ends the operation with that exchange as the
    last event: no upload is started for the digest, or for any other. *)
Theorem mount_202_aborts_replay :
  (forall target_repo base_repo digest w hs body,
      registry (trace w) (mount_request target_repo base_repo digest)
      = Response 201 hs body ->
      _cross_mount target_repo base_repo digest w
      = (Ok tt, log (EvHttp (mount_request target_repo base_repo digest)
                            (Response 201 hs body)) w))
  /\ (forall target_repo base_repo digest w hs body,
      registry (trace w) (mount_request target_repo base_repo digest)
      = Response 202 hs body ->
      _cross_mount target_repo base_repo digest w
      = (Raise (RuntimeError ""),
         log (EvHttp (mount_request target_repo base_repo digest)
                     (Response 202 hs body)) w))
  /\ (forall base_tag tarball w0 p w l1 d l2 w1 hs body,
      open_package base_tag tarball w0 = (Ok p, w) ->
      pk_mount_blobs p = (l1 ++ d :: l2)%list ->
      for_each l1 (fun blob =>
        _cross_mount (repo_of (pk_target_tag p)) (repo_of (pk_base_tag p)) blob) w
      = (Ok tt, w1) ->
      registry (trace w1)
        (mount_request (repo_of (pk_target_tag p)) (repo_of (pk_base_tag p)) d)
      = Response 202 hs body ->
      let w2 := log (EvHttp (mount_request (repo_of (pk_target_tag p))
                                           (repo_of (pk_base_tag p)) d)
                            (Response 202 hs body)) w1 in
      replay p w = (Raise (RuntimeError ""), w2)
      /\ load_image base_tag tarball w0 = (Raise (RuntimeError ""), w2)).
Proof.
  split; [|split].
  - intros tr br d w hs body Hr. rewrite cross_mount_run. cbv zeta. rewrite Hr. reflexivity.
  - intros tr br d w hs body Hr. rewrite cross_mount_run. cbv zeta. rewrite Hr. reflexivity.
  - intros bt tar w0 p w l1 d l2 w1 hs body Hp Hl Hloop Hr w2.
    assert (Hd : _cross_mount (repo_of (pk_target_tag p)) (repo_of (pk_base_tag p)) d w1
                 = (Raise (RuntimeError ""), w2)).
    { rewrite cross_mount_run. cbv zeta. rewrite Hr. reflexivity. }
    assert (Hre : replay p w = (Raise (RuntimeError ""), w2)).
    { unfold replay. cbv zeta. apply bind_raise. rewrite Hl.
      exact (for_each_stops _ _ _ _ _ _ _ _ Hloop Hd). }
    split; [exact Hre|].
    unfold load_image. now rewrite (bind_ok _ _ _ _ _ Hp).
Qed.


(** *** Empty blob files *)

Lemma request_upload_session_run repo w :
  _request_upload_session repo w
  = let rep := registry (trace w) (session_request repo) in
    let w' := log (EvHttp (session_request repo) rep) w in
    match rep with
    | Response st h _ =>
        if (200 <=? st) && (st <? 300) then (Ok (header "Location" h), w')
        else (Raise (RuntimeError ""), w')
    | Unreachable => (Raise URLError, w')
    end.
Proof.
  unfold _request_upload_session, catch, bind, urlopen. fold (session_request repo).
  cbv zeta. destruct (registry _ _) as [st h body|]; [|reflexivity].
  destruct (_ && _); reflexivity.
Qed.

Lemma upload_blob_run repo digest dir w :
  _upload_blob repo digest dir w
  = let rep := registry (trace w) (session_request repo) in
    let w1 := log (EvHttp (session_request repo) rep) w in
    match rep with
    | Response st h _ =>
        if (200 <=? st) && (st <? 300) then
          match fs w1 !! blob_file dir digest with
          | Some (File data) =>
              match header "Location" h with
              | Some session_url =>
                  let put := put_request session_url digest data in
                  let rep2 := registry (trace w1) put in
                  let w2 := log (EvHttp put rep2) w1 in
                  match rep2 with
                  | Response st2 _ _ =>
                      if (200 <=? st2) && (st2 <? 300) then (Ok tt, w2)
                      else (Raise (RuntimeError ""), w2)
                  | Unreachable => (Raise URLError, w2)
                  end
              | None => (Raise TypeError, w1)
              end
          | Some Dir => (Raise IsADirectoryError, w1)
          | None => (Raise FileNotFoundError, w1)
          end
        else (Raise (RuntimeError ""), w1)
    | Unreachable => (Raise URLError, w1)
    end.
Proof.
  unfold _upload_blob, _request_upload_session, catch, bind, urlopen, read_file.
  fold (session_request repo). cbv zeta.
  destruct (registry (trace w) (session_request repo)) as [st h body|]; [|reflexivity].
  destruct ((200 <=? st) && (st <? 300)); [|reflexivity].
  unfold getheader. simpl.
  destruct (fs w !! blob_file dir digest) as [[|data]|]; try reflexivity.
  destruct (header "Location" h) as [session_url|]; [|reflexivity].
  fold (put_request session_url digest data).
  destruct (registry _ (put_request session_url digest data)) as [st2 h2 body2|];
    [|reflexivity].
  destruct ((200 <=? st2) && (st2 <? 300)); reflexivity.
Qed.

Lemma upload_blob_trace repo digest dir w :
  exists rep,
    trace (snd (_upload_blob repo digest dir w))
    = (trace w ++ [EvHttp (session_request repo) rep])%list
    \/ exists session_url data rep2,
         trace (snd (_upload_blob repo digest dir w))
         = (trace w ++ [EvHttp (session_request repo) rep;
                        EvHttp (put_request session_url digest data) rep2])%list.
Proof.
  exists (registry (trace w) (session_request repo)).
  rewrite upload_blob_run. cbv zeta.
  destruct (registry (trace w) (session_request repo)) as [st h body|];
    [|left; reflexivity].
  destruct ((200 <=? st) && (st <? 300)); [|left; reflexivity].
  destruct (fs _ !! blob_file dir digest) as [[|data]|]; try (left; reflexivity).
  destruct (header "Location" h) as [session_url|]; [|left; reflexivity].
  right. exists session_url, data.
  match goal with
  | |- context [registry ?t (put_request session_url digest data)] =>
      exists (registry t (put_request session_url digest data))
  end.
  destruct (registry _ (put_request session_url digest data)) as [st2 h2 body2|];
    [destruct ((200 <=? st2) && (st2 <? 300))|];
    simpl; rewrite <- app_assoc; reflexivity.
Qed.

Lemma for_each_one {A} (x : A) (body : A -> M world unit) w :
  snd (for_each [x] body w) = snd (body x w).
Proof.
  simpl. unfold bind. destruct (body x w) as [[[]|e] w1]; reflexivity.
Qed.

Lemma open_package_lists base_tag tarball w p w1 :
  open_package base_tag tarball w = (Ok p, w1) ->
  exists entries,
    archives w !! tarball = Some entries
    /\ forall name text,
         entries !! path_join staging_dir name = Some (File text) ->
         (name = "MOUNT_BLOBS" -> pk_mount_blobs p = read_blob_list text)
         /\ (name = "UPLOAD_BLOBS" -> pk_upload_blobs p = read_blob_list text).
Proof.
  unfold open_package. cbv zeta. intros Hp.
  apply bind_inv_ok in Hp as ([] & wa & Hrm & Hp).
  apply bind_inv_ok in Hp as ([] & wb & Hex & Hp).
  apply bind_inv_ok in Hp as (bt & wc & Hbase & Hp).
  apply bind_inv_ok in Hp as ([] & wd & Hpush & Hp).
  apply bind_inv_ok in Hp as (target_text & we & Htarget & Hp).
  apply bind_inv_ok in Hp as (mount_text & wf & Hmount & Hp).
  apply bind_inv_ok in Hp as (upload_text & wg & Hupload & Hp).
  apply bind_inv_ok in Hp as (there & wh & Hthere & Hp).
  apply bind_inv_ok in Hp as (mmt & wi & Hmmt & Hp).
  injection Hp as <- <-.
  injection Hrm as <-.
  unfold tar_extractall in Hex. simpl in Hex.
  destruct (archives w !! tarball) as [entries|] eqn:Har; [|discriminate].
  injection Hex as <-.
  exists entries. split; [reflexivity|].
  set (wx := set_fs _ _) in *.
  assert (Hfx : forall k v, entries !! k = Some v -> fs wx !! k = Some v).
  { intros k v Hk. subst wx. simpl. now apply lookup_union_Some_l. }
  assert (Hbq : quiet wx wc).
  { destruct base_tag; [injection Hbase as _ <-; reflexivity|].
    apply bind_inv_ok in Hbase as (text & wq & Hrd & Hret).
    injection Hret as _ <-.
    exact (keeps_run quiet _ _ _ _ (read_file_quiet _) Hrd). }
  pose proof (keeps_run quiet _ _ _ _ (push_images_quiet _) Hpush) as Hpq.
  pose proof (keeps_run quiet _ _ _ _ (read_file_quiet _) Htarget) as Htq.
  pose proof (keeps_run quiet _ _ _ _ (read_file_quiet _) Hmount) as Hmq.
  assert (Hwe : fs we = fs wx).
  { destruct Hbq as [Hb1 _], Hpq as [Hp1 _], Htq as [Ht1 _]. congruence. }
  assert (Hwf : fs wf = fs wx).
  { destruct Hmq as [Hm1 _]. congruence. }
  intros name text Hn. split; intros ->; simpl.
  - apply Hfx in Hn. unfold read_file in Hmount. rewrite Hwe, Hn in Hmount.
    now injection Hmount as <- _.
  - apply Hfx in Hn. unfold read_file in Hupload. rewrite Hwf, Hn in Hupload.
    now injection Hupload as <- _.
Qed.


End DdiffProofs.

(** ** The pipeline on the small registry *)

Section DdiffRuns.

Import Net Ddiff Spec.

(** Closes an equation between closed terms by evaluation: both sides are
    compared with the value of the right-hand side. *)
Ltac by_vm :=
  lazymatch goal with
  | |- _ = ?b => let n := eval vm_compute in b in vm_cast_no_check (@eq_refl _ n)
  end.

(** C4 at a concrete manifest. *)
Lemma parse_blob_list_order_witness :
  _parse_blob_list (H := Fixture.env) "<target manifest>"
  = Ok [JStr "sha256:aa"; JStr "sha256:bb"; JStr "sha256:dd"].
Proof.
  apply (parse_blob_list_order (H := Fixture.env) "<target manifest>"
           (Fixture.manifest_of DOCKER_MANIFEST_V2 "sha256:aa" ["sha256:bb"; "sha256:dd"])
           (JStr "sha256:aa") [JStr "sha256:bb"; JStr "sha256:dd"]).
  - reflexivity.
  - reflexivity.
  - eexists. split; reflexivity.
  - eexists. split; [reflexivity|]. repeat constructor.
Defined.

(** C1 on [ddiff diff base target]. *)
Lemma diff_partition_persisted_witness :
  let w' := Fixture.packed_world Fixture.env "base" in
  let exclusive := Fixture.target_set ∖ Fixture.base_set in
  let mountable := Fixture.target_set ∖ exclusive in
  mountable = Fixture.target_set ∩ Fixture.base_set
  /\ mountable ## exclusive
  /\ mountable ∪ exclusive = Fixture.target_set
  /\ exists tree mount_list upload_list,
       archives w' !! Fixture.archive = Some tree
       /\ tree !! path_join staging_dir "MOUNT_BLOBS"
          = Some (File (PyStr.join "|" mount_list))
       /\ tree !! path_join staging_dir "UPLOAD_BLOBS"
          = Some (File (PyStr.join "|" upload_list))
       /\ KStr <$> mount_list ≡ₚ elements mountable
       /\ KStr <$> upload_list ≡ₚ elements exclusive.
Proof.
  apply (diff_partition_persisted (H := Fixture.env) "base" "target" Fixture.empty_world
           Fixture.fetched_manifests (Fixture.staged_world Fixture.env)
           Fixture.base_blobs Fixture.target_blobs);
    by_vm.
Defined.






(** C8 when the registry refuses the one exclusive blob. *)
Lemma download_failure_aborts_pack_witness :
  let w1 := Fixture.staged_world Fixture.env_no_blob in
  let w3 := snd (_download_blob (H := Fixture.env_no_blob) "target" (KStr "sha256:dd")
                   (path_join staging_dir "blobs") w1) in
  failed (registry (Env := Fixture.env_no_blob) (trace w1)
            (blob_request (H := Fixture.env_no_blob) "target" "sha256:dd"))
  /\ diff_image (H := Fixture.env_no_blob) "base" "target" Fixture.empty_world
     = (Raise (RuntimeError ""), w3)
  /\ archives w3 = archives Fixture.empty_world.
Proof.
  intros w1 w3. split; [reflexivity|].
  apply (download_failure_aborts_pack (H := Fixture.env_no_blob) "base" "target"
           Fixture.empty_world Fixture.fetched_manifests w1
           Fixture.base_blobs Fixture.target_blobs Fixture.target_set Fixture.base_set
           [] (KStr "sha256:dd") [] w1 (RuntimeError "") w3);
    by_vm.
Defined.

(** C6 on the small registry: [aa] mounts with 201; with a registry that
    answers 202 for [aa], the replay stops at that exchange. *)
Lemma mount_202_aborts_replay_witness :
  (exists w', _cross_mount (H := Fixture.env) "target" "base" "sha256:aa" Fixture.empty_world
              = (Ok tt, w'))
  /\ (exists w', load_image (H := Fixture.env_no_mount) None Fixture.archive
                   (Fixture.packed_world Fixture.env "base")
                 = (Raise (RuntimeError ""), w')
                 /\ last (trace w')
                    = Some (EvHttp (mount_request (H := Fixture.env_no_mount)
                                      "target" "base" "sha256:aa")
                              (Response 202
                                 [("Location",
                                   "http://localhost:5000/v2/target/blobs/uploads/session-2")]
                                 ""))).
Proof.
  destruct (mount_202_aborts_replay (H := Fixture.env)) as (H201 & _ & _).
  destruct (mount_202_aborts_replay (H := Fixture.env_no_mount)) as (_ & _ & Hreplay).
  split.
  - eexists. apply (H201 "target" "base" "sha256:aa" Fixture.empty_world [] "").
    reflexivity.
  - pose (w0 := Fixture.packed_world Fixture.env "base").
    pose (opened := open_package (H := Fixture.env_no_mount) None Fixture.archive w0).
    pose (p := {| pk_base_tag := "base:latest";
                  pk_target_tag := "target:latest";
                  pk_mount_blobs := ["sha256:aa"; "sha256:bb"];
                  pk_upload_blobs := ["sha256:dd"];
                  pk_manifest_media_type := DOCKER_MANIFEST_V2 |}).
    eexists. split.
    + apply (Hreplay None Fixture.archive w0 p (snd opened) [] "sha256:aa" ["sha256:bb"]
               (snd opened)
               [("Location", "http://localhost:5000/v2/target/blobs/uploads/session-2")] "");
        by_vm.
    + by_vm.
Defined.



End DdiffRuns.

(** ** The retry wrapper *)

Section Retry.

Import Hub Spec.

Lemma retryable_http st : retryable (HTTPError st) = retry_status st.
Proof. destruct st; reflexivity. Qed.

Lemma retry_loop_policy {A} (fn : M world A) (left i : nat) (last : option exn) w :
  (i + S left = 5)%nat ->
  retry_policy fn i w (retry_loop fn 1 8 i (S left) last w).
Proof.
  revert i last w. induction left as [|left IH]; intros i last w Hi.
  - assert (i = 4%nat) by lia. subst i.
    cbn [retry_loop]. unfold catch, bind.
    destruct (fn w) as [[a|e] w'] eqn:Hfn.
    + apply attempt_returns; [lia|exact Hfn].
    + destruct e; try (apply attempt_fatal; [lia|exact Hfn|reflexivity]);
        try (eapply attempts_exhausted; [exact Hfn|reflexivity]).
      destruct (retry_status status) eqn:Hst.
      * eapply attempts_exhausted; [exact Hfn|now rewrite retryable_http].
      * apply attempt_fatal; [lia|exact Hfn|now rewrite retryable_http].
  - cbn [retry_loop]. unfold catch. unfold bind at 1.
    destruct (fn w) as [[a|e] w'] eqn:Hfn.
    + apply attempt_returns; [lia|exact Hfn].
    + assert (Hback : backoff 1 8 i = Z.min 8 (2 ^ Z.of_nat i)).
      { unfold backoff. now rewrite Z.mul_1_l. }
      assert (Hnext : retryable e = true ->
                retry_policy fn i w
                  (bind (sleep (backoff 1 8 i))
                     (fun _ => retry_loop fn 1 8 (S i) (S left) (Some e)) w')).
      { intros He. cbv [bind sleep modify]. rewrite Hback.
        eapply attempt_retried; [lia|exact Hfn|exact He|]. apply IH. lia. }
      destruct e; try (apply attempt_fatal; [lia|exact Hfn|reflexivity]);
        try (apply Hnext; reflexivity).
      destruct (retry_status status) eqn:Hst.
      * apply Hnext. now rewrite retryable_http.
      * apply attempt_fatal; [lia|exact Hfn|now rewrite retryable_http].
Qed.

Lemma sleeps_app t1 t2 : sleeps (t1 ++ t2) = (sleeps t1 ++ sleeps t2)%list.
Proof.
  induction t1 as [|[s|req rep] t1 IH]; simpl; [reflexivity| |exact IH].
  now rewrite IH.
Qed.

Lemma retry_loop_sleeps {A} (fn : M world A) base_delay max_delay (left i : nat) last w :
  (forall w0, sleeps (trace (snd (fn w0))) = sleeps (trace w0)) ->
  exists n, (n <= left)%nat
            /\ sleeps (trace (snd (retry_loop fn base_delay max_delay i left last w)))
               = (sleeps (trace w)
                  ++ map (backoff base_delay max_delay) (seq i n))%list.
Proof.
  intros Hfn. revert i last w. induction left as [|left IH]; intros i last w.
  - exists 0%nat. split; [lia|]. simpl. rewrite app_nil_r. now destruct last.
  - cbn [retry_loop]. unfold catch. unfold bind at 1.
    specialize (Hfn w) as Hw. destruct (fn w) as [[a|e] w'] eqn:Hrun; simpl in Hw.
    + exists 0%nat. split; [lia|]. simpl. now rewrite app_nil_r.
    + assert (Hretry : exists n, (n <= S left)%nat
                /\ sleeps (trace (snd (bind (sleep (backoff base_delay max_delay i))
                                (fun _ => retry_loop fn base_delay max_delay (S i) left (Some e)) w')))
                   = (sleeps (trace w) ++ map (backoff base_delay max_delay) (seq i n))%list).
      { unfold bind, sleep, modify.
        destruct (IH (S i) (Some e) (log (EvSleep (backoff base_delay max_delay i)) w'))
          as (n & Hn & Hs).
        exists (S n). split; [lia|]. rewrite Hs. simpl. rewrite sleeps_app, Hw. simpl.
        now rewrite <- app_assoc. }
      assert (Hstop : exists n, (n <= S left)%nat
                /\ sleeps (trace (snd (@raise world (option A) e w')))
                   = (sleeps (trace w) ++ map (backoff base_delay max_delay) (seq i n))%list).
      { exists 0%nat. split; [lia|]. simpl. now rewrite app_nil_r. }
      destruct e; try exact Hstop; try exact Hretry.
      destruct (retry_status status); [exact Hretry|exact Hstop].
Qed.

(** C9.  [_with_retry] with its defaults follows the retry policy: it
    tries again only after HTTP 429, 500, 502, 503, 504 or a connection or
    timeout error, sleeps [min(8, 2^i)] seconds after the failed attempt
    [i] (so 1, 2, 4, 8, 8), makes five attempts at most and then raises the
    last error, and raises any other error at once. *)
Theorem with_retry_policy {A} (fn : M world A) (w : world) :
  retry_policy fn 0 w (_with_retry fn 5 1 8 w)
  /\ (forall e, retryable e = true <->
                e = HTTPError (Some 429) \/ e = HTTPError (Some 500)
                \/ e = HTTPError (Some 502) \/ e = HTTPError (Some 503)
                \/ e = HTTPError (Some 504) \/ e = ConnectionError \/ e = Timeout)
  /\ ((forall w0, sleeps (trace (snd (fn w0))) = sleeps (trace w0)) ->
      exists n, (n <= 5)%nat
                /\ sleeps (trace (snd (_with_retry fn 5 1 8 w)))
                   = (sleeps (trace w) ++ take n [1; 2; 4; 8; 8])%list).
Proof.
  split; [|split].
  - unfold _with_retry. now apply retry_loop_policy.
  - intros e. split.
    + destruct e as [| | | | | | | | | |[s|]| | | | |]; simpl; try discriminate; auto 10.
      intros Hs. repeat (apply orb_true_iff in Hs as [Hs|Hs]);
        apply Z.eqb_eq in Hs; subst s; auto 10.
    + intros [->|[->|[->|[->|[->|[->| ->]]]]]]; reflexivity.
  - intros Hfn. unfold _with_retry.
    destruct (retry_loop_sleeps fn 1 8 5 0 None w Hfn) as (n & Hn & Hs).
    exists n. split; [exact Hn|]. rewrite Hs. f_equal.
    do 6 (destruct n as [|n]; [reflexivity|]). lia.
Qed.

End Retry.

(** ** Platform selection *)

Section Platform.

Import Hub Spec.
Context `{Env}.

Lemma pick_platform_skip m rest :
  index_entry m -> is_linux_amd64 m = false ->
  pick_platform (m :: rest) = pick_platform rest.
Proof.
  intros (f & -> & Hp) Hm. cbn [pick_platform Py.get rbind]. simpl in Hm.
  destruct Hp as [Hp|(p & Hp)]; rewrite Hp in *; cbn [rbind Py.get_none Py.get Py.assoc].
  - reflexivity.
  - unfold is_str in Hm.
    destruct (Py.assoc "os" p) as [os|]; cbn [rbind]; [|reflexivity].
    destruct (Py.eq_str os "linux"); [|reflexivity].
    destruct (Py.assoc "architecture" p) as [arch|]; cbn [rbind]; [|reflexivity].
    simpl in Hm. now rewrite Hm.
Qed.

Lemma pick_platform_hit m rest :
  is_linux_amd64 m = true ->
  pick_platform (m :: rest) = Py.getitem m "digest".
Proof.
  intros Hm. destruct m as [| | | | |f]; try discriminate. simpl in Hm.
  destruct (Py.assoc "platform" f) as [[| | | | |p]|] eqn:Hp; try discriminate.
  cbn [pick_platform Py.get rbind]. rewrite Hp. cbn [rbind Py.get_none Py.get].
  unfold is_str in Hm. apply andb_true_iff in Hm as [Hos Harch].
  destruct (Py.assoc "os" p) as [os|]; [|discriminate].
  destruct (Py.assoc "architecture" p) as [arch|]; [|discriminate].
  cbn [rbind]. now rewrite Hos, Harch.
Qed.

Lemma pick_platform_first pre m post :
  Forall index_entry pre ->
  Forall (fun x => is_linux_amd64 x = false) pre ->
  is_linux_amd64 m = true ->
  pick_platform (pre ++ m :: post) = Py.getitem m "digest".
Proof.
  induction pre as [|x pre IH]; intros He Hn Hm.
  - now apply pick_platform_hit.
  - inversion He; inversion Hn; subst. simpl app.
    rewrite pick_platform_skip by assumption. now apply IH.
Qed.

Lemma pick_platform_none manifests :
  Forall index_entry manifests ->
  Forall (fun x => is_linux_amd64 x = false) manifests ->
  pick_platform manifests = Ok JNull.
Proof.
  induction manifests as [|x l IH]; intros He Hn; [reflexivity|].
  inversion He; inversion Hn; subst.
  rewrite pick_platform_skip by assumption. now apply IH.
Qed.

(** C7.  When the reference resolves to a manifest list or index,
    [fetch_manifest] takes the first entry whose platform is linux/amd64
    and fetches the manifest of that entry's digest, which is what it
    returns; when no entry is linux/amd64 it raises there, having made no
    further request. *)
Theorem platform_selection repo ref w r w1 idx manifests :
  with_retry_default (_get (manifest_url repo ref)) w = (Ok r, w1) ->
  is_index_type (content_type r) = true ->
  json_loads (content r) = Some idx ->
  Py.getitem idx "manifests" = Ok (JArr manifests) ->
  Forall index_entry manifests ->
  (forall pre m post d,
      manifests = (pre ++ m :: post)%list ->
      Forall (fun x => is_linux_amd64 x = false) pre ->
      is_linux_amd64 m = true ->
      Py.getitem m "digest" = Ok (JStr d) ->
      d <> "" ->
      fetch_manifest repo ref w
      = (r2 <- with_retry_default (_get (manifest_url repo d)) ;;
         man <- parse_json (content r2) ;;
         ret (content r2, man, content_type r2)) w1)
  /\ (Forall (fun x => is_linux_amd64 x = false) manifests ->
      fetch_manifest repo ref w
      = (Raise (RuntimeError (PyStr.cat "linux/amd64 not found in index for "
                                (PyStr.cat repo (PyStr.cat ":" ref)))), w1)).
Proof.
  intros Hr Hct Hj Hm He.
  assert (Hget : Py.get idx "manifests" (JArr []) = Ok (JArr manifests)).
  { destruct idx; try discriminate. simpl in *.
    destruct (Py.assoc "manifests" fields); now inversion Hm. }
  assert (Hstart : forall picked,
             pick_platform manifests = Ok picked ->
             fetch_manifest repo ref w
             = (selected <-
                  ((if negb (Py.truthy picked)
                    then raise (RuntimeError
                                  (PyStr.cat "linux/amd64 not found in index for "
                                     (PyStr.cat repo (PyStr.cat ":" ref))))
                    else ret tt) ;;;
                   r2 <- with_retry_default (_get (manifest_url repo (format_value picked))) ;;
                   ret (content r2, content_type r2)) ;;
                man <- parse_json (fst selected) ;;
                ret (fst selected, man, snd selected)) w1).
  { intros picked Hp. unfold is_index_type in Hct.
    unfold fetch_manifest, bind, lift. rewrite Hr. cbv beta iota zeta.
    rewrite Hct. unfold parse_json at 1. rewrite Hj. unfold ret at 1.
    cbv beta iota. rewrite Hget. cbv beta iota. cbn [Py.iter]. cbv beta iota.
    rewrite Hp. reflexivity. }
  split.
  - intros pre m post d -> Hpre Hhit Hd Hne.
    apply Forall_app in He as [Hepre _].
    rewrite (Hstart (JStr d)) by (rewrite pick_platform_first by assumption; exact Hd).
    assert (Ht : Py.truthy (JStr d) = true) by (destruct d; [contradiction|reflexivity]).
    rewrite Ht. cbn [negb format_value]. unfold bind, ret.
    destruct (with_retry_default _ w1) as [[r2|e] w2]; [|reflexivity].
    simpl. destruct (parse_json (content r2) w2) as [[man|e] w3]; reflexivity.
  - intros Hnone. rewrite (Hstart JNull) by now apply pick_platform_none.
    reflexivity.
Qed.

End Platform.

(** ** Verified blobs *)

Section Paths.

Import Hub Spec.

Lemma cat_cons c a b : PyStr.cat (String c a) b = String c (PyStr.cat a b).
Proof. reflexivity. Qed.

Lemma cat_assoc a b c : PyStr.cat (PyStr.cat a b) c = PyStr.cat a (PyStr.cat b c).
Proof.
  induction a as [|x a IH]; [reflexivity|]. rewrite !cat_cons. now rewrite IH.
Qed.

Lemma cat_empty_r a : PyStr.cat a "" = a.
Proof. induction a as [|x a IH]; [reflexivity|]. rewrite cat_cons. now rewrite IH. Qed.

Lemma cat_neq a b : b <> "" -> PyStr.cat a b <> a.
Proof.
  intros Hb. induction a as [|x a IH]; [exact Hb|].
  rewrite cat_cons. intros [= Heq]. now apply IH.
Qed.

Lemma endswith_self p : PyStr.endswith p p = true.
Proof. destruct p; simpl; [reflexivity|]. now rewrite Ascii.eqb_refl, String.eqb_refl. Qed.

Lemma endswith_cat x p : PyStr.endswith p (PyStr.cat x p) = true.
Proof.
  induction x as [|c x IH]; [apply endswith_self|].
  rewrite cat_cons. cbn [PyStr.endswith]. rewrite IH. apply orb_true_r.
Qed.

Lemma endswith_cat_more x y p : PyStr.endswith p (PyStr.cat x (PyStr.cat y p)) = true.
Proof. rewrite <- cat_assoc. apply endswith_cat. Qed.

(** The last character of a string. *)
Lemma endswith_split p s : PyStr.endswith p s = true -> exists x, s = PyStr.cat x p.
Proof.
  induction s as [|c s IH]; cbn [PyStr.endswith].
  - rewrite orb_false_r. intros ->%String.eqb_eq. now exists "".
  - intros [->%String.eqb_eq|Hs]%orb_true_iff; [now exists ""|].
    destruct (IH Hs) as (x & ->). now exists (String c x).
Qed.

Lemma cat_length a b : String.length (PyStr.cat a b) = (String.length a + String.length b)%nat.
Proof.
  induction a as [|x a IH]; [reflexivity|]. rewrite cat_cons. simpl. now rewrite IH.
Qed.

Lemma cat_same_suffix_length x y p q :
  String.length p = String.length q -> PyStr.cat x p = PyStr.cat y q -> p = q.
Proof.
  revert y. induction x as [|c x IH]; intros y Hl Heq.
  - destruct y as [|d y]; [exact Heq|].
    apply (f_equal String.length) in Heq. rewrite !cat_length in Heq. simpl in Heq. lia.
  - destruct y as [|d y].
    + apply (f_equal String.length) in Heq. rewrite !cat_length in Heq. simpl in Heq. lia.
    + rewrite !cat_cons in Heq. injection Heq as _ Heq. now apply (IH y).
Qed.

(** A path that ends in [data] ends neither in [.part] nor in [link]. *)
Lemma data_not_part x : PyStr.endswith ".part" (PyStr.cat x "data") = false.
Proof.
  destruct (PyStr.endswith ".part" (PyStr.cat x "data")) eqn:He; [|reflexivity].
  apply endswith_split in He as (y & Hy).
  assert (Hcut : PyStr.cat x "data" = PyStr.cat (PyStr.cat y ".") "part")
    by (now rewrite cat_assoc).
  apply cat_same_suffix_length in Hcut; [discriminate|reflexivity].
Qed.

Lemma data_not_link x : PyStr.endswith "link" (PyStr.cat x "data") = false.
Proof.
  destruct (PyStr.endswith "link" (PyStr.cat x "data")) eqn:He; [|reflexivity].
  apply endswith_split in He as (y & Hy).
  apply cat_same_suffix_length in Hy; [discriminate|reflexivity].
Qed.

Lemma join2_last x name :
  PyStr.startswith "/" name = false ->
  exists y, join2 x name = PyStr.cat y name.
Proof.
  intros Hn. unfold join2. rewrite Hn.
  destruct (_ || _); [now exists x|]. exists (PyStr.cat x "/"). now rewrite cat_assoc.
Qed.

Lemma path_join_last a l name :
  PyStr.startswith "/" name = false ->
  exists y, path_join a (l ++ [name]) = PyStr.cat y name.
Proof.
  intros Hn. unfold path_join. rewrite fold_left_app. simpl. now apply join2_last.
Qed.

Lemma blob_file_path_data out digest p :
  blob_file_path out digest = Ok p -> exists y, p = PyStr.cat y "data".
Proof.
  unfold blob_file_path. destruct (split_digest digest) as [[algo hexd]|]; [|discriminate].
  cbn [rbind fst snd]. intros [= <-].
  apply (path_join_last out ["docker"; "registry"; "v2"; "blobs"; algo; PyStr.take 2 hexd; hexd]
           "data" eq_refl).
Qed.

Lemma canonical_not_part out digest p :
  blob_file_path out digest = Ok p ->
  PyStr.endswith ".part" p = false /\ PyStr.endswith "link" p = false.
Proof.
  intros (y & ->)%blob_file_path_data. split; [apply data_not_part|apply data_not_link].
Qed.

Lemma link_path_ends a l :
  PyStr.endswith "link" (path_join a (l ++ ["link"])) = true.
Proof.
  destruct (path_join_last a l "link" eq_refl) as (y & ->). apply endswith_cat.
Qed.

End Paths.

Section Store.

Import Hub Spec.
Context `{Env}.

#[local] Instance same_store_refl : Reflexive same_store.
Proof. intros w. split; reflexivity. Qed.
#[local] Instance same_store_trans : Transitive same_store.
Proof. intros a b c [] []. split; congruence. Qed.

Ltac store_step :=
  match goal with
  | |- keeps ?R (bind _ _) => apply (keeps_bind R); [|intros ?]
  | |- keeps ?R (ret _) => apply (keeps_ret R)
  | |- keeps ?R (raise _) => apply (keeps_raise R)
  | |- keeps ?R (lift _) => apply (keeps_lift R)
  | |- keeps ?R (gets _) => apply (keeps_gets R)
  | |- keeps ?R (catch _ _) => apply (keeps_catch R); [|intros ?]
  | |- keeps ?R (for_each _ _) => apply (keeps_for_each R); intros ?
  | |- keeps _ (match ?x with _ => _ end) => destruct x
  | |- keeps _ (let _ := _ in _) => cbv zeta
  end.

Lemma session_get_same url hdrs stream : keeps same_store (session_get url hdrs stream).
Proof.
  intros w. unfold session_get. cbv zeta.
  destruct (registry _ _) as [st h cs full| |]; [destruct (_ || _)| |]; split; reflexivity.
Qed.

Lemma raise_for_status_same r : keeps same_store (raise_for_status r).
Proof. unfold raise_for_status. destruct (_ && _); intros w; split; reflexivity. Qed.

Lemma sleep_same s : keeps same_store (sleep s).
Proof. intros w. split; reflexivity. Qed.

Lemma retry_loop_same {A} (fn : M world A) base_delay max_delay i left last :
  keeps same_store fn -> keeps same_store (retry_loop fn base_delay max_delay i left last).
Proof.
  intros Hfn. revert i last. induction left as [|left IH]; intros i last; cbn [retry_loop].
  - destruct last; [apply (keeps_raise same_store)|apply (keeps_ret same_store)].
  - repeat store_step; auto using sleep_same; try apply (keeps_raise same_store).
Qed.

Lemma with_retry_default_same {A} (fn : M world A) :
  keeps same_store fn -> keeps same_store (with_retry_default fn).
Proof.
  intros Hfn. unfold with_retry_default, _with_retry.
  repeat store_step; auto using retry_loop_same.
Qed.

Lemma get_same url : keeps same_store (_get url).
Proof. unfold _get. repeat store_step; auto using session_get_same, raise_for_status_same. Qed.

Lemma get_stream_same url : keeps same_store (_get_stream url).
Proof.
  unfold _get_stream. repeat store_step; auto using session_get_same, raise_for_status_same.
Qed.

Lemma fetch_manifest_same repo ref : keeps same_store (fetch_manifest repo ref).
Proof.
  unfold fetch_manifest, parse_json.
  repeat store_step; auto using with_retry_default_same, get_same.
Qed.

(** *** Streaming into the temporary file *)

Lemma write_chunks_run tmp cs h w c0 :
  fs w !! tmp = Some c0 ->
  write_chunks tmp cs h w
  = (Ok (PyStr.cat h (fold_right PyStr.cat "" cs)),
     set_fs (<[ tmp := PyStr.cat c0 (fold_right PyStr.cat "" cs) ]> (fs w)) w).
Proof.
  revert h w c0. induction cs as [|chunk cs IH]; intros h w c0 Hc; cbn [write_chunks fold_right].
  - rewrite !cat_empty_r. unfold ret. f_equal. destruct w as [f d t]. unfold set_fs. simpl in *.
    f_equal. symmetry. now apply insert_id.
  - destruct chunk as [|c chunk]; cbn [PyStr.nonempty].
    + now apply IH.
    + unfold bind, append_bytes, modify. rewrite Hc.
      rewrite (IH _ _ (PyStr.cat c0 (String c chunk))).
      * rewrite !cat_assoc. f_equal. unfold set_fs. simpl. f_equal. apply insert_insert_eq.
      * simpl. apply lookup_insert_eq.
Qed.

Lemma stream_to_file_run r tmp w :
  stream_to_file r tmp w
  = (if complete r then Ok (content r) else Raise ChunkedEncodingError,
     set_fs (<[ tmp := content r ]> (fs w)) w).
Proof.
  unfold stream_to_file, bind, write_bytes, modify.
  rewrite (write_chunks_run tmp (chunks r) "" _ "") by (simpl; apply lookup_insert_eq).
  unfold content. cbn [PyStr.cat String.append]. unfold set_fs. simpl.
  rewrite insert_insert_eq. destruct (complete r); reflexivity.
Qed.


(** *** One blob *)

Lemma stream_download_blob_run repo digest dest w :
  stream_download_blob repo digest dest w
  = match fs w !! dest with
    | Some _ => (Ok tt, set_downloaded ({[ digest ]} ∪ DOWNLOADED w) w)
    | None =>
        if bool_decide (digest ∈ DOWNLOADED w) then (Ok tt, w)
        else
          let w0 := set_downloaded ({[ digest ]} ∪ DOWNLOADED w) w in
          match with_retry_default (_get_stream (blob_url repo digest)) w0 with
          | (Raise e, w1) => (Raise e, w1)
          | (Ok r, w1) =>
              match split_digest digest with
              | Raise e => (Raise e, w1)
              | Ok (algo, hexd) =>
                  let tmp := PyStr.cat dest ".part" in
                  let w2 := set_fs (<[ tmp := content r ]> (fs w1)) w1 in
                  if complete r then
                    if String.eqb (sha256_hex (content r)) hexd then
                      (Ok tt, set_fs (<[ dest := content r ]> (delete tmp (fs w2))) w2)
                    else
                      let w3 := set_downloaded (DOWNLOADED w2 ∖ {[ digest ]}) w2 in
                      (Raise (RuntimeError
                                (PyStr.cat "SHA256 mismatch for "
                                   (PyStr.cat digest
                                      (PyStr.cat ": got " (sha256_hex (content r)))))),
                       set_fs (delete tmp (fs w3)) w3)
                  else (Raise ChunkedEncodingError, w2)
              end
          end
    end.
Proof.
  unfold stream_download_blob. unfold bind at 1. unfold path_exists, gets.
  destruct (fs w !! dest) as [c|]; [reflexivity|].
  unfold bind at 1. destruct (bool_decide (digest ∈ DOWNLOADED w)); [reflexivity|].
  unfold bind at 1, downloaded_add, modify. cbv zeta. unfold bind at 1.
  destruct (with_retry_default _ _) as [[r|e] w1]; [|reflexivity].
  unfold bind at 1, lift. destruct (split_digest digest) as [[algo hexd]|e]; [|reflexivity].
  unfold bind at 1, ensure, ret. unfold bind at 1. rewrite stream_to_file_run.
  destruct (complete r); [|reflexivity]. cbn [snd].
  destruct (String.eqb (sha256_hex (content r)) hexd); cbn [negb].
  - unfold os_replace. simpl. rewrite lookup_insert_eq. reflexivity.
  - unfold bind, downloaded_discard, modify, os_remove. simpl.
    rewrite lookup_insert_eq. reflexivity.
Qed.

Lemma stream_download_blob_fs repo digest dest w :
  let out := stream_download_blob repo digest dest w in
  (forall p, p <> dest -> p <> PyStr.cat dest ".part" -> fs (snd out) !! p = fs w !! p)
  /\ (fs (snd out) !! dest = fs w !! dest
      \/ exists algo hexd data,
           fst out = Ok tt
           /\ split_digest digest = Ok (algo, hexd)
           /\ fs (snd out) !! dest = Some data
           /\ sha256_hex data = hexd).
Proof.
  cbv zeta. rewrite stream_download_blob_run.
  assert (Hne : dest <> PyStr.cat dest ".part").
  { intros Heq. symmetry in Heq. now apply cat_neq in Heq. }
  destruct (fs w !! dest) as [c|] eqn:Hd; [split; [reflexivity|now left]|].
  destruct (bool_decide _); [split; [reflexivity|left; exact Hd]|].
  cbv zeta.
  pose proof (with_retry_default_same _ (get_stream_same (blob_url repo digest))
                (set_downloaded ({[digest]} ∪ DOWNLOADED w) w)) as [Hfs _].
  destruct (with_retry_default _ _) as [[r|e] w1]; simpl in Hfs;
    [|simpl; split; [intros; now rewrite Hfs|left; now rewrite Hfs]].
  destruct (split_digest digest) as [[algo hexd]|e];
    [|simpl; split; [intros; now rewrite Hfs|left; now rewrite Hfs]].
  destruct (complete r).
  - destruct (String.eqb (sha256_hex (content r)) hexd) eqn:Hsha; simpl.
    + split.
      * intros p Hp Hpt. rewrite lookup_insert_ne, lookup_delete_ne, lookup_insert_ne by congruence.
        now rewrite Hfs.
      * right. exists algo, hexd, (content r). repeat split; [apply lookup_insert_eq|].
        now apply String.eqb_eq.
    + split.
      * intros p Hp Hpt. rewrite lookup_delete_ne, lookup_insert_ne by congruence.
        now rewrite Hfs.
      * left. rewrite lookup_delete_ne, lookup_insert_ne by congruence. now rewrite Hfs.
  - simpl. split.
    + intros p Hp Hpt. rewrite lookup_insert_ne by congruence. now rewrite Hfs.
    + left. rewrite lookup_insert_ne by congruence. now rewrite Hfs.
Qed.

Lemma stream_download_blob_mismatch repo digest dest w r w1 algo hexd :
  fs w !! dest = None ->
  digest ∉ DOWNLOADED w ->
  with_retry_default (_get_stream (blob_url repo digest))
    (set_downloaded ({[ digest ]} ∪ DOWNLOADED w) w) = (Ok r, w1) ->
  complete r = true ->
  split_digest digest = Ok (algo, hexd) ->
  sha256_hex (content r) <> hexd ->
  let out := stream_download_blob repo digest dest w in
  fst out = Raise (RuntimeError
                     (PyStr.cat "SHA256 mismatch for "
                        (PyStr.cat digest (PyStr.cat ": got " (sha256_hex (content r))))))
  /\ fs (snd out) !! PyStr.cat dest ".part" = None
  /\ fs (snd out) !! dest = None
  /\ digest ∉ DOWNLOADED (snd out).
Proof.
  intros Hd Hn Hr Hc Hs Hsha. cbv zeta. rewrite stream_download_blob_run, Hd.
  rewrite bool_decide_eq_false_2 by exact Hn. cbv zeta. rewrite Hr, Hs, Hc.
  apply String.eqb_neq in Hsha. rewrite Hsha. simpl.
  pose proof (keeps_run same_store _ _ _ _
                (with_retry_default_same _ (get_stream_same (blob_url repo digest))) Hr)
    as [Hfs _].
  repeat split.
  - apply lookup_delete_eq.
  - rewrite lookup_delete_ne, lookup_insert_ne, Hfs; [exact Hd| |];
      intros Heq; now apply cat_neq in Heq.
  - intros Hin. apply elem_of_difference in Hin as [_ Hin]. apply Hin.
    now apply elem_of_singleton.
Qed.


(** *** The manifest as a blob *)

Lemma manifest_blob_path out mdhex :
  exists m_dest, blob_file_path out (PyStr.cat "sha256:" mdhex) = Ok m_dest
                 /\ split_digest (PyStr.cat "sha256:" mdhex) = Ok ("sha256", mdhex).
Proof. eexists. split; reflexivity. Qed.

Lemma store_manifest_blob_run out man_bytes mdhex mdgst m_dest w :
  blob_file_path out mdgst = Ok m_dest ->
  store_manifest_blob out man_bytes mdhex mdgst w
  = match fs w !! m_dest with
    | Some _ => (Ok tt, w)
    | None =>
        let tmp := PyStr.cat m_dest ".part" in
        if String.eqb (sha256_hex man_bytes) mdhex then
          (Ok tt,
           set_downloaded ({[ mdgst ]} ∪ DOWNLOADED w)
             (set_fs (<[ m_dest := man_bytes ]> (delete tmp (<[ tmp := man_bytes ]> (fs w)))) w))
        else
          (Raise (RuntimeError (PyStr.cat "Manifest blob sha mismatch for " mdgst)),
           set_fs (delete tmp (<[ tmp := man_bytes ]> (fs w))) w)
    end.
Proof.
  intros Hp. unfold store_manifest_blob. rewrite Hp. unfold bind at 1, lift.
  unfold bind at 1, path_exists, gets. destruct (fs w !! m_dest); [reflexivity|].
  unfold bind at 1, ensure, ret. unfold bind at 1, write_bytes, modify.
  unfold bind at 1, sha256_hex_of_file, read_bytes. unfold bind at 1. simpl.
  rewrite lookup_insert_eq. unfold ret.
  destruct (String.eqb (sha256_hex man_bytes) mdhex); cbn [negb].
  - unfold bind, os_replace, downloaded_add, modify. simpl. rewrite lookup_insert_eq.
    reflexivity.
  - unfold bind, os_remove. simpl. rewrite lookup_insert_eq. reflexivity.
Qed.

(** *** Frames of [process_image] *)

#[local] Instance verified_writes_refl out : Reflexive (verified_writes out).
Proof. intros w p. now left. Qed.

#[local] Instance verified_writes_trans out : Transitive (verified_writes out).
Proof.
  intros a b c Hab Hbc p. destruct (Hbc p) as [Heq|Hrest]; [|now right].
  destruct (Hab p) as [Heq'|[Hp|[Hl|(dg & algo & hexd & data & Hs & Hpath & Hd & Hsha)]]].
  - left. congruence.
  - right; now left.
  - right; right; now left.
  - right; right; right. exists dg, algo, hexd, data. repeat split; auto. congruence.
Qed.

Lemma same_store_verified {A} out (m : M world A) :
  keeps same_store m -> keeps (verified_writes out) m.
Proof. intros Hm w p. left. now destruct (Hm w) as [-> _]. Qed.

Lemma downloaded_add_verified out digest : keeps (verified_writes out) (downloaded_add digest).
Proof. intros w p. now left. Qed.

Lemma stream_download_blob_verified out repo digest dest :
  blob_file_path out digest = Ok dest ->
  keeps (verified_writes out) (stream_download_blob repo digest dest).
Proof.
  intros Hp w p. destruct (stream_download_blob_fs repo digest dest w) as [Hother Hdest].
  destruct (decide (p = dest)) as [->|Hne].
  - destruct Hdest as [Heq|(algo & hexd & data & _ & Hs & Hd & Hsha)]; [now left|].
    right; right; right. now exists digest, algo, hexd, data.
  - destruct (decide (p = PyStr.cat dest ".part")) as [->|Hnt].
    + right; left. apply endswith_cat.
    + left. now apply Hother.
Qed.

Lemma store_manifest_blob_verified out man_bytes :
  keeps (verified_writes out)
    (store_manifest_blob out man_bytes (sha256_hex man_bytes)
       (PyStr.cat "sha256:" (sha256_hex man_bytes))).
Proof.
  intros w p. destruct (manifest_blob_path out (sha256_hex man_bytes)) as (m_dest & Hp & Hs).
  rewrite (store_manifest_blob_run _ _ _ _ _ _ Hp).
  destruct (fs w !! m_dest) eqn:Hd; [now left|].
  cbv zeta. rewrite String.eqb_refl. simpl.
  destruct (decide (p = m_dest)) as [->|Hne].
  - right; right; right.
    exists (PyStr.cat "sha256:" (sha256_hex man_bytes)), "sha256", (sha256_hex man_bytes), man_bytes.
    repeat split; auto. apply lookup_insert_eq.
  - destruct (decide (p = PyStr.cat m_dest ".part")) as [->|Hnt].
    + right; left. apply endswith_cat.
    + left. now rewrite lookup_insert_ne, lookup_delete_ne, lookup_insert_ne by congruence.
Qed.

Lemma write_link_verified out path digest :
  PyStr.endswith "link" path = true ->
  keeps (verified_writes out) (write_link path digest).
Proof.
  intros Hl w p. unfold write_link, bind, ensure, ret, write_bytes, modify. simpl.
  destruct (decide (p = path)) as [->|Hne]; [right; right; now left|].
  left. now rewrite lookup_insert_ne by congruence.
Qed.

Lemma map_repository_verified out root repo tag mdgst config layers :
  keeps (verified_writes out) (map_repository root repo tag mdgst config layers).
Proof.
  unfold map_repository. cbv zeta.
  repeat store_step;
    try (apply write_link_verified;
         match goal with
         | |- PyStr.endswith "link" (path_join ?a [?x1; ?x2; ?x3; "link"]) = true =>
             apply (link_path_ends a [x1; x2; x3])
         | |- PyStr.endswith "link" (path_join ?a [?x1; ?x2; ?x3; ?x4]) = true =>
             apply (link_path_ends a [x1; x2; x3; x4])
         | |- PyStr.endswith "link" (path_join ?a [?x1; ?x2; ?x3; ?x4; ?x5; ?x6; "link"]) = true =>
             apply (link_path_ends a [x1; x2; x3; x4; x5; x6])
         | |- PyStr.endswith "link" (path_join ?a [?x1; ?x2; ?x3; ?x4; "link"]) = true =>
             apply (link_path_ends a [x1; x2; x3; x4])
         end).
Qed.

Lemma keeps_bind_lift {A B} (R : world -> world -> Prop) `{!Reflexive R}
      (r : result A) (k : A -> M world B) :
  (forall a, r = Ok a -> keeps R (k a)) -> keeps R (bind (lift r) k).
Proof.
  intros Hk w. unfold bind, lift. destruct r as [a|e]; [now apply Hk|]. simpl. reflexivity.
Qed.

Lemma download_blobs_verified out repo digests :
  keeps (verified_writes out) (download_blobs out repo digests).
Proof.
  unfold download_blobs. apply (keeps_for_each (verified_writes out)). intros dg.
  apply (keeps_bind_lift (verified_writes out)). intros dg_str _.
  apply (keeps_bind_lift (verified_writes out)). intros dest Hp.
  apply (keeps_bind (verified_writes out)); [apply (keeps_gets (verified_writes out))|].
  intros [|]; [apply downloaded_add_verified|].
  now apply stream_download_blob_verified.
Qed.

Lemma process_image_verified out repo tag :
  keeps (verified_writes out) (process_image out repo tag).
Proof.
  unfold process_image.
  apply (keeps_bind (verified_writes out));
    [apply same_store_verified, fetch_manifest_same|intros fetched].
  cbv zeta.
  do 5 (apply (keeps_bind (verified_writes out));
        [apply (keeps_lift (verified_writes out))|intros ?]).
  apply (keeps_bind (verified_writes out)); [apply store_manifest_blob_verified|intros ?].
  apply (keeps_bind (verified_writes out)); [apply download_blobs_verified|intros ?].
  do 2 (apply (keeps_bind (verified_writes out));
        [apply (keeps_lift (verified_writes out))|intros ?]).
  apply (keeps_bind (verified_writes out)); [apply map_repository_verified|intros ?].
  apply (keeps_ret (verified_writes out)).
Qed.


End Store.

(** ** The seeder on the small source registry *)

Section HubRuns.

Import Hub Spec.

Lemma get_sleeps `{Env} url w :
  sleeps (trace (snd (_get url w))) = sleeps (trace w).
Proof.
  unfold _get, bind, session_get, raise_for_status. cbv zeta.
  destruct (registry _ _) as [st h cs full| |]; simpl;
    [destruct full; simpl; [destruct (_ && _); simpl|]| |];
    rewrite sleeps_app; simpl; apply app_nil_r.
Qed.

(** C9 against a repository that always answers 503. *)
Lemma with_retry_policy_witness :
  let fn := _get (H := HubFixture.env)
              (manifest_url "library/busy" "latest") in
  let out := _with_retry fn 5 1 8 HubFixture.empty_world in
  retry_policy fn 0 HubFixture.empty_world out
  /\ fst out = Raise (HTTPError (Some 503))
  /\ sleeps (trace (snd out)) = [1; 2; 4; 8; 8]
  /\ exists n, (n <= 5)%nat
               /\ sleeps (trace (snd out))
                  = (sleeps (trace HubFixture.empty_world) ++ take n [1; 2; 4; 8; 8])%list.
Proof.
  intros fn out.
  destruct (with_retry_policy fn HubFixture.empty_world) as (Hpolicy & _ & Hsleeps).
  split; [exact Hpolicy|]. split; [vm_compute; reflexivity|].
  split; [vm_compute; reflexivity|].
  apply Hsleeps. intros w0. apply get_sleeps.
Defined.

(** C7 on an index with an arm64 and an amd64 entry, and on an index with
    an arm64 entry only. *)
Lemma platform_selection_witness :
  fst (fetch_manifest (H := HubFixture.env) "library/app" "latest" HubFixture.empty_world)
  = Ok ("<manifest>",
        JObj [("config", JObj [("digest", JStr "sha256:hash-of-<config>")]);
              ("layers", JArr [JObj [("digest", JStr "sha256:hash-of-<layer>")]])],
        HubFixture.manifest_type)
  /\ fetch_manifest (H := HubFixture.env) "library/arm" "latest" HubFixture.empty_world
     = (Raise (RuntimeError "linux/amd64 not found in index for library/arm:latest"),
        snd (with_retry_default
               (_get (H := HubFixture.env) (manifest_url "library/arm" "latest"))
               HubFixture.empty_world)).
Proof.
  split.
  - pose (first := with_retry_default
                     (_get (H := HubFixture.env) (manifest_url "library/app" "latest"))
                     HubFixture.empty_world).
    pose (r := {| status_code := 200;
                  headers := [("Content-Type", HubFixture.index_type)];
                  chunks := ["<index>"];
                  complete := true |}).
    assert (Hfirst : first = (Ok r, snd first)) by (vm_compute; reflexivity).
    destruct (platform_selection (H := HubFixture.env) "library/app" "latest"
                HubFixture.empty_world r (snd first)
                (JObj [("manifests", JArr [HubFixture.entry "linux" "arm64" "sha256:arm";
                                           HubFixture.entry "linux" "amd64" "sha256:amd"])])
                [HubFixture.entry "linux" "arm64" "sha256:arm";
                 HubFixture.entry "linux" "amd64" "sha256:amd"]
                Hfirst eq_refl eq_refl eq_refl) as [Hpick _].
    { repeat constructor; eexists; (split; [reflexivity|right; eexists; reflexivity]). }
    rewrite (Hpick [HubFixture.entry "linux" "arm64" "sha256:arm"]
               (HubFixture.entry "linux" "amd64" "sha256:amd") [] "sha256:amd"
               eq_refl ltac:(repeat constructor) eq_refl eq_refl ltac:(discriminate)).
    vm_compute. reflexivity.
  - pose (first := with_retry_default
                     (_get (H := HubFixture.env) (manifest_url "library/arm" "latest"))
                     HubFixture.empty_world).
    pose (r := {| status_code := 200;
                  headers := [("Content-Type", HubFixture.index_type)];
                  chunks := ["<arm index>"];
                  complete := true |}).
    assert (Hfirst : first = (Ok r, snd first)) by (vm_compute; reflexivity).
    destruct (platform_selection (H := HubFixture.env) "library/arm" "latest"
                HubFixture.empty_world r (snd first)
                (JObj [("manifests", JArr [HubFixture.entry "linux" "arm64" "sha256:arm"])])
                [HubFixture.entry "linux" "arm64" "sha256:arm"]
                Hfirst eq_refl eq_refl eq_refl) as [_ Hnone].
    { repeat constructor; eexists; (split; [reflexivity|right; eexists; reflexivity]). }
    apply Hnone. repeat constructor.
Defined.


End HubRuns.

(** ** More on strings *)

Section Chars.

Lemma contains_char_nil c : PyStr.contains (String c "") "" = false.
Proof. reflexivity. Qed.

Lemma contains_char_cons c d s :
  PyStr.contains (String c "") (String d s)
  = Ascii.eqb c d || PyStr.contains (String c "") s.
Proof. cbn [PyStr.contains PyStr.startswith]. now destruct (Ascii.eqb c d), s. Qed.

Lemma contains_char_cat c a b :
  PyStr.contains (String c "") (PyStr.cat a b)
  = PyStr.contains (String c "") a || PyStr.contains (String c "") b.
Proof.
  induction a as [|d a IH]; [reflexivity|].
  rewrite cat_cons, !contains_char_cons, IH. apply orb_assoc.
Qed.

Lemma replace_char_nil c new : PyStr.replace (String c "") new "" = "".
Proof. reflexivity. Qed.

Lemma replace_char_cons c new d s :
  PyStr.replace (String c "") new (String d s)
  = if Ascii.eqb c d then PyStr.cat new (PyStr.replace (String c "") new s)
    else String d (PyStr.replace (String c "") new s).
Proof.
  unfold PyStr.replace. cbn [PyStr.replace_go PyStr.startswith String.length Nat.pred].
  now destruct (Ascii.eqb c d), s.
Qed.

Lemma replace_char_absent c new s :
  PyStr.contains (String c "") s = false -> PyStr.replace (String c "") new s = s.
Proof.
  induction s as [|d s IH]; [reflexivity|].
  rewrite contains_char_cons, replace_char_cons.
  intros [Hd Hs]%orb_false_iff. rewrite Hd, IH by exact Hs. reflexivity.
Qed.

Lemma replace_char_other c d new s :
  PyStr.contains (String d "") new = false ->
  PyStr.contains (String d "") s = false ->
  PyStr.contains (String d "") (PyStr.replace (String c "") new s) = false.
Proof.
  intros Hn. induction s as [|e s IH]; [reflexivity|].
  rewrite contains_char_cons, replace_char_cons.
  intros [He Hs]%orb_false_iff. destruct (Ascii.eqb c e).
  - rewrite contains_char_cat, Hn. now apply IH.
  - rewrite contains_char_cons, He. now apply IH.
Qed.

Lemma replace_char_gone c new s :
  PyStr.contains (String c "") new = false ->
  PyStr.contains (String c "") (PyStr.replace (String c "") new s) = false.
Proof.
  intros Hn. induction s as [|e s IH]; [reflexivity|].
  rewrite replace_char_cons. destruct (Ascii.eqb c e) eqn:He.
  - now rewrite contains_char_cat, Hn.
  - now rewrite contains_char_cons, He.
Qed.

End Chars.

(** ** Tags and archive names *)

Section Tags.

Import Net Ddiff Spec.
Context `{Env}.

(** X1.  A prepared tag always names a version: it contains a [":"]; with
    nested repositories disabled it contains no ["/"]; and preparing a
    prepared tag changes nothing. *)
Theorem prepare_tag_normal_form (tag : string) :
  PyStr.contains ":" (_prepare_tag tag) = true
  /\ (ddiff_disable_repository = true -> PyStr.contains "/" (_prepare_tag tag) = false)
  /\ _prepare_tag (_prepare_tag tag) = _prepare_tag tag.
Proof.
  assert (Hcolon : forall t, PyStr.contains ":" (if negb (PyStr.contains ":" t)
                                                 then PyStr.cat t ":latest" else t) = true).
  { intros t. destruct (PyStr.contains ":" t) eqn:Ht; [exact Ht|].
    cbn [negb]. rewrite contains_char_cat. apply orb_true_r. }
  assert (Hslash : forall t, PyStr.contains "/" t = false ->
                   PyStr.contains "/" (if negb (PyStr.contains ":" t)
                                       then PyStr.cat t ":latest" else t) = false).
  { intros t Ht. destruct (negb _); [|exact Ht]. now rewrite contains_char_cat, Ht. }
  unfold _prepare_tag. split; [apply Hcolon|]. split.
  - intros ->. apply Hslash, replace_char_gone. reflexivity.
  - destruct ddiff_disable_repository.
    + rewrite (replace_char_absent "/" "-" (if negb _ then _ else _))
        by (apply Hslash, replace_char_gone; reflexivity).
      now rewrite (Hcolon (PyStr.replace "/" "-" tag)).
    + now rewrite (Hcolon tag).
Qed.

(** X2.  The archive of a target is a plain file name: it has no ["/"]
    and no [":"], whatever the tag, and ends in [.tar.gz]. *)
Theorem archive_name_plain (target_tag : string) :
  PyStr.contains "/" (archive_name_of target_tag) = false
  /\ PyStr.contains ":" (archive_name_of target_tag) = false
  /\ PyStr.endswith ".tar.gz" (archive_name_of target_tag) = true.
Proof.
  unfold archive_name_of. split; [|split].
  - rewrite contains_char_cat, orb_false_r.
    apply replace_char_other; [reflexivity|]. apply replace_char_gone. reflexivity.
  - rewrite contains_char_cat, orb_false_r. apply replace_char_gone. reflexivity.
  - apply endswith_cat.
Qed.

End Tags.

(** ** Splitting and joining *)

Section Splits.

Lemma cat_empty_l b : PyStr.cat "" b = b.
Proof. reflexivity. Qed.

Lemma split1_two sep s a b :
  PyStr.split1 sep s = [a; b] ->
  s = PyStr.cat a (String sep b) /\ PyStr.contains (String sep "") a = false.
Proof.
  revert a. induction s as [|c s IH]; intros a; cbn [PyStr.split1]; [discriminate|].
  destruct (Ascii.eqb c sep) eqn:Hc.
  - intros [= <- <-]. apply Ascii.eqb_eq in Hc as ->. now split.
  - destruct (PyStr.split1 sep s) as [|h t] eqn:Hs; [discriminate|].
    intros [= <- ->]. destruct (IH h eq_refl) as [-> Hh].
    split; [now rewrite cat_cons|].
    now rewrite contains_char_cons, Ascii.eqb_sym, Hc, Hh.
Qed.

Lemma split1_cat sep a b :
  PyStr.contains (String sep "") a = false ->
  PyStr.split1 sep (PyStr.cat a (String sep b)) = [a; b].
Proof.
  induction a as [|c a IH].
  - intros _. rewrite cat_empty_l. cbn [PyStr.split1]. now rewrite Ascii.eqb_refl.
  - rewrite contains_char_cons. intros [Hc Ha]%orb_false_iff.
    rewrite cat_cons. cbn [PyStr.split1]. rewrite Ascii.eqb_sym, Hc, IH by exact Ha.
    reflexivity.
Qed.

Lemma split_plain sep a :
  PyStr.contains (String sep "") a = false -> PyStr.split sep a = [a].
Proof.
  induction a as [|c a IH]; [reflexivity|].
  rewrite contains_char_cons. intros [Hc Ha]%orb_false_iff.
  cbn [PyStr.split]. now rewrite Ascii.eqb_sym, Hc, IH.
Qed.

Lemma split_cat sep a b :
  PyStr.contains (String sep "") a = false ->
  PyStr.split sep (PyStr.cat a (String sep b)) = a :: PyStr.split sep b.
Proof.
  induction a as [|c a IH].
  - intros _. rewrite cat_empty_l. cbn [PyStr.split]. now rewrite Ascii.eqb_refl.
  - rewrite contains_char_cons. intros [Hc Ha]%orb_false_iff.
    rewrite cat_cons. cbn [PyStr.split]. now rewrite Ascii.eqb_sym, Hc, IH.
Qed.

Lemma split_join sep l :
  l <> [] ->
  Forall (fun d => PyStr.contains (String sep "") d = false) l ->
  PyStr.split sep (PyStr.join (String sep "") l) = l.
Proof.
  intros Hl Hall. induction Hall as [|x rest Hx Hrest IH]; [done|].
  destruct rest as [|y rest]; [now apply split_plain|].
  change (PyStr.join (String sep "") (x :: y :: rest))
    with (PyStr.cat x (String sep (PyStr.join (String sep "") (y :: rest)))).
  rewrite split_cat by exact Hx. f_equal. now apply IH.
Qed.

Lemma all_chars_excludes p c s :
  p c = false -> Ddiff.all_chars p s = true -> PyStr.contains (String c "") s = false.
Proof.
  intros Hc. induction s as [|d s IH]; [reflexivity|].
  cbn [Ddiff.all_chars]. intros [Hd Hs]%andb_true_iff.
  rewrite contains_char_cons, IH by exact Hs.
  destruct (Ascii.eqb c d) eqn:E; [|reflexivity].
  apply Ascii.eqb_eq in E as ->. congruence.
Qed.

Lemma hex_to_end_excludes c s :
  Ddiff.hex_char c = false -> c <> "010"%char ->
  Ddiff.hex_to_end s = true -> PyStr.contains (String c "") s = false.
Proof.
  intros Hc Hnl. induction s as [|d s IH]; [reflexivity|].
  cbn [Ddiff.hex_to_end]. intros [Hd Hs]%andb_true_iff.
  rewrite contains_char_cons.
  assert (Ascii.eqb c d = false) as -> by (apply Ascii.eqb_neq; congruence).
  destruct s as [|e s]; [reflexivity|].
  destruct (decide (e = "010"%char /\ s = "")) as [[-> ->]|Hne].
  - rewrite contains_char_cons, contains_char_nil, orb_false_r.
    now apply Ascii.eqb_neq.
  - apply IH. revert Hs Hne. clear.
    destruct e as [[] [] [] [] [] [] [] []], s; try tauto; intros _ []; done.
Qed.

End Splits.

Section MoreSplits.

Lemma split_app sep a b :
  PyStr.split sep (PyStr.cat a (String sep b)) = (PyStr.split sep a ++ PyStr.split sep b)%list.
Proof.
  induction a as [|c a IH].
  - rewrite cat_empty_l. cbn [PyStr.split]. now rewrite Ascii.eqb_refl.
  - rewrite cat_cons. cbn [PyStr.split]. rewrite IH.
    destruct (Ascii.eqb c sep); [reflexivity|].
    destruct (PyStr.split sep a) as [|h t] eqn:Ha; [now apply split_nonempty in Ha|].
    reflexivity.
Qed.

Lemma split_two_separators sep a b c :
  (3 <= length (PyStr.split sep (PyStr.cat a (String sep (PyStr.cat b (String sep c))))))%nat.
Proof.
  rewrite !split_app, !length_app.
  pose proof (split_nonempty sep a). pose proof (split_nonempty sep b).
  pose proof (split_nonempty sep c).
  destruct (PyStr.split sep a), (PyStr.split sep b), (PyStr.split sep c);
    cbn [length]; try done; lia.
Qed.

Lemma replace_char_cat c new a b :
  PyStr.replace (String c "") new (PyStr.cat a b)
  = PyStr.cat (PyStr.replace (String c "") new a) (PyStr.replace (String c "") new b).
Proof.
  induction a as [|d a IH]; [reflexivity|].
  rewrite cat_cons, !replace_char_cons, IH.
  destruct (Ascii.eqb c d); [now rewrite cat_assoc|now rewrite cat_cons].
Qed.

End MoreSplits.

(** ** Digests, blob lists and tags of [ddiff.py] *)

Section DdiffStrings.

Import Net Ddiff Spec.
Context `{Env}.

Lemma digest_format_plain d c :
  digest_format_ok d = true ->
  algo_char c = false -> hex_char c = false -> c <> ":"%char -> c <> "010"%char ->
  PyStr.contains (String c "") d = false.
Proof.
  unfold digest_format_ok.
  destruct (PyStr.split1 ":" d) as [|algo [|hexd [|]]] eqn:Hs; try discriminate.
  intros [[_ Ha]%andb_true_iff Hh]%andb_true_iff Hc1 Hc2 Hc3 Hc4.
  apply split1_two in Hs as [-> _].
  rewrite contains_char_cat, contains_char_cons.
  rewrite (all_chars_excludes algo_char c algo Hc1 Ha).
  rewrite (hex_to_end_excludes c hexd Hc2 Hc4 Hh).
  now apply Ascii.eqb_neq in Hc3 as ->.
Qed.

Lemma download_blob_run repo d dir w :
  _download_blob repo (KStr d) dir w
  = if digest_format_ok d then
      let rep := registry (trace w) (blob_request repo d) in
      let w1 := log (EvHttp (blob_request repo d) rep) w in
      match rep with
      | Response st _ body =>
          if (200 <=? st) && (st <? 300) then
            match fs w !! blob_file dir d with
            | Some Dir => (Raise (RuntimeError ""), w1)
            | _ => (Ok tt, set_fs (<[ blob_file dir d := File body ]> (fs w)) w1)
            end
          else (Raise (RuntimeError ""), w1)
      | Unreachable => (Raise (RuntimeError ""), w1)
      end
    else (Raise (RuntimeError ""), w).
Proof.
  unfold _download_blob. destruct (digest_format_ok d); [|reflexivity].
  cbn [negb]. unfold bind at 1. unfold ret at 1. unfold catch, bind, urlopen.
  change {| req_method := "GET"; req_url := blob_url repo d;
            req_headers := []; req_data := None |} with (blob_request repo d).
  cbv zeta.
  destruct (registry (trace w) (blob_request repo d)) as [st h body|]; [|reflexivity].
  destruct ((200 <=? st) && (st <? 300)); [|reflexivity].
  unfold write_file. cbn [fs log content].
  destruct (fs w !! blob_file dir d) as [[|]|]; reflexivity.
Qed.

(** X3.  [_download_blob] checks the digest before it does anything: a
    digest that is not [<algorithm>:<hex>] raises with the world untouched;
    otherwise the digest has no ["/"] and no ["|"], one [GET] for the blob
    is made, and no file other than [<dir>/<digest>.tar] changes. *)
Theorem download_blob_checks_digest repo d dir w :
  let out := _download_blob repo (KStr d) dir w in
  (digest_format_ok d = false /\ out = (Raise (RuntimeError ""), w))
  \/ (digest_format_ok d = true
      /\ PyStr.contains "/" d = false
      /\ PyStr.contains "|" d = false
      /\ trace (snd out)
         = (trace w ++ [EvHttp (blob_request repo d)
                          (registry (trace w) (blob_request repo d))])%list
      /\ archives (snd out) = archives w
      /\ forall p, p <> blob_file dir d -> fs (snd out) !! p = fs w !! p).
Proof.
  cbv zeta. rewrite download_blob_run.
  destruct (digest_format_ok d) eqn:Hd; [right|now left].
  split; [reflexivity|].
  split; [apply (digest_format_plain d "/" Hd); done|].
  split; [apply (digest_format_plain d "|" Hd); done|].
  cbv zeta.
  destruct (registry (trace w) (blob_request repo d)) as [st h body|];
    [destruct ((200 <=? st) && (st <? 300));
     [destruct (fs w !! blob_file dir d) as [[|]|]|]|];
    cbn [fst snd trace archives fs log set_fs];
    (split; [reflexivity|split; [reflexivity|]]); intros p Hp;
    try reflexivity; now rewrite lookup_insert_ne.
Qed.

(** X4.  A blob list survives the package: what [diff_image] writes with
    ["|".join] is read back by [load_image] as the same list, for a
    non-empty list of digests without ["|"] whose text has no white space
    at its ends. *)
Theorem blob_list_round_trip (l : list string) :
  l <> [] ->
  Forall (fun d => PyStr.contains "|" d = false) l ->
  PyStr.strip (PyStr.join "|" l) = PyStr.join "|" l ->
  read_blob_list (PyStr.join "|" l) = l.
Proof.
  intros Hl Hall Hs. unfold read_blob_list. rewrite Hs. now apply split_join.
Qed.

Lemma blob_list_round_trip_witness :
  read_blob_list (PyStr.join "|" ["sha256:aa"; "sha256:bb"]) = ["sha256:aa"; "sha256:bb"].
Proof.
  apply blob_list_round_trip; [discriminate| |reflexivity].
  repeat constructor.
Defined.

Lemma two_colons_unpack {A} a b c (k : string -> string -> M world A) w :
  match PyStr.split ":" (two_colons a b c) with
  | [repo; version_tag] => k repo version_tag
  | _ => raise ValueError
  end w = (Raise ValueError, w).
Proof.
  pose proof (split_two_separators ":" a b c) as Hlen. unfold two_colons.
  destruct (PyStr.split ":" _) as [|x [|y [|z l]]]; cbn [length] in Hlen; try lia; reflexivity.
Qed.

Lemma prepare_tag_two_colons a b c :
  exists a' b' c', _prepare_tag (two_colons a b c) = two_colons a' b' c'.
Proof.
  unfold _prepare_tag.
  assert (Hc : forall x y z, PyStr.contains ":" (two_colons x y z) = true).
  { intros x y z. unfold two_colons. rewrite contains_char_cat, contains_char_cons.
    rewrite Ascii.eqb_refl. apply orb_true_r. }
  destruct ddiff_disable_repository.
  - exists (PyStr.replace "/" "-" a), (PyStr.replace "/" "-" b), (PyStr.replace "/" "-" c).
    assert (PyStr.replace "/" "-" (two_colons a b c)
            = two_colons (PyStr.replace "/" "-" a) (PyStr.replace "/" "-" b)
                (PyStr.replace "/" "-" c)) as ->.
    { unfold two_colons.
      rewrite replace_char_cat, replace_char_cons. cbn [Ascii.eqb Bool.eqb].
      rewrite replace_char_cat, replace_char_cons. reflexivity. }
    now rewrite Hc.
  - exists a, b, c. now rewrite Hc.
Qed.


End DdiffStrings.

(** ** What [diff_image] and [load_image] do to the working directory *)

Section DdiffWorld.

Import Net Ddiff Spec.
Context `{Env}.

#[local] Instance quiet_refl' : Reflexive quiet.
Proof. intros w. split; reflexivity. Qed.
#[local] Instance quiet_trans' : Transitive quiet.
Proof. intros w1 w2 w3 [? ?] [? ?]. split; congruence. Qed.

#[local] Instance confined_refl name : Reflexive (confined name).
Proof. intros w. split; reflexivity. Qed.
#[local] Instance confined_trans name : Transitive (confined name).
Proof.
  intros w1 w2 w3 [Hf1 Ha1] [Hf2 Ha2]. split.
  - intros k Hk. now rewrite Hf2, Hf1.
  - intros n Hn. now rewrite Ha2, Ha1.
Qed.

#[local] Instance files_stay_refl : Reflexive files_stay.
Proof. intros w k c Hk. eauto. Qed.
#[local] Instance files_stay_trans : Transitive files_stay.
Proof. intros w1 w2 w3 H1 H2 k c Hk. destruct (H1 k c Hk) as [c' Hc']. eauto. Qed.

Ltac frame_step :=
  match goal with
  | |- keeps ?R (bind _ _) => apply (keeps_bind R); [|intros ?]
  | |- keeps ?R (ret _) => apply (keeps_ret R)
  | |- keeps ?R (raise _) => apply (keeps_raise R)
  | |- keeps ?R (lift _) => apply (keeps_lift R)
  | |- keeps ?R (gets _) => apply (keeps_gets R)
  | |- keeps ?R (catch _ _) => apply (keeps_catch R); [|intros ?]
  | |- keeps ?R (for_each _ _) => apply (keeps_for_each R); intros ?
  | |- keeps _ (match ?x with _ => _ end) => destruct x
  | |- keeps _ (let _ := _ in _) => cbv zeta
  end.

Create HintDb effects discriminated.

Ltac frames := repeat frame_step; auto with effects.

Hint Resolve run_command_quiet urlopen_quiet read_file_quiet path_exists_quiet
  push_images_quiet request_manifest_quiet request_upload_session_quiet
  upload_blob_quiet cross_mount_quiet upload_manifest_quiet : effects.

Lemma quiet_confined {A} name (m : M world A) : keeps quiet m -> keeps (confined name) m.
Proof. intros Hm w. destruct (Hm w) as [Hf Ha]. split; intros; congruence. Qed.

Lemma quiet_files_stay {A} (m : M world A) : keeps quiet m -> keeps files_stay m.
Proof. intros Hm w k c Hk. destruct (Hm w) as [Hf _]. rewrite Hf. eauto. Qed.

Hint Resolve quiet_confined quiet_files_stay : effects.

Lemma write_file_confined name p c :
  is_under staging_dir p = true -> keeps (confined name) (write_file p c).
Proof.
  intros Hp w. unfold write_file.
  destruct (fs w !! p) as [[]|]; split; cbn [snd fs archives set_fs]; intros; try reflexivity;
    apply lookup_insert_ne; congruence.
Qed.

Lemma write_file_files_stay p c : keeps files_stay (write_file p c).
Proof.
  intros w k c0 Hk. unfold write_file.
  destruct (fs w !! p) as [[]|] eqn:Hp; cbn [snd fs set_fs]; eauto;
    (destruct (decide (k = p)) as [->|Hne];
     [rewrite lookup_insert_eq; eauto|rewrite lookup_insert_ne by congruence; eauto]).
Qed.

Lemma remove_tree_outside p f k :
  is_under p k = false -> remove_tree p f !! k = f !! k.
Proof.
  intros Hk. unfold remove_tree. destruct (f !! k) as [x|] eqn:Hf.
  - apply map_lookup_filter_Some. split; [exact Hf|exact Hk].
  - apply map_lookup_filter_None. now left.
Qed.

Lemma mkdir_if_missing_other d f k : k <> d -> mkdir_if_missing d f !! k = f !! k.
Proof.
  intros Hk. unfold mkdir_if_missing. destruct (f !! d); [reflexivity|].
  now apply lookup_insert_ne.
Qed.

Lemma makedirs_blobs_confined name :
  keeps (confined name) (makedirs (path_join staging_dir "blobs")).
Proof.
  intros w. unfold makedirs. destruct (fs w !! path_join staging_dir "blobs"); [reflexivity|].
  split; cbn [snd fs archives set_fs]; [|reflexivity].
  intros k Hk.
  change (rev (ancestors_go "" (path_join staging_dir "blobs"))) with [staging_dir].
  cbn [foldr]. rewrite !mkdir_if_missing_other; [reflexivity|..];
    intros ->; discriminate.
Qed.

Lemma blob_file_staged d :
  is_under staging_dir (blob_file (path_join staging_dir "blobs") d) = true.
Proof. reflexivity. Qed.

Lemma download_blob_confined name repo digest :
  keeps (confined name) (_download_blob repo digest (path_join staging_dir "blobs")).
Proof.
  unfold _download_blob. destruct digest as [| |d]; [frames..|].
  frames. apply write_file_confined, blob_file_staged.
Qed.

Lemma write_joined_confined name p sep xs :
  is_under staging_dir p = true -> keeps (confined name) (write_joined p sep xs).
Proof. intros Hp. unfold write_joined. frames; now apply write_file_confined. Qed.

Lemma rmtree_confined name : keeps (confined name) (rmtree staging_dir).
Proof.
  intros w. unfold rmtree. destruct (fs w !! staging_dir) as [[]|]; try reflexivity.
  split; cbn [snd fs archives set_fs]; [|reflexivity].
  intros k Hk. now apply remove_tree_outside.
Qed.

Lemma pack_confined f : keeps (confined (archive_name_of (f_target_tag f))) (pack f).
Proof.
  unfold pack. cbv zeta.
  repeat (apply (keeps_bind (confined _)); [solve [frames]|intros ?]).
  apply (keeps_bind (confined _)); [|intros ?].
  { frames. apply download_blob_confined. }
  do 4 (apply (keeps_bind (confined _)); [now apply write_file_confined|intros ?]).
  do 2 (apply (keeps_bind (confined _)); [now apply write_joined_confined|intros ?]).
  apply (keeps_bind (confined _)); [|intros ?; apply rmtree_confined].
  intros w. split; cbn [snd fs archives set_archives tar_create modify]; [reflexivity|].
  intros n Hn. now apply lookup_insert_ne.
Qed.

Lemma stage_and_fetch_confined name b t : keeps (confined name) (stage_and_fetch b t).
Proof.
  unfold stage_and_fetch. cbv zeta.
  apply (keeps_bind (confined _)); [solve [frames]|intros ?].
  apply (keeps_bind (confined _)); [|intros ?].
  { intros w. split; cbn [snd fs archives set_fs rmtree_ignore_errors modify]; [|reflexivity].
    intros k Hk. now apply remove_tree_outside. }
  apply (keeps_bind (confined _)); [apply makedirs_blobs_confined|intros ?].
  frames.
Qed.

Lemma stage_and_fetch_tags b t w f w1 :
  stage_and_fetch b t w = (Ok f, w1) ->
  f_base_tag f = _prepare_tag b /\ f_target_tag f = _prepare_tag t.
Proof.
  unfold stage_and_fetch. cbv zeta. intros Hs.
  repeat (apply bind_inv_ok in Hs as (? & ? & _ & Hs)).
  injection Hs as <- _. split; reflexivity.
Qed.

(** X6.  [diff_image] works inside [.ddiff-image] only: whatever its
    outcome, every path outside the staging directory holds what it held
    before, and no archive other than the one named after the target has
    changed. *)
Theorem diff_image_confined (base_tag target_tag : string) (w : world) :
  let w' := snd (diff_image base_tag target_tag w) in
  (forall k, is_under staging_dir k = false -> fs w' !! k = fs w !! k)
  /\ (forall n, n <> archive_name_of (_prepare_tag target_tag) ->
                archives w' !! n = archives w !! n).
Proof.
  cbv zeta. unfold diff_image, bind.
  pose proof (stage_and_fetch_confined (archive_name_of (_prepare_tag target_tag))
                base_tag target_tag w) as Hs.
  destruct (stage_and_fetch base_tag target_tag w) as [[f|e] w1] eqn:Hrun; [|exact Hs].
  destruct (stage_and_fetch_tags _ _ _ _ _ Hrun) as [_ Ht].
  pose proof (pack_confined f w1) as Hp. rewrite Ht in Hp.
  exact (confined_trans _ _ _ _ Hs Hp).
Qed.

(** *** What a package holds *)

Lemma download_blob_files_stay repo digest dir :
  keeps files_stay (_download_blob repo digest dir).
Proof.
  unfold _download_blob. destruct digest as [| |d]; [frames..|].
  frames. apply write_file_files_stay.
Qed.

Lemma downloads_leave_files repo dir l w w' :
  for_each l (fun digest => _download_blob repo digest dir) w = (Ok tt, w') ->
  forall k, k ∈ l ->
    exists d body, k = KStr d /\ digest_format_ok d = true
                   /\ fs w' !! blob_file dir d = Some (File body).
Proof.
  revert w. induction l as [|x rest IH]; intros w Hrun k Hk; [now apply elem_of_nil in Hk|].
  cbn [for_each] in Hrun. apply bind_inv_ok in Hrun as ([] & wa & Hx & Hrest).
  apply elem_of_cons in Hk as [->|Hk]; [|exact (IH _ Hrest _ Hk)].
  destruct x as [| |d]; try discriminate.
  rewrite download_blob_run in Hx.
  destruct (digest_format_ok d) eqn:Hd; [|discriminate].
  assert (Hfile : exists body, fs wa !! blob_file dir d = Some (File body)).
  { cbv zeta in Hx.
    destruct (registry (trace w) (blob_request repo d)) as [st h body|]; [|discriminate].
    destruct ((200 <=? st) && (st <? 300)); [|discriminate].
    exists body. destruct (fs w !! blob_file dir d) as [[|]|]; try discriminate;
      injection Hx as <-; apply lookup_insert_eq. }
  destruct Hfile as [body Hbody].
  assert (Hk : keeps files_stay
                 (for_each rest (fun digest => _download_blob repo digest dir))).
  { apply (keeps_for_each files_stay). intros ?. apply download_blob_files_stay. }
  destruct (keeps_run files_stay _ _ _ _ Hk Hrest _ _ Hbody) as [c' Hc'].
  exists d, c'. auto.
Qed.

Lemma lift_inv_ok {A} (r : result A) (w : world) a w' :
  lift r w = (Ok a, w') -> r = Ok a /\ w' = w.
Proof. unfold lift. now intros [= -> ->]. Qed.

(** What a successful [diff_image] has put into the archive. *)
Lemma package_contents (base_tag target_tag : string) (w w' : world) :
  diff_image base_tag target_tag w = (Ok tt, w') ->
  exists tree manifest media_type mount upload,
    archives w' !! archive_name_of (_prepare_tag target_tag) = Some tree
    /\ tree !! PyStr.cat staging_dir "/manifest.json" = Some (File manifest)
    /\ tree !! path_join staging_dir "MANIFEST_MEDIA_TYPE" = Some (File media_type)
    /\ tree !! path_join staging_dir "BASE" = Some (File (_prepare_tag base_tag))
    /\ tree !! path_join staging_dir "TARGET" = Some (File (_prepare_tag target_tag))
    /\ tree !! path_join staging_dir "MOUNT_BLOBS" = Some (File (PyStr.join "|" mount))
    /\ tree !! path_join staging_dir "UPLOAD_BLOBS" = Some (File (PyStr.join "|" upload))
    /\ (forall d, d ∈ upload ->
          digest_format_ok d = true
          /\ exists body,
               tree !! blob_file (path_join staging_dir "blobs") d = Some (File body))
    /\ (forall k, is_under staging_dir k = false -> tree !! k = None).
Proof.
  intros Hrun. unfold diff_image in Hrun.
  apply bind_inv_ok in Hrun as (f & w1 & Hs & Hrun).
  destruct (stage_and_fetch_tags _ _ _ _ _ Hs) as [Hbt Htt].
  unfold pack in Hrun. cbv zeta in Hrun. rewrite Hbt, Htt in Hrun.
  apply bind_inv_ok in Hrun as (base_blobs & wa & _ & Hrun).
  apply bind_inv_ok in Hrun as (target_blobs & wb & _ & Hrun).
  apply bind_inv_ok in Hrun as (target_set & wc & _ & Hrun).
  apply bind_inv_ok in Hrun as (base_set & wd & _ & Hrun).
  apply bind_inv_ok in Hrun as (text & w2 & _ & Hrun).
  apply bind_inv_ok in Hrun as ([] & w3 & Hdl & Hrun).
  apply bind_inv_ok in Hrun as ([] & w4 & Hw4 & Hrun).
  apply bind_inv_ok in Hrun as ([] & w5 & Hw5 & Hrun).
  apply bind_inv_ok in Hrun as ([] & w6 & Hw6 & Hrun).
  apply bind_inv_ok in Hrun as ([] & w7 & Hw7 & Hrun).
  apply bind_inv_ok in Hrun as ([] & w8 & Hm & Hrun).
  apply bind_inv_ok in Hrun as ([] & w9 & Hup & Hrun).
  apply bind_inv_ok in Hrun as ([] & w10 & Htar & Hrun).
  pose proof (downloads_leave_files _ _ _ _ _ Hdl) as Hblobs.
  assert (Hstay : files_stay w3 w9).
  { transitivity w4; [exact (keeps_run _ _ _ _ _ (write_file_files_stay _ _) Hw4)|].
    transitivity w5; [exact (keeps_run _ _ _ _ _ (write_file_files_stay _ _) Hw5)|].
    transitivity w6; [exact (keeps_run _ _ _ _ _ (write_file_files_stay _ _) Hw6)|].
    transitivity w7; [exact (keeps_run _ _ _ _ _ (write_file_files_stay _ _) Hw7)|].
    transitivity w8.
    - refine (keeps_run files_stay _ _ _ _ _ Hm). unfold write_joined.
      frames; apply write_file_files_stay.
    - refine (keeps_run files_stay _ _ _ _ _ Hup). unfold write_joined.
      frames; apply write_file_files_stay. }
  apply write_file_ok in Hw4 as [Hf4 _]. apply write_file_ok in Hw5 as [Hf5 _].
  apply write_file_ok in Hw6 as [Hf6 _]. apply write_file_ok in Hw7 as [Hf7 _].
  apply write_joined_ok in Hm as (lm & Hlm & Hfm & _).
  apply write_joined_ok in Hup as (lu & Hlu & Hfu & _).
  injection Htar as <-.
  set (tree := filter (fun kv => is_under staging_dir (fst kv) = true) (fs w9)).
  assert (Ha : archives w' !! archive_name_of (_prepare_tag target_tag) = Some tree).
  { unfold rmtree in Hrun. cbn [fs archives set_archives] in Hrun.
    destruct (fs w9 !! staging_dir) as [[]|]; try discriminate.
    injection Hrun as <-. apply lookup_insert_eq. }
  assert (Hin : forall k v, is_under staging_dir k = true -> fs w9 !! k = Some v ->
                            tree !! k = Some v).
  { intros k v Hk Hv. apply map_lookup_filter_Some. split; assumption. }
  exists tree, (f_target_manifest f), (f_target_manifest_media_type f), lm, lu.
  split; [exact Ha|].
  split; [apply Hin; [reflexivity|]; rewrite Hfu, Hfm, Hf7, Hf6, Hf5, Hf4;
          rewrite !lookup_insert_ne by discriminate; apply lookup_insert_eq|].
  split; [apply Hin; [reflexivity|]; rewrite Hfu, Hfm, Hf7, Hf6, Hf5;
          rewrite !lookup_insert_ne by discriminate; apply lookup_insert_eq|].
  split; [apply Hin; [reflexivity|]; rewrite Hfu, Hfm, Hf7, Hf6;
          rewrite !lookup_insert_ne by discriminate; apply lookup_insert_eq|].
  split; [apply Hin; [reflexivity|]; rewrite Hfu, Hfm, Hf7;
          rewrite !lookup_insert_ne by discriminate; apply lookup_insert_eq|].
  split; [apply Hin; [reflexivity|]; rewrite Hfu, Hfm;
          rewrite !lookup_insert_ne by discriminate; apply lookup_insert_eq|].
  split; [apply Hin; [reflexivity|]; rewrite Hfu; apply lookup_insert_eq|].
  split.
  - intros d Hd.
    assert (Hk : KStr d ∈ PySet.order (target_set ∖ base_set)).
    { rewrite Hlu. apply list_elem_of_fmap. eauto. }
    destruct (Hblobs _ Hk) as (d' & body & [= <-] & Hok & Hbody).
    split; [exact Hok|].
    destruct (Hstay _ _ Hbody) as [c' Hc']. exists c'.
    apply Hin; [apply blob_file_staged|exact Hc'].
  - intros k Hk. apply map_lookup_filter_None. right. intros x _. cbn [fst]. congruence.
Qed.

(** X7.  A package is complete.  When [diff_image] succeeds, the archive
    named after the prepared target tag holds the manifest, its media
    type, the two prepared tags and the two blob lists, and for every
    digest of the upload list a blob file under [blobs/]; the digests of
    the upload list are well formed, and the archive holds nothing outside
    the staging directory. *)
Theorem package_is_complete (base_tag target_tag : string) (w w' : world) :
  diff_image base_tag target_tag w = (Ok tt, w') ->
  exists tree manifest media_type mount upload,
    archives w' !! archive_name_of (_prepare_tag target_tag) = Some tree
    /\ tree !! PyStr.cat staging_dir "/manifest.json" = Some (File manifest)
    /\ tree !! path_join staging_dir "MANIFEST_MEDIA_TYPE" = Some (File media_type)
    /\ tree !! path_join staging_dir "BASE" = Some (File (_prepare_tag base_tag))
    /\ tree !! path_join staging_dir "TARGET" = Some (File (_prepare_tag target_tag))
    /\ tree !! path_join staging_dir "MOUNT_BLOBS" = Some (File (PyStr.join "|" mount))
    /\ tree !! path_join staging_dir "UPLOAD_BLOBS" = Some (File (PyStr.join "|" upload))
    /\ (forall d, d ∈ upload ->
          digest_format_ok d = true
          /\ exists body,
               tree !! blob_file (path_join staging_dir "blobs") d = Some (File body))
    /\ (forall k, is_under staging_dir k = false -> tree !! k = None).
Proof. exact (package_contents base_tag target_tag w w'). Qed.

(** *** Opening a package *)

Lemma read_file_run p c w : fs w !! p = Some (File c) -> read_file p w = (Ok c, w).
Proof. intros Hp. unfold read_file. now rewrite Hp. Qed.

Lemma push_images_ok tags w :
  exists w', push_images tags w = (Ok tt, w') /\ quiet w w'.
Proof.
  pose proof (push_images_total (fun _ => True) tags (fun _ _ _ => I) w I) as Ht.
  pose proof (push_images_quiet tags w) as Hq.
  destruct (push_images tags w) as [[[]|e] w']; [|destruct Ht].
  exists w'. split; [reflexivity|exact Hq].
Qed.

Lemma extracted_lookup entries f k v :
  entries !! k = Some v -> (entries ∪ remove_tree staging_dir f) !! k = Some v.
Proof. apply lookup_union_Some_l. Qed.

Lemma extracted_staging entries f k :
  is_under staging_dir k = true ->
  (entries ∪ remove_tree staging_dir f) !! k = entries !! k.
Proof.
  intros Hk. destruct (entries !! k) as [v|] eqn:He.
  - now apply lookup_union_Some_l.
  - apply lookup_union_None. split; [exact He|now apply remove_tree_lookup].
Qed.

(** The world [open_package] leaves, whatever its outcome: the staging
    directory of an earlier run is gone, and the archive, when there is
    one, is extracted over the rest. *)
Lemma open_package_state base_tag tarball w r w1 :
  open_package base_tag tarball w = (r, w1) ->
  archives w1 = archives w
  /\ fs w1 = match archives w !! tarball with
             | Some entries => entries ∪ remove_tree staging_dir (fs w)
             | None => remove_tree staging_dir (fs w)
             end.
Proof.
  unfold open_package. cbv zeta.
  unfold bind at 1. unfold rmtree_ignore_errors at 1. unfold modify at 1.
  unfold bind at 1. unfold tar_extractall at 1. cbn [archives set_fs].
  destruct (archives w !! tarball) as [entries|]; [|intros [= <- <-]; split; reflexivity].
  intros Hr.
  match type of Hr with
  | ?m ?x = _ =>
      assert (Hq : keeps quiet m) by (destruct base_tag; frames);
      destruct (keeps_run quiet _ _ _ _ Hq Hr) as [Hf Ha]
  end.
  split; [exact Ha|exact Hf].
Qed.

(** The run of [open_package] on an archive that has the files it reads. *)
Lemma open_package_run (base_tag : option string) (tarball : string) (w : world)
        (entries : gmap string node)
        (base_text target_text mount_text upload_text : string) :
  archives w !! tarball = Some entries ->
  (base_tag = None -> entries !! path_join staging_dir "BASE" = Some (File base_text)) ->
  entries !! path_join staging_dir "TARGET" = Some (File target_text) ->
  entries !! path_join staging_dir "MOUNT_BLOBS" = Some (File mount_text) ->
  entries !! path_join staging_dir "UPLOAD_BLOBS" = Some (File upload_text) ->
  entries !! path_join staging_dir "MANIFEST_MEDIA_TYPE" <> Some Dir ->
  exists w1,
    open_package base_tag tarball w
    = (Ok {| pk_base_tag := match base_tag with
                            | Some t => t
                            | None => PyStr.strip base_text
                            end;
             pk_target_tag := PyStr.strip target_text;
             pk_mount_blobs := PyStr.split "|" (PyStr.strip mount_text);
             pk_upload_blobs := PyStr.split "|" (PyStr.strip upload_text);
             pk_manifest_media_type :=
               match entries !! path_join staging_dir "MANIFEST_MEDIA_TYPE" with
               | Some (File text) =>
                   if PyStr.nonempty (PyStr.strip text) then PyStr.strip text
                   else DOCKER_MANIFEST_V2
               | _ => DOCKER_MANIFEST_V2
               end |}, w1).
Proof.
  intros Ha Hbase Htarget Hmount Hupload Hmmt.
  unfold open_package. cbv zeta.
  set (w0 := set_fs (remove_tree staging_dir (fs w)) w).
  set (wx := set_fs (entries ∪ fs w0) w0).
  rewrite (bind_ok _ _ w tt w0) by reflexivity.
  rewrite (bind_ok _ _ w0 tt wx)
    by (unfold tar_extractall; cbn [archives set_fs w0]; now rewrite Ha).
  assert (Hfx : forall k v, entries !! k = Some v -> fs wx !! k = Some v).
  { intros k v Hk. now apply extracted_lookup. }
  set (bt := match base_tag with Some t => t | None => PyStr.strip base_text end).
  rewrite (bind_ok _ _ wx bt wx).
  2:{ subst bt. destruct base_tag as [t|]; [reflexivity|].
      now rewrite (bind_ok _ _ wx base_text wx)
        by (apply read_file_run, Hfx, Hbase; reflexivity). }
  destruct (push_images_ok [bt] wx) as (wp & Hpush & Hfp & _).
  rewrite (bind_ok _ _ _ _ _ Hpush).
  assert (Hfp' : forall k v, entries !! k = Some v -> fs wp !! k = Some v).
  { intros k v Hk. rewrite Hfp. now apply Hfx. }
  rewrite (bind_ok _ _ wp target_text wp) by (apply read_file_run, Hfp', Htarget).
  rewrite (bind_ok _ _ wp mount_text wp) by (apply read_file_run, Hfp', Hmount).
  rewrite (bind_ok _ _ wp upload_text wp) by (apply read_file_run, Hfp', Hupload).
  unfold path_exists. unfold bind at 1. unfold gets at 1.
  assert (Hm : fs wp !! path_join staging_dir "MANIFEST_MEDIA_TYPE"
               = entries !! path_join staging_dir "MANIFEST_MEDIA_TYPE").
  { rewrite Hfp. now apply extracted_staging. }
  rewrite Hm.
  destruct (entries !! path_join staging_dir "MANIFEST_MEDIA_TYPE") as [[|text]|] eqn:He.
  - now contradiction Hmmt.
  - rewrite (bind_ok _ _ wp (if PyStr.nonempty (PyStr.strip text) then PyStr.strip text
                             else DOCKER_MANIFEST_V2) wp).
    + eexists. reflexivity.
    + now rewrite (bind_ok _ _ wp text wp) by (apply read_file_run; now rewrite Hm).
  - eexists. reflexivity.
Qed.



(** *** From [diff_image] to [load_image] *)

(** X10.  What [diff_image] writes, [load_image] can open.  After a
    successful [diff_image], the archive named after the prepared target
    tag holds a [MOUNT_BLOBS] text, an [UPLOAD_BLOBS] text that is the
    ["|"]-join of a list of well-formed digests, and a media type text;
    opening that archive succeeds and gives back the two prepared tags
    (stripped), the two blob lists read from these very texts, and the
    media type read from its text; the staging directory then holds
    exactly the entries of the archive, among them the blob file of every
    digest of the upload list, where the upload reads it.  When the
    upload list is not empty and its text has no white space at its ends,
    the list read back is that list. *)
Theorem diff_then_open (base_tag target_tag : string) (w w' : world) :
  diff_image base_tag target_tag w = (Ok tt, w') ->
  exists tree mount_text upload media_type p w'',
    archives w' !! archive_name_of (_prepare_tag target_tag) = Some tree
    /\ tree !! path_join staging_dir "MOUNT_BLOBS" = Some (File mount_text)
    /\ tree !! path_join staging_dir "UPLOAD_BLOBS" = Some (File (PyStr.join "|" upload))
    /\ tree !! path_join staging_dir "MANIFEST_MEDIA_TYPE" = Some (File media_type)
    /\ open_package None (archive_name_of (_prepare_tag target_tag)) w' = (Ok p, w'')
    /\ pk_base_tag p = PyStr.strip (_prepare_tag base_tag)
    /\ pk_target_tag p = PyStr.strip (_prepare_tag target_tag)
    /\ pk_mount_blobs p = read_blob_list mount_text
    /\ pk_upload_blobs p = read_blob_list (PyStr.join "|" upload)
    /\ pk_manifest_media_type p
       = (if PyStr.nonempty (PyStr.strip media_type) then PyStr.strip media_type
          else DOCKER_MANIFEST_V2)
    /\ (upload <> [] ->
        PyStr.strip (PyStr.join "|" upload) = PyStr.join "|" upload ->
        pk_upload_blobs p = upload)
    /\ (forall k, is_under staging_dir k = true -> fs w'' !! k = tree !! k)
    /\ (forall d, d ∈ upload ->
          digest_format_ok d = true
          /\ exists body,
               fs w'' !! blob_file (PyStr.cat staging_dir "/blobs") d = Some (File body)).
Proof.
  intros Hrun.
  destruct (package_contents _ _ _ _ Hrun)
    as (tree & manifest & mt & mount & upload & Ha & _ & Hmt & Hb & Ht & Hm & Hu & Hblobs & _).
  destruct (open_package_run None _ w' tree _ _ _ _ Ha (fun _ => Hb) Ht Hm Hu)
    as (w'' & Hopen); [now rewrite Hmt|].
  rewrite Hmt in Hopen.
  destruct (open_package_state _ _ _ _ _ Hopen) as [_ Hf]. rewrite Ha in Hf.
  eexists tree, (PyStr.join "|" mount), upload, mt, _, w''.
  split; [exact Ha|]. split; [exact Hm|]. split; [exact Hu|]. split; [exact Hmt|].
  split; [exact Hopen|].
  cbn [pk_base_tag pk_target_tag pk_mount_blobs pk_upload_blobs pk_manifest_media_type].
  do 5 (split; [reflexivity|]).
  split; [|split].
  - intros Hne Hstrip. rewrite Hstrip. apply split_join; [exact Hne|].
    apply Forall_forall. intros d Hd. destruct (Hblobs d Hd) as [Hok _].
    apply (digest_format_plain d "|" Hok); done.
  - intros k Hk. rewrite Hf. now apply extracted_staging.
  - intros d Hd. destruct (Hblobs d Hd) as (Hok & body & Hbody).
    split; [exact Hok|]. exists body. rewrite Hf.
    apply extracted_lookup. exact Hbody.
Qed.

(** *** A replay that fails *)

Lemma replay_failure_quiet p w e w' :
  replay p w = (Raise e, w') -> quiet w w'.
Proof.
  unfold replay. cbv zeta. intros Hr.
  apply bind_cases in Hr as [(a1 & w1 & H1 & Hr)|(e1 & H1 & _)];
    [|refine (keeps_run quiet _ _ _ _ _ H1); frames].
  assert (Hq1 : quiet w w1) by (refine (keeps_run quiet _ _ _ _ _ H1); frames).
  apply bind_cases in Hr as [(a2 & w2 & H2 & Hr)|(e2 & H2 & _)];
    [|transitivity w1; [exact Hq1|]; refine (keeps_run quiet _ _ _ _ _ H2); frames].
  assert (Hq2 : quiet w1 w2) by (refine (keeps_run quiet _ _ _ _ _ H2); frames).
  apply bind_cases in Hr as [(a3 & w3 & H3 & Hr)|(e3 & H3 & _)];
    [|transitivity w1; [exact Hq1|]; transitivity w2; [exact Hq2|];
      refine (keeps_run quiet _ _ _ _ _ H3); frames].
  assert (Hq3 : quiet w2 w3) by (refine (keeps_run quiet _ _ _ _ _ H3); frames).
  assert (Hq : quiet w w3) by (transitivity w1; [|transitivity w2]; assumption).
  apply bind_cases in Hr as [(a4 & w4 & H4 & Hr)|(e4 & H4 & _)].
  - exfalso. revert Hr. unfold run_command, bind, modify, ret.
    destruct (PyStr.contains "localhost" ddiff_url); discriminate.
  - unfold rmtree in H4. destruct (fs w3 !! staging_dir) as [[]|]; try discriminate;
      now injection H4 as _ <-.
Qed.


End DdiffWorld.

(** ** More runs on the small registry *)

Section DdiffPackageRuns.

Import Net Ddiff Spec.

Ltac by_vm :=
  lazymatch goal with
  | |- _ = ?b => let n := eval vm_compute in b in vm_cast_no_check (@eq_refl _ n)
  end.

(** X7 on [ddiff diff base target]. *)
Lemma package_is_complete_witness :
  exists tree manifest media_type mount upload,
    archives (Fixture.packed_world Fixture.env "base")
      !! archive_name_of (_prepare_tag (H := Fixture.env) "target") = Some tree
    /\ tree !! PyStr.cat staging_dir "/manifest.json" = Some (File manifest)
    /\ tree !! path_join staging_dir "MANIFEST_MEDIA_TYPE" = Some (File media_type)
    /\ tree !! path_join staging_dir "BASE"
       = Some (File (_prepare_tag (H := Fixture.env) "base"))
    /\ tree !! path_join staging_dir "TARGET"
       = Some (File (_prepare_tag (H := Fixture.env) "target"))
    /\ tree !! path_join staging_dir "MOUNT_BLOBS" = Some (File (PyStr.join "|" mount))
    /\ tree !! path_join staging_dir "UPLOAD_BLOBS" = Some (File (PyStr.join "|" upload))
    /\ (forall d, d ∈ upload ->
          digest_format_ok d = true
          /\ exists body,
               tree !! blob_file (path_join staging_dir "blobs") d = Some (File body))
    /\ (forall k, is_under staging_dir k = false -> tree !! k = None).
Proof.
  apply (package_is_complete (H := Fixture.env) "base" "target" Fixture.empty_world
           (Fixture.packed_world Fixture.env "base")).
  by_vm.
Defined.


(** X10 on [ddiff diff base target]: the package opens to the tags
    [base:latest] and [target:latest], the mount list [aa; bb] and the
    upload list [dd], whose blob is staged. *)
Lemma diff_then_open_witness :
  exists p w'',
    open_package (H := Fixture.env) None
      (archive_name_of (_prepare_tag (H := Fixture.env) "target"))
      (Fixture.packed_world Fixture.env "base") = (Ok p, w'')
    /\ pk_base_tag p = "base:latest"
    /\ pk_target_tag p = "target:latest"
    /\ pk_mount_blobs p = ["sha256:aa"; "sha256:bb"]
    /\ pk_upload_blobs p = ["sha256:dd"]
    /\ pk_manifest_media_type p = DOCKER_MANIFEST_V2
    /\ exists body,
         fs w'' !! blob_file (PyStr.cat staging_dir "/blobs") "sha256:dd"
         = Some (File body).
Proof.
  pose (w' := Fixture.packed_world Fixture.env "base").
  pose (name := archive_name_of (_prepare_tag (H := Fixture.env) "target")).
  assert (Hrun : diff_image (H := Fixture.env) "base" "target" Fixture.empty_world
                 = (Ok tt, w')) by (by_vm).
  destruct (diff_then_open (H := Fixture.env) "base" "target" Fixture.empty_world w' Hrun)
    as (tree & mount_text & upload & media_type & p & w'' & Ha & Hm & Hu & Hmt & Hopen
        & Hb & Ht & Hpm & Hpu & Hpt & Hround & _ & Hstaged).
  fold name in Ha, Hopen.
  assert (Hm0 : default ∅ (archives w' !! name) !! path_join staging_dir "MOUNT_BLOBS"
                = Some (File "sha256:aa|sha256:bb")) by (by_vm).
  assert (Hu0 : default ∅ (archives w' !! name) !! path_join staging_dir "UPLOAD_BLOBS"
                = Some (File "sha256:dd")) by (by_vm).
  assert (Hmt0 : default ∅ (archives w' !! name)
                   !! path_join staging_dir "MANIFEST_MEDIA_TYPE"
                 = Some (File DOCKER_MANIFEST_V2)) by (by_vm).
  rewrite Ha in Hm0, Hu0, Hmt0.
  pose proof (eq_trans (eq_sym Hm) Hm0) as Em. injection Em as ->.
  pose proof (eq_trans (eq_sym Hu) Hu0) as Eu. injection Eu as Eu.
  pose proof (eq_trans (eq_sym Hmt) Hmt0) as Et. injection Et as ->.
  rewrite Eu in Hpu, Hround.
  assert (Hlist : upload = ["sha256:dd"]).
  { transitivity (pk_upload_blobs p); [|exact Hpu].
    symmetry. apply Hround; [|reflexivity].
    intros ->. discriminate Eu. }
  exists p, w''. split; [exact Hopen|]. split; [exact Hb|]. split; [exact Ht|].
  split; [exact Hpm|]. split; [exact Hpu|]. split; [exact Hpt|].
  apply (Hstaged "sha256:dd"). rewrite Hlist. constructor.
Defined.


End DdiffPackageRuns.

(** ** Image references of [hub2registry.py] *)

Section Refs.

Import Hub.

Lemma rsplit1_plain sep s :
  PyStr.contains (String sep "") s = false -> PyStr.rsplit1 sep s = [s].
Proof.
  induction s as [|c s IH]; [reflexivity|].
  rewrite contains_char_cons. intros [Hc Hs]%orb_false_iff.
  cbn [PyStr.rsplit1]. now rewrite IH, Ascii.eqb_sym, Hc.
Qed.

Lemma rsplit1_cat sep a b :
  PyStr.contains (String sep "") b = false ->
  PyStr.rsplit1 sep (PyStr.cat a (String sep b)) = [a; b].
Proof.
  intros Hb. induction a as [|c a IH].
  - rewrite cat_empty_l. cbn [PyStr.rsplit1].
    now rewrite rsplit1_plain, Ascii.eqb_refl.
  - rewrite cat_cons. cbn [PyStr.rsplit1]. now rewrite IH.
Qed.

Lemma rsplit1_shape sep s :
  (PyStr.contains (String sep "") s = false /\ PyStr.rsplit1 sep s = [s])
  \/ exists a b, PyStr.rsplit1 sep s = [a; b]
                 /\ s = PyStr.cat a (String sep b)
                 /\ PyStr.contains (String sep "") b = false.
Proof.
  induction s as [|c s IH]; [now left|].
  cbn [PyStr.rsplit1]. rewrite contains_char_cons.
  destruct IH as [[Hs ->]|(a & b & -> & -> & Hb)].
  - destruct (Ascii.eqb c sep) eqn:Hc.
    + right. exists "", s. apply Ascii.eqb_eq in Hc as ->. auto.
    + left. now rewrite Ascii.eqb_sym, Hc, Hs.
  - right. exists (String c a), b. now rewrite cat_cons.
Qed.

Lemma contains_char_cut c s :
  PyStr.contains (String c "") s = true -> exists a b, s = PyStr.cat a (String c b).
Proof.
  induction s as [|d s IH]; [discriminate|].
  rewrite contains_char_cons. destruct (Ascii.eqb c d) eqn:Hd.
  - intros _. apply Ascii.eqb_eq in Hd as <-. now exists "", s.
  - intros (a & b & ->)%IH. exists (String d a), b. now rewrite cat_cons.
Qed.

(** The segments of [x + y], for a [y] without separator: those of [x],
    the last one extended by [y]. *)
Lemma split_extend sep x y :
  PyStr.contains (String sep "") y = false ->
  exists pre l,
    PyStr.split sep x = (pre ++ [l])%list
    /\ PyStr.split sep (PyStr.cat x y) = (pre ++ [PyStr.cat l y])%list.
Proof.
  intros Hy. induction x as [|d x (pre & l & Hx & Hxy)].
  - exists [], "". split; [reflexivity|]. rewrite cat_empty_l. now apply split_plain.
  - rewrite cat_cons. cbn [PyStr.split]. rewrite Hx, Hxy.
    destruct (Ascii.eqb d sep).
    + now exists ("" :: pre), l.
    + destruct pre as [|p pre].
      * exists [], (String d l). now rewrite cat_cons.
      * now exists (String d p :: pre), l.
Qed.

Lemma last_split_extend sep x y :
  PyStr.contains (String sep "") y = false ->
  List.last (PyStr.split sep (PyStr.cat x y)) ""
  = PyStr.cat (List.last (PyStr.split sep x) "") y.
Proof.
  intros Hy. destruct (split_extend sep x y Hy) as (pre & l & -> & ->).
  now rewrite !List.last_last.
Qed.

Lemma last_split_after sep a b :
  List.last (PyStr.split sep (PyStr.cat a (String sep b))) ""
  = List.last (PyStr.split sep b) "".
Proof.
  rewrite split_app. pose proof (split_nonempty sep b) as Hb.
  destruct (PyStr.split sep b) as [|h t] eqn:E; [done|].
  destruct (exists_last (l := h :: t)) as (pre & l & ->); [done|].
  now rewrite app_assoc, !List.last_last.
Qed.

Lemma last_split_sub c sep s :
  PyStr.contains (String c "") (List.last (PyStr.split sep s) "") = true ->
  PyStr.contains (String c "") s = true.
Proof.
  induction s as [|d s IH]; [discriminate|].
  cbn [PyStr.split]. pose proof (split_nonempty sep s) as Hs.
  destruct (PyStr.split sep s) as [|h t] eqn:E; [done|].
  rewrite contains_char_cons. destruct (Ascii.eqb d sep).
  - change (List.last ("" :: h :: t) "") with (List.last (h :: t) "").
    intros ->%IH. apply orb_true_r.
  - destruct t as [|h' t].
    + cbn [List.last] in *. rewrite contains_char_cons.
      intros [->|Hh]%orb_true_iff; [reflexivity|]. rewrite IH by exact Hh.
      apply orb_true_r.
    + change (List.last (String d h :: h' :: t) "") with (List.last (h :: h' :: t) "").
      intros ->%IH. apply orb_true_r.
Qed.

Lemma last_split_plain sep s :
  PyStr.contains (String sep "") (List.last (PyStr.split sep s) "") = false.
Proof.
  induction s as [|d s IH]; [reflexivity|].
  cbn [PyStr.split]. pose proof (split_nonempty sep s) as Hs.
  destruct (PyStr.split sep s) as [|h t] eqn:E; [done|].
  destruct (Ascii.eqb d sep) eqn:Hd.
  - exact IH.
  - destruct t as [|h' t]; [|exact IH].
    cbn [List.last] in *. now rewrite contains_char_cons, Ascii.eqb_sym, Hd.
Qed.

(** The part after the last [":"] of a string whose last ["/"]-segment
    has a [":"] lies in that segment. *)
Lemma tag_in_last_segment a tag :
  PyStr.contains ":" (List.last (PyStr.split "/" (PyStr.cat a (String ":" tag))) "") = true ->
  PyStr.contains ":" tag = false ->
  PyStr.contains "/" tag = false.
Proof.
  intros Hl Ht. destruct (PyStr.contains "/" tag) eqn:Hs; [|reflexivity].
  apply contains_char_cut in Hs as (u & v & ->).
  change (String ":" (PyStr.cat u (String "/" v)))
    with (PyStr.cat (String ":" u) (String "/" v)) in Hl.
  rewrite <- cat_assoc, last_split_after in Hl.
  apply last_split_sub in Hl.
  rewrite contains_char_cat, contains_char_cons, Hl in Ht.
  now rewrite !orb_true_r in Ht.
Qed.

(** X12.  [parse_ref] never raises.  It gives [None] for a blank line
    and for no other; otherwise the repository it gives has a ["/"] (a
    single name is put under [library/]), the tag has no ["/"] and no
    [":"], and the stripped line is the repository, less the [library/]
    it may have gained, followed by [":"] and the tag unless the tag is
    the default [latest]. *)
Theorem parse_ref_shape (line : string) :
  exists o,
    parse_ref line = Ok o
    /\ (o = None <-> PyStr.strip line = "")
    /\ forall repo tag, o = Some (repo, tag) ->
         PyStr.contains "/" repo = true
         /\ PyStr.contains "/" tag = false
         /\ PyStr.contains ":" tag = false
         /\ exists name,
              (repo = name \/ repo = PyStr.cat "library/" name
                              /\ PyStr.contains "/" name = false)
              /\ (PyStr.strip line = PyStr.cat name (String ":" tag)
                  \/ PyStr.strip line = name /\ tag = "latest").
Proof.
  unfold parse_ref. cbv zeta. set (s := PyStr.strip line).
  destruct s as [|c0 s0] eqn:Es; [exists None; repeat split; intros; done|].
  rewrite <- Es. assert (Hne : s <> "") by (rewrite Es; discriminate).
  replace (negb (PyStr.nonempty s)) with false by (now rewrite Es).
  assert (Hlib : forall name,
             PyStr.contains "/"
               (if negb (PyStr.contains "/" name) then PyStr.cat "library/" name else name)
             = true).
  { intros name. destruct (PyStr.contains "/" name) eqn:Hn; [exact Hn|reflexivity]. }
  assert (Hname : forall name,
             let repo := if negb (PyStr.contains "/" name)
                         then PyStr.cat "library/" name else name in
             repo = name \/ repo = PyStr.cat "library/" name
                            /\ PyStr.contains "/" name = false).
  { intros name. cbv zeta. destruct (PyStr.contains "/" name); [now left|now right]. }
  destruct (PyStr.contains ":" (List.last (PyStr.split "/" s) "")) eqn:Hl.
  - destruct (rsplit1_shape ":" s) as [[Hs _]|(a & tag & Hr & Hcut & Htag)].
    + apply last_split_sub in Hl. congruence.
    + rewrite Hr. cbn [rbind fst snd]. eexists. split; [reflexivity|].
      split; [split; [discriminate|congruence]|].
      intros repo tag' [= <- <-]. split; [apply Hlib|].
      rewrite Hcut in Hl.
      split; [exact (tag_in_last_segment a tag Hl Htag)|].
      split; [exact Htag|]. exists a. split; [apply Hname|]. now left.
  - cbn [rbind fst snd]. eexists. split; [reflexivity|].
    split; [split; [discriminate|congruence]|].
    intros repo tag' [= <- <-]. split; [apply Hlib|].
    split; [reflexivity|]. split; [reflexivity|].
    exists s. split; [apply Hname|]. now right.
Qed.

(** X13.  A rendered reference parses back: for a repository with a
    ["/"] and a tag without ["/"] and [":"], the line [repo:tag], with no
    white space at its ends, is parsed as [(repo, tag)]. *)
Theorem parse_ref_round_trip (repo tag : string) :
  PyStr.contains "/" repo = true ->
  PyStr.contains "/" tag = false ->
  PyStr.contains ":" tag = false ->
  PyStr.strip (PyStr.cat repo (String ":" tag)) = PyStr.cat repo (String ":" tag) ->
  parse_ref (PyStr.cat repo (String ":" tag)) = Ok (Some (repo, tag)).
Proof.
  intros Hrepo Hts Htc Hstrip. unfold parse_ref. cbv zeta. rewrite Hstrip.
  assert (PyStr.nonempty (PyStr.cat repo (String ":" tag)) = true) as ->
    by (now destruct repo).
  cbn [negb].
  change (PyStr.cat repo (String ":" tag))
    with (PyStr.cat repo (PyStr.cat ":" tag)) at 1.
  rewrite <- cat_assoc, (last_split_extend "/" (PyStr.cat repo ":") tag Hts).
  rewrite (last_split_extend "/" repo ":" eq_refl).
  rewrite !contains_char_cat. rewrite (orb_true_r (PyStr.contains ":" _)).
  cbn [orb]. rewrite rsplit1_cat by exact Htc. cbn [rbind fst snd].
  now rewrite Hrepo.
Qed.

Lemma parse_ref_round_trip_witness :
  parse_ref "library/ubuntu:22.04" = Ok (Some ("library/ubuntu", "22.04")).
Proof.
  apply (parse_ref_round_trip "library/ubuntu" "22.04"); reflexivity.
Defined.

End Refs.

(** ** Where the store keeps a blob *)

Section BlobPaths.

Import Hub Spec.

Lemma cat_inj_l x a b : PyStr.cat x a = PyStr.cat x b -> a = b.
Proof.
  induction x as [|c x IH]; [now rewrite !cat_empty_l|].
  rewrite !cat_cons. intros [= Hx]. now apply IH.
Qed.

Lemma cat_sep_inj sep a b a' b' :
  PyStr.contains (String sep "") a = false ->
  PyStr.contains (String sep "") a' = false ->
  PyStr.cat a (String sep b) = PyStr.cat a' (String sep b') ->
  a = a' /\ b = b'.
Proof.
  intros Ha Ha' Heq. apply (f_equal (PyStr.split1 sep)) in Heq.
  rewrite !split1_cat in Heq by assumption. now injection Heq.
Qed.

Lemma endswith_char_cons c d s :
  PyStr.endswith (String c "") (String d s)
  = Ascii.eqb c d && negb (PyStr.nonempty s) || PyStr.endswith (String c "") s.
Proof.
  cbn [PyStr.endswith String.eqb]. now destruct (Ascii.eqb c d), s.
Qed.

Lemma endswith_char_in c s :
  PyStr.endswith (String c "") s = true -> PyStr.contains (String c "") s = true.
Proof.
  induction s as [|d s IH]; [discriminate|].
  rewrite endswith_char_cons, contains_char_cons.
  intros [[-> _]%andb_true_iff|Hs]%orb_true_iff; [reflexivity|].
  rewrite IH by exact Hs. apply orb_true_r.
Qed.

Lemma endswith_char_cat c x b :
  PyStr.nonempty b = true ->
  PyStr.endswith (String c "") (PyStr.cat x b) = PyStr.endswith (String c "") b.
Proof.
  intros Hb. induction x as [|d x IH]; [reflexivity|].
  rewrite cat_cons, endswith_char_cons, IH.
  assert (PyStr.nonempty (PyStr.cat x b) = true) as ->
    by (now destruct x; [rewrite cat_empty_l|]).
  cbn [negb]. now rewrite andb_false_r.
Qed.

Lemma nonempty_cat_r x b : PyStr.nonempty b = true -> PyStr.nonempty (PyStr.cat x b) = true.
Proof. intros Hb. now destruct x; [rewrite cat_empty_l|]. Qed.

Lemma plain_name_parts s :
  plain_name s = true ->
  PyStr.nonempty s = true /\ PyStr.contains "/" s = false /\ PyStr.startswith "/" s = false.
Proof.
  unfold plain_name. intros [Hn Hs%negb_true_iff]%andb_true_iff.
  split; [exact Hn|]. split; [exact Hs|].
  destruct s as [|c s]; [reflexivity|].
  rewrite contains_char_cons in Hs. apply orb_false_iff in Hs as [Hc _].
  cbn [PyStr.startswith]. now rewrite Hc.
Qed.

Lemma join2_plain p b :
  open_dir p -> plain_name b = true ->
  join2 p b = PyStr.cat p (PyStr.cat "/" b) /\ open_dir (join2 p b).
Proof.
  intros [Hp He] (Hn & Hs & Hst)%plain_name_parts.
  assert (Hj : join2 p b = PyStr.cat p (PyStr.cat "/" b)).
  { unfold join2. now rewrite Hst, Hp, He. }
  split; [exact Hj|]. rewrite Hj. split.
  - apply nonempty_cat_r. reflexivity.
  - rewrite <- cat_assoc, endswith_char_cat by exact Hn.
    destruct (PyStr.endswith "/" b) eqn:Hb; [|reflexivity].
    apply endswith_char_in in Hb. congruence.
Qed.

Lemma join2_open x name :
  plain_name name = true -> open_dir (join2 x name).
Proof.
  intros (Hn & Hs & Hst)%plain_name_parts.
  destruct (join2_last x name Hst) as [y ->]. split.
  - now apply nonempty_cat_r.
  - rewrite endswith_char_cat by exact Hn.
    destruct (PyStr.endswith "/" name) eqn:Hb; [|reflexivity].
    apply endswith_char_in in Hb. congruence.
Qed.

Lemma contains_take c n s :
  PyStr.contains (String c "") s = false ->
  PyStr.contains (String c "") (PyStr.take n s) = false.
Proof.
  revert s. induction n as [|n IH]; intros [|d s]; try reflexivity.
  rewrite contains_char_cons. intros [Hd Hs]%orb_false_iff.
  cbn [PyStr.take]. now rewrite contains_char_cons, Hd, IH.
Qed.

Lemma plain_name_take s : plain_name s = true -> plain_name (PyStr.take 2 s) = true.
Proof.
  intros (Hn & Hs & _)%plain_name_parts. unfold plain_name.
  rewrite (contains_take "/" 2 s Hs). now destruct s.
Qed.

(** The path of a digest with plain parts, joined step by step. *)
Lemma blob_file_path_plain (root algo hexd : string) :
  plain_name algo = true ->
  PyStr.contains ":" algo = false ->
  plain_name hexd = true ->
  blob_file_path root (PyStr.cat algo (String ":" hexd))
  = Ok (PyStr.cat (path_join root ["docker"; "registry"; "v2"; "blobs"])
          (PyStr.cat "/" (PyStr.cat algo
             (PyStr.cat "/" (PyStr.cat (PyStr.take 2 hexd)
                (PyStr.cat "/" (PyStr.cat hexd "/data"))))))).
Proof.
  intros Ha Hc Hh. unfold blob_file_path, split_digest.
  rewrite split1_cat by exact Hc. cbn [rbind fst snd]. f_equal.
  change (path_join root ["docker"; "registry"; "v2"; "blobs"; algo;
                          PyStr.take 2 hexd; hexd; "data"])
    with (join2 (join2 (join2 (join2
            (path_join root ["docker"; "registry"; "v2"; "blobs"]) algo)
            (PyStr.take 2 hexd)) hexd) "data").
  set (dir := path_join root ["docker"; "registry"; "v2"; "blobs"]).
  assert (Hd : open_dir dir) by (apply (join2_open _ "blobs"); reflexivity).
  destruct (join2_plain dir algo Hd Ha) as [E1 H1]. rewrite E1 in *.
  destruct (join2_plain _ _ H1 (plain_name_take hexd Hh)) as [E2 H2]. rewrite E2 in *.
  destruct (join2_plain _ _ H2 Hh) as [E3 H3]. rewrite E3 in *.
  destruct (join2_plain _ "data" H3 eq_refl) as [E4 _]. rewrite E4.
  now rewrite !cat_assoc.
Qed.

(** X14.  The canonical path of a blob.  For a digest [algo:hex] whose
    two parts are not empty and have no ["/"], the blob lies at
    [<root>/docker/registry/v2/blobs/<algo>/<first two of hex>/<hex>/data]. *)
Theorem blob_file_path_layout (root algo hexd : string) :
  plain_name algo = true ->
  PyStr.contains ":" algo = false ->
  plain_name hexd = true ->
  blob_file_path root (PyStr.cat algo (String ":" hexd))
  = Ok (PyStr.cat (path_join root ["docker"; "registry"; "v2"; "blobs"])
          (PyStr.cat "/" (PyStr.cat algo
             (PyStr.cat "/" (PyStr.cat (PyStr.take 2 hexd)
                (PyStr.cat "/" (PyStr.cat hexd "/data"))))))).
Proof. exact (blob_file_path_plain root algo hexd). Qed.

Lemma blob_file_path_layout_witness :
  blob_file_path "/srv/registry" "sha256:0123abcd"
  = Ok "/srv/registry/docker/registry/v2/blobs/sha256/01/0123abcd/data".
Proof.
  apply (blob_file_path_layout "/srv/registry" "sha256" "0123abcd"); reflexivity.
Defined.

Lemma plain_digest_parts d :
  plain_digest d = true ->
  exists algo hexd,
    d = PyStr.cat algo (String ":" hexd)
    /\ plain_name algo = true /\ PyStr.contains ":" algo = false
    /\ plain_name hexd = true.
Proof.
  unfold plain_digest.
  destruct (PyStr.split1 ":" d) as [|algo [|hexd [|]]] eqn:Hs; try discriminate.
  intros [Ha Hh]%andb_true_iff. apply split1_two in Hs as [-> Hc].
  exists algo, hexd. auto.
Qed.

(** X15.  Two digests never share a blob file: under one root, two
    different digests with plain parts have different canonical paths. *)
Theorem distinct_digests_distinct_files (root d d' : string) :
  plain_digest d = true ->
  plain_digest d' = true ->
  d <> d' ->
  exists p p',
    blob_file_path root d = Ok p /\ blob_file_path root d' = Ok p' /\ p <> p'.
Proof.
  intros (a & h & -> & Ha & Hc & Hh)%plain_digest_parts
         (a' & h' & -> & Ha' & Hc' & Hh')%plain_digest_parts Hne.
  rewrite !blob_file_path_plain by assumption.
  eexists _, _. split; [reflexivity|]. split; [reflexivity|].
  intros Heq. apply Hne. apply cat_inj_l in Heq.
  rewrite !cat_cons, !cat_empty_l in Heq. injection Heq as Heq.
  destruct (plain_name_parts _ Ha) as (_ & Hs & _).
  destruct (plain_name_parts _ Ha') as (_ & Hs' & _).
  apply cat_sep_inj in Heq as [-> Heq]; [|assumption..].
  destruct (plain_name_parts _ Hh) as (_ & Hhs & _).
  destruct (plain_name_parts _ Hh') as (_ & Hhs' & _).
  apply cat_sep_inj in Heq as [_ Heq];
    [|exact (contains_take "/" 2 _ Hhs)|exact (contains_take "/" 2 _ Hhs')].
  apply cat_sep_inj in Heq as [-> _]; [reflexivity|assumption..].
Qed.

Lemma distinct_digests_distinct_files_witness :
  exists p p',
    blob_file_path "/srv/registry" "sha256:0123abcd" = Ok p
    /\ blob_file_path "/srv/registry" "sha256:0123abce" = Ok p'
    /\ p <> p'.
Proof.
  apply (distinct_digests_distinct_files "/srv/registry"
           "sha256:0123abcd" "sha256:0123abce");
    [reflexivity|reflexivity|discriminate].
Defined.

(** X16.  A digest whose hex part starts with ["/"] leaves the output
    tree: [os.path.join] restarts at an absolute component, so the path
    is [<hex>/data] whatever the root. *)
Theorem absolute_hex_part_leaves_root (root algo rest : string) :
  PyStr.contains ":" algo = false ->
  blob_file_path root (PyStr.cat algo (String ":" (String "/" rest)))
  = Ok (join2 (String "/" rest) "data").
Proof.
  intros Hc. unfold blob_file_path, split_digest.
  rewrite split1_cat by exact Hc. reflexivity.
Qed.

Lemma absolute_hex_part_leaves_root_witness :
  blob_file_path "/srv/registry" "sha256:/etc/cron.d" = Ok "/etc/cron.d/data".
Proof.
  apply (absolute_hex_part_leaves_root "/srv/registry" "sha256" "etc/cron.d"). reflexivity.
Defined.

End BlobPaths.

(** ** What the seeder does to the store *)

Section StoreKept.

Import Hub Spec.
Context `{Env}.

#[local] Instance same_store_refl' : Reflexive same_store.
Proof. intros w. split; reflexivity. Qed.
#[local] Instance same_store_trans' : Transitive same_store.
Proof. intros w1 w2 w3 [? ?] [? ?]. split; congruence. Qed.

#[local] Instance files_kept_refl : Reflexive files_kept.
Proof. intros w p _ Hp. exact Hp. Qed.
#[local] Instance files_kept_trans : Transitive files_kept.
Proof. intros w1 w2 w3 H1 H2 p Hp Hs. auto. Qed.

Ltac store_step :=
  match goal with
  | |- keeps ?R (bind _ _) => apply (keeps_bind R); [|intros ?]
  | |- keeps ?R (ret _) => apply (keeps_ret R)
  | |- keeps ?R (raise _) => apply (keeps_raise R)
  | |- keeps ?R (lift _) => apply (keeps_lift R)
  | |- keeps ?R (gets _) => apply (keeps_gets R)
  | |- keeps ?R (catch _ _) => apply (keeps_catch R); [|intros ?]
  | |- keeps ?R (for_each _ _) => apply (keeps_for_each R); intros ?
  | |- keeps _ (match ?x with _ => _ end) => destruct x
  | |- keeps _ (let _ := _ in _) => cbv zeta
  end.

Lemma hub_lift_inv_ok {A} (r : result A) (w : world) a w' :
  lift r w = (Ok a, w') -> r = Ok a /\ w' = w.
Proof. unfold lift. now intros [= -> ->]. Qed.

Lemma bind_lift_ok_hub {A B} (a : A) (k : A -> M world B) w :
  bind (lift (Ok a)) k w = k a w.
Proof. reflexivity. Qed.

Lemma same_store_files_kept {A} (m : M world A) :
  keeps same_store m -> keeps files_kept m.
Proof. intros Hm w p _ Hp. destruct (Hm w) as [Hf _]. now rewrite Hf. Qed.

Lemma part_path p dest : PyStr.endswith ".part" p = false -> p <> PyStr.cat dest ".part".
Proof. intros Hp ->. now rewrite endswith_cat in Hp. Qed.

Lemma downloaded_add_files_kept digest : keeps files_kept (downloaded_add digest).
Proof. intros w p _ Hp. exact Hp. Qed.

Lemma write_link_files_kept path digest : keeps files_kept (write_link path digest).
Proof.
  intros w p _ Hp. cbn. destruct (decide (p = path)) as [->|Hne].
  - rewrite lookup_insert_eq. eauto.
  - now rewrite lookup_insert_ne by congruence.
Qed.

Lemma stream_download_blob_files_kept repo digest dest :
  keeps files_kept (stream_download_blob repo digest dest).
Proof.
  intros w p Hp Hs.
  destruct (stream_download_blob_fs repo digest dest w) as [Hother Hdest].
  cbv zeta in Hother, Hdest. destruct (decide (p = dest)) as [->|Hne].
  - destruct Hdest as [->|(_ & _ & data & _ & _ & -> & _)]; eauto.
  - rewrite Hother; [exact Hs|exact Hne|now apply part_path].
Qed.

Lemma store_manifest_blob_files_kept out man_bytes mdhex mdgst :
  keeps files_kept (store_manifest_blob out man_bytes mdhex mdgst).
Proof.
  intros w. destruct (blob_file_path out mdgst) as [m_dest|e] eqn:Hpath.
  - rewrite (store_manifest_blob_run _ _ _ _ _ w Hpath).
    destruct (fs w !! m_dest) eqn:Hm; [reflexivity|]. cbv zeta.
    destruct (String.eqb _ _); intros p Hp Hs; cbn [snd fs set_fs set_downloaded].
    + destruct (decide (p = m_dest)) as [->|Hne]; [rewrite lookup_insert_eq; eauto|].
      rewrite lookup_insert_ne by congruence.
      rewrite lookup_delete_ne by (apply not_eq_sym; now apply part_path).
      now rewrite lookup_insert_ne by (apply not_eq_sym; now apply part_path).
    + rewrite lookup_delete_ne by (apply not_eq_sym; now apply part_path).
      now rewrite lookup_insert_ne by (apply not_eq_sym; now apply part_path).
  - unfold store_manifest_blob. rewrite Hpath. reflexivity.
Qed.

Lemma download_blobs_files_kept out repo digests :
  keeps files_kept (download_blobs out repo digests).
Proof.
  unfold download_blobs, path_exists. repeat store_step;
    first [apply downloaded_add_files_kept|apply stream_download_blob_files_kept].
Qed.

Lemma map_repository_files_kept root repo tag mdgst config layers :
  keeps files_kept (map_repository root repo tag mdgst config layers).
Proof.
  unfold map_repository. cbv zeta. repeat store_step; apply write_link_files_kept.
Qed.

Lemma process_image_files_kept out repo tag :
  keeps files_kept (process_image out repo tag).
Proof.
  unfold process_image. cbv zeta.
  apply (keeps_bind files_kept);
    [apply same_store_files_kept, fetch_manifest_same|intros ?].
  repeat (apply (keeps_bind files_kept); [apply (keeps_lift files_kept)|intros ?]).
  apply (keeps_bind files_kept); [apply store_manifest_blob_files_kept|intros ?].
  apply (keeps_bind files_kept); [apply download_blobs_files_kept|intros ?].
  repeat (apply (keeps_bind files_kept); [apply (keeps_lift files_kept)|intros ?]).
  apply (keeps_bind files_kept); [apply map_repository_files_kept|intros ?].
  apply (keeps_ret files_kept).
Qed.

(** X17.  [process_image] never loses a file of the store: whatever its
    outcome, every path that held a file before still holds one after,
    the temporary [.part] files apart. *)
Theorem process_image_keeps_files (out repo tag : string) (w : world) (p : string) :
  PyStr.endswith ".part" p = false ->
  is_Some (fs w !! p) ->
  is_Some (fs (snd (process_image out repo tag w)) !! p).
Proof. intros Hp Hs. exact (process_image_files_kept out repo tag w p Hp Hs). Qed.

(** *** Markers and blobs *)

Lemma present_kept out digest w w' :
  files_kept w w' -> present out digest w -> present out digest w'.
Proof.
  intros Hk (dest & Hpath & Hs). exists dest. split; [exact Hpath|].
  apply Hk; [|exact Hs]. exact (proj1 (canonical_not_part _ _ _ Hpath)).
Qed.

Lemma marked_step out w w' :
  files_kept w w' ->
  marked_present out w ->
  (forall d, d ∈ DOWNLOADED w' -> d ∈ DOWNLOADED w \/ present out d w') ->
  marked_present out w'.
Proof.
  intros Hk Hm Hd d [Hin|Hp]%Hd; [|exact Hp].
  exact (present_kept _ _ _ _ Hk (Hm d Hin)).
Qed.

Lemma stream_download_blob_present out repo digest dest w w' :
  marked_present out w ->
  blob_file_path out digest = Ok dest ->
  stream_download_blob repo digest dest w = (Ok tt, w') ->
  marked_present out w' /\ present out digest w'.
Proof.
  intros Hm Hpath Hrun.
  pose proof (keeps_run files_kept _ _ _ _
                (stream_download_blob_files_kept repo digest dest) Hrun) as Hk.
  rewrite stream_download_blob_run in Hrun.
  assert (Hnew : is_Some (fs w' !! dest) ->
                 DOWNLOADED w' = {[ digest ]} ∪ DOWNLOADED w ->
                 marked_present out w' /\ present out digest w').
  { intros Hs Hd. assert (Hp : present out digest w') by (exists dest; auto).
    split; [|exact Hp]. apply (marked_step out w w' Hk Hm).
    intros d. rewrite Hd. intros [->%elem_of_singleton|Hin]%elem_of_union; auto. }
  destruct (fs w !! dest) as [c|] eqn:Hdest.
  - injection Hrun as <-. apply Hnew; [|reflexivity]. cbn. rewrite Hdest. eauto.
  - destruct (bool_decide (digest ∈ DOWNLOADED w)) eqn:Hknown.
    + apply bool_decide_eq_true in Hknown.
      destruct (Hm _ Hknown) as (dest' & Hpath' & Hs).
      rewrite Hpath in Hpath'. injection Hpath' as <-.
      rewrite Hdest in Hs. now destruct Hs.
    + cbv zeta in Hrun.
      pose proof (with_retry_default_same _
                    (get_stream_same (blob_url repo digest))
                    (set_downloaded ({[ digest ]} ∪ DOWNLOADED w) w)) as [_ Hd1].
      destruct (with_retry_default _ _) as [[r|e] w1]; [|discriminate].
      destruct (split_digest digest) as [[algo hexd]|e]; [|discriminate].
      destruct (complete r); [|discriminate].
      destruct (String.eqb _ hexd); [|discriminate].
      injection Hrun as <-. apply Hnew.
      * cbn. rewrite lookup_insert_eq. eauto.
      * exact Hd1.
Qed.

Lemma store_manifest_blob_present out man_bytes mdhex mdgst w w' :
  marked_present out w ->
  store_manifest_blob out man_bytes mdhex mdgst w = (Ok tt, w') ->
  marked_present out w' /\ present out mdgst w'.
Proof.
  intros Hm Hrun.
  pose proof (keeps_run files_kept _ _ _ _
                (store_manifest_blob_files_kept out man_bytes mdhex mdgst) Hrun) as Hk.
  destruct (blob_file_path out mdgst) as [m_dest|e] eqn:Hpath;
    [|unfold store_manifest_blob in Hrun; now rewrite Hpath in Hrun].
  rewrite (store_manifest_blob_run _ _ _ _ _ w Hpath) in Hrun.
  destruct (fs w !! m_dest) as [c|] eqn:Hdest.
  - injection Hrun as <-. split; [exact Hm|]. exists m_dest. rewrite Hdest. eauto.
  - cbv zeta in Hrun. destruct (String.eqb _ mdhex); [|discriminate].
    injection Hrun as <-.
    assert (Hp : present out mdgst
                   (set_downloaded ({[mdgst]} ∪ DOWNLOADED w)
                      (set_fs (<[m_dest:=man_bytes]>
                                 (delete (PyStr.cat m_dest ".part")
                                    (<[PyStr.cat m_dest ".part":=man_bytes]> (fs w)))) w))).
    { exists m_dest. split; [exact Hpath|]. cbn. rewrite lookup_insert_eq. eauto. }
    split; [|exact Hp]. apply (marked_step out w _ Hk Hm).
    intros d. cbn. intros [->%elem_of_singleton|Hin]%elem_of_union; auto.
Qed.

Lemma download_blobs_present out repo digests w w' :
  marked_present out w ->
  download_blobs out repo digests w = (Ok tt, w') ->
  marked_present out w'
  /\ Forall (fun dg => exists s, dg = JStr s /\ present out s w') digests.
Proof.
  unfold download_blobs. revert w.
  induction digests as [|dg rest IH]; intros w Hm Hrun.
  - injection Hrun as <-. auto.
  - cbn [for_each] in Hrun. apply bind_inv_ok in Hrun as ([] & w1 & Hone & Hrest).
    apply bind_inv_ok in Hone as (s & wa & [Hs ->]%hub_lift_inv_ok & Hone).
    apply bind_inv_ok in Hone as (dest & wb & [Hpath ->]%hub_lift_inv_ok & Hone).
    apply bind_inv_ok in Hone as (there & wc & Hthere & Hone).
    injection Hthere as <- <-.
    assert (Hstep : marked_present out w1 /\ present out s w1).
    { destruct (fs w !! dest) as [c|] eqn:Hdest.
      - injection Hone as <-. assert (Hp : present out s
                    (set_downloaded ({[s]} ∪ DOWNLOADED w) w)).
        { exists dest. split; [exact Hpath|]. cbn. rewrite Hdest. eauto. }
        split; [|exact Hp]. apply (marked_step out w _ (downloaded_add_files_kept s w) Hm).
        intros d. cbn. intros [->%elem_of_singleton|Hin]%elem_of_union; auto.
      - exact (stream_download_blob_present _ _ _ _ _ _ Hm Hpath Hone). }
    destruct Hstep as [Hm1 Hp1].
    destruct (IH _ Hm1 Hrest) as [Hm' Hall]. split; [exact Hm'|].
    constructor; [|exact Hall].
    destruct dg; try discriminate. injection Hs as ->. exists s. split; [reflexivity|].
    refine (present_kept _ _ _ _ _ Hp1).
    exact (keeps_run files_kept _ _ _ _ (download_blobs_files_kept out repo rest) Hrest).
Qed.

Lemma write_link_run path digest w :
  write_link path digest w = (Ok tt, set_fs (<[ path := digest ]> (fs w)) w).
Proof. reflexivity. Qed.

Lemma layer_links_downloaded (link_of : string -> string) l w w' :
  for_each l (fun dg => hexd <- lift (hex_part dg) ;; write_link (link_of hexd) dg) w
  = (Ok tt, w') ->
  DOWNLOADED w' = DOWNLOADED w /\ trace w' = trace w
  /\ Forall (fun dg => is_ok (hex_part dg) = true) l.
Proof.
  revert w. induction l as [|dg rest IH]; intros w Hrun.
  - injection Hrun as <-. auto.
  - cbn [for_each] in Hrun. apply bind_inv_ok in Hrun as ([] & w1 & Hone & Hrest).
    apply bind_inv_ok in Hone as (hexd & wa & [Hh ->]%hub_lift_inv_ok & Hone).
    rewrite write_link_run in Hone. injection Hone as <-.
    destruct (IH _ Hrest) as (Hd & Ht & Hall). repeat split; [exact Hd|exact Ht|].
    constructor; [now rewrite Hh|exact Hall].
Qed.

(** What [map_repository] has written when it returns. *)
Lemma map_repository_run (root repo tag manifest_digest config : string)
        (layers : list string) (w w' : world) :
  map_repository root repo tag manifest_digest config layers w = (Ok tt, w') ->
  exists mdhex,
    hex_part manifest_digest = Ok mdhex
    /\ (let repo_root := path_join (path_join root ["docker"; "registry"; "v2"])
                           ("repositories" :: PyStr.split "/" repo) in
        fs w' !! path_join repo_root ["_manifests"; "tags"; tag; "current"; "link"]
        = Some manifest_digest
        /\ fs w' !! path_join repo_root
                      ["_manifests"; "tags"; tag; "index"; "sha256"; mdhex; "link"]
           = Some manifest_digest
        /\ fs w' !! path_join repo_root ["_manifests"; "revisions"; "sha256"; mdhex; "link"]
           = Some manifest_digest)
    /\ Forall (fun dg => is_ok (hex_part dg) = true) (config :: layers)
    /\ DOWNLOADED w' = DOWNLOADED w
    /\ trace w' = trace w.
Proof.
  unfold map_repository. cbv zeta. intros Hrun.
  apply bind_inv_ok in Hrun as ([] & w1 & Hlayers & Hrun).
  apply bind_inv_ok in Hrun as (mdhex & wa & [Hh ->]%hub_lift_inv_ok & Hrun).
  apply bind_inv_ok in Hrun as ([] & w2 & H2 & Hrun).
  apply bind_inv_ok in Hrun as ([] & w3 & H3 & Hrun).
  rewrite write_link_run in H2, H3, Hrun.
  injection H2 as <-. injection H3 as <-. injection Hrun as <-.
  destruct (layer_links_downloaded _ _ _ _ Hlayers) as (Hd & Ht & Hall).
  exists mdhex. split; [exact Hh|]. split; [|split; [exact Hall|split; [exact Hd|exact Ht]]].
  cbn [fs set_fs].
  set (cur := path_join _ ["_manifests"; "tags"; tag; "current"; "link"]).
  set (idx := path_join _ ["_manifests"; "tags"; tag; "index"; "sha256"; mdhex; "link"]).
  set (rev := path_join _ ["_manifests"; "revisions"; "sha256"; mdhex; "link"]).
  assert (Hcur : forall f : gmap string string,
             <[ cur := manifest_digest ]> f !! cur = Some manifest_digest)
    by (intros f; apply lookup_insert_eq).
  assert (Hkeep : forall k q (f : gmap string string),
             f !! k = Some manifest_digest ->
             <[ q := manifest_digest ]> f !! k = Some manifest_digest).
  { intros k q f Hf. destruct (decide (k = q)) as [->|Hne];
      [apply lookup_insert_eq|now rewrite lookup_insert_ne by congruence]. }
  split; [apply Hcur|]. split.
  - apply Hkeep, lookup_insert_eq.
  - apply Hkeep, Hkeep, lookup_insert_eq.
Qed.

(** X18.  The links of a tag.  When [map_repository] succeeds, the
    revision link, the tag's index link and the tag's current link all
    hold the manifest digest; every digest it was given has a [":"]; and
    neither [DOWNLOADED] nor the trace has changed. *)
Theorem map_repository_links (root repo tag manifest_digest config : string)
        (layers : list string) (w w' : world) :
  map_repository root repo tag manifest_digest config layers w = (Ok tt, w') ->
  exists mdhex,
    hex_part manifest_digest = Ok mdhex
    /\ (let repo_root := path_join (path_join root ["docker"; "registry"; "v2"])
                           ("repositories" :: PyStr.split "/" repo) in
        fs w' !! path_join repo_root ["_manifests"; "tags"; tag; "current"; "link"]
        = Some manifest_digest
        /\ fs w' !! path_join repo_root
                      ["_manifests"; "tags"; tag; "index"; "sha256"; mdhex; "link"]
           = Some manifest_digest
        /\ fs w' !! path_join repo_root ["_manifests"; "revisions"; "sha256"; mdhex; "link"]
           = Some manifest_digest)
    /\ Forall (fun dg => is_ok (hex_part dg) = true) (config :: layers)
    /\ DOWNLOADED w' = DOWNLOADED w
    /\ trace w' = trace w.
Proof. exact (map_repository_run root repo tag manifest_digest config layers w w'). Qed.

(** X19.  From a store whose markers are honest (as at the start of a
    run, when [DOWNLOADED] is empty), a [process_image] that succeeds
    leaves every blob of the image in the store: the manifest under its
    digest, the config and each layer under theirs; and the markers are
    still honest. *)
Theorem process_image_stores_every_blob (out repo tag : string) (w : world)
        (meta : image_meta) (w' : world) :
  marked_present out w ->
  process_image out repo tag w = (Ok meta, w') ->
  marked_present out w'
  /\ present out (meta_manifest_digest meta) w'
  /\ Forall (fun dg => exists s, dg = JStr s /\ present out s w')
       (meta_config meta :: meta_layers meta).
Proof.
  intros Hm Hrun. unfold process_image in Hrun. cbv zeta in Hrun.
  apply bind_inv_ok in Hrun as (fetched & w1 & Hfetch & Hrun).
  apply bind_inv_ok in Hrun as (config & ? & [_ ->]%hub_lift_inv_ok & Hrun).
  apply bind_inv_ok in Hrun as (cfg & ? & [_ ->]%hub_lift_inv_ok & Hrun).
  apply bind_inv_ok in Hrun as (layers_value & ? & [_ ->]%hub_lift_inv_ok & Hrun).
  apply bind_inv_ok in Hrun as (layer_list & ? & [_ ->]%hub_lift_inv_ok & Hrun).
  apply bind_inv_ok in Hrun as (layers & ? & [_ ->]%hub_lift_inv_ok & Hrun).
  apply bind_inv_ok in Hrun as ([] & w2 & Hstore & Hrun).
  apply bind_inv_ok in Hrun as ([] & w3 & Hdl & Hrun).
  apply bind_inv_ok in Hrun as (cfg_str & ? & [_ ->]%hub_lift_inv_ok & Hrun).
  apply bind_inv_ok in Hrun as (layer_strs & ? & [_ ->]%hub_lift_inv_ok & Hrun).
  apply bind_inv_ok in Hrun as ([] & w4 & Hmap & Hrun).
  injection Hrun as <- <-. cbn [meta_manifest_digest meta_config meta_layers].
  assert (Hm1 : marked_present out w1).
  { destruct (keeps_run same_store _ _ _ _ (fetch_manifest_same repo tag) Hfetch)
      as [Hf Hd].
    intros d Hin. rewrite Hd in Hin. destruct (Hm d Hin) as (dest & Hp & Hs).
    exists dest. now rewrite Hf. }
  destruct (store_manifest_blob_present _ _ _ _ _ _ Hm1 Hstore) as [Hm2 Hp2].
  destruct (download_blobs_present _ _ _ _ _ Hm2 Hdl) as [Hm3 Hall].
  pose proof (keeps_run files_kept _ _ _ _ (download_blobs_files_kept _ _ _) Hdl) as Hk3.
  pose proof (keeps_run files_kept _ _ _ _
                (map_repository_files_kept _ _ _ _ _ _) Hmap) as Hk4.
  destruct (map_repository_run _ _ _ _ _ _ _ _ Hmap) as (_ & _ & _ & _ & Hd4 & _).
  split; [|split].
  - apply (marked_step out w3 w4 Hk4 Hm3). intros d. rewrite Hd4. auto.
  - exact (present_kept _ _ _ _ Hk4 (present_kept _ _ _ _ Hk3 Hp2)).
  - eapply Forall_impl; [exact Hall|]. intros dg (s & -> & Hp). exists s.
    split; [reflexivity|]. exact (present_kept _ _ _ _ Hk4 Hp).
Qed.

(** X20.  A download that fails leaves its marker behind.  When
    [stream_download_blob] raises anything but the hash mismatch (the
    request fails, the digest has no [":"], the stream breaks off), the
    digest stays in [DOWNLOADED] although the blob is not in the store,
    and a second call for the same digest returns at once, without a
    request and without the blob. *)
Theorem failed_download_leaves_marker (repo digest dest : string) (w : world)
        (e : exn) (w' : world) :
  fs w !! dest = None ->
  stream_download_blob repo digest dest w = (Raise e, w') ->
  (forall msg, e <> RuntimeError msg) ->
  digest ∈ DOWNLOADED w'
  /\ fs w' !! dest = None
  /\ stream_download_blob repo digest dest w' = (Ok tt, w').
Proof.
  intros Hdest Hrun He.
  assert (Hagain : forall w1, digest ∈ DOWNLOADED w1 -> fs w1 !! dest = None ->
                   digest ∈ DOWNLOADED w1 /\ fs w1 !! dest = None
                   /\ stream_download_blob repo digest dest w1 = (Ok tt, w1)).
  { intros w1 Hin Hnone. split; [exact Hin|]. split; [exact Hnone|].
    rewrite stream_download_blob_run, Hnone. now rewrite bool_decide_eq_true_2. }
  rewrite stream_download_blob_run, Hdest in Hrun.
  destruct (bool_decide (digest ∈ DOWNLOADED w)); [discriminate|].
  cbv zeta in Hrun.
  pose proof (with_retry_default_same _
                (get_stream_same (blob_url repo digest))
                (set_downloaded ({[ digest ]} ∪ DOWNLOADED w) w)) as [Hf1 Hd1].
  destruct (with_retry_default _ _) as [[r|e1] w1].
  - cbn [snd fs DOWNLOADED set_downloaded] in Hf1, Hd1.
    assert (Hin : digest ∈ DOWNLOADED w1)
      by (rewrite Hd1; now apply elem_of_union_l, elem_of_singleton).
    destruct (split_digest digest) as [[algo hexd]|e2].
    + destruct (complete r).
      * destruct (String.eqb _ hexd); [discriminate|].
        injection Hrun as <- _. now contradiction (He _ eq_refl).
      * injection Hrun as _ <-. apply Hagain; [exact Hin|].
        cbn [fs set_fs]. rewrite lookup_insert_ne by (apply cat_neq; discriminate).
        now rewrite Hf1.
    + injection Hrun as _ <-. apply Hagain; [exact Hin|now rewrite Hf1].
  - cbn [snd fs DOWNLOADED set_downloaded] in Hf1, Hd1.
    injection Hrun as _ <-.
    apply Hagain; [rewrite Hd1; now apply elem_of_union_l, elem_of_singleton|now rewrite Hf1].
Qed.

(** X21.  The manifest [fetch_manifest] returns is the decoding of the
    bytes it returns, for a single manifest and for one picked from an
    index alike, so the digest computed from the bytes is the digest of
    the manifest that is used; and fetching changes neither the store nor
    [DOWNLOADED]. *)
Theorem fetch_manifest_consistent (repo ref : string) (w : world)
        (body : string) (man : json) (ct : string) (w' : world) :
  fetch_manifest repo ref w = (Ok (body, man, ct), w') ->
  json_loads body = Some man
  /\ fs w' = fs w
  /\ DOWNLOADED w' = DOWNLOADED w.
Proof.
  intros Hrun.
  destruct (keeps_run same_store _ _ _ _ (fetch_manifest_same repo ref) Hrun) as [Hf Hd].
  split; [|split; assumption].
  unfold fetch_manifest in Hrun. cbv zeta in Hrun.
  apply bind_inv_ok in Hrun as (r & w1 & _ & Hrun).
  apply bind_inv_ok in Hrun as (selected & w2 & _ & Hrun).
  apply bind_inv_ok in Hrun as (man' & w3 & Hparse & Hrun).
  injection Hrun as <- <- _ _. unfold parse_json in Hparse.
  destruct (json_loads (fst selected)) as [j|]; [|discriminate].
  now injection Hparse as <- _.
Qed.

(** X22.  Blobs that are in the store are not fetched again: when every
    digest of the list has its blob file, [download_blobs] succeeds
    without a request, changes no file, and marks every digest of the
    list in [DOWNLOADED]. *)
Theorem download_blobs_skips_existing (out repo : string) (digests : list json)
        (w : world) :
  Forall (fun dg => exists s dest,
            dg = JStr s /\ blob_file_path out s = Ok dest /\ is_Some (fs w !! dest))
         digests ->
  exists w',
    download_blobs out repo digests w = (Ok tt, w')
    /\ fs w' = fs w
    /\ trace w' = trace w
    /\ DOWNLOADED w ⊆ DOWNLOADED w'
    /\ Forall (fun dg => exists s, dg = JStr s /\ s ∈ DOWNLOADED w') digests.
Proof.
  unfold download_blobs. revert w.
  induction digests as [|dg rest IH]; intros w Hall.
  - exists w. repeat split; auto.
  - apply Forall_cons in Hall as [(s & dest & -> & Hpath & [c Hc]) Hrest].
    set (w1 := set_downloaded ({[ s ]} ∪ DOWNLOADED w) w).
    destruct (IH w1 Hrest) as (w' & Hrun & Hf & Ht & Hsub & Hmarked).
    exists w'. split; [|split; [exact Hf|split; [exact Ht|split]]].
    + cbn [for_each]. rewrite (bind_ok _ _ w tt w1); [exact Hrun|].
      cbn [as_str]. rewrite bind_lift_ok_hub, Hpath, bind_lift_ok_hub.
      unfold path_exists, bind, gets. now rewrite Hc.
    + intros d Hd. apply Hsub. cbn. now apply elem_of_union_r.
    + constructor; [|exact Hmarked]. exists s. split; [reflexivity|].
      apply Hsub. cbn. now apply elem_of_union_l, elem_of_singleton.
Qed.

(** X23.  What [process_image] reports is what it stored: on success
    the metadata name the repository and the tag it was called with, the
    manifest digest is ["sha256:"] followed by the hash of the manifest
    bytes that were fetched, and the tag's current link in the store
    holds that digest. *)
Theorem process_image_tags_manifest (out repo tag : string) (w : world)
        (meta : image_meta) (w' : world) :
  process_image out repo tag w = (Ok meta, w') ->
  exists body man ct w1,
    fetch_manifest repo tag w = (Ok (body, man, ct), w1)
    /\ meta_repo meta = repo
    /\ meta_tag meta = tag
    /\ meta_manifest_digest meta = PyStr.cat "sha256:" (sha256_hex body)
    /\ meta_manifest_media_type meta = ct
    /\ fs w' !! path_join (path_join (path_join out ["docker"; "registry"; "v2"])
                             ("repositories" :: PyStr.split "/" repo))
                  ["_manifests"; "tags"; tag; "current"; "link"]
       = Some (meta_manifest_digest meta).
Proof.
  intros Hrun. unfold process_image in Hrun. cbv zeta in Hrun.
  apply bind_inv_ok in Hrun as ([[body man] ct] & w1 & Hfetch & Hrun).
  apply bind_inv_ok in Hrun as (config & ? & [_ ->]%hub_lift_inv_ok & Hrun).
  apply bind_inv_ok in Hrun as (cfg & ? & [_ ->]%hub_lift_inv_ok & Hrun).
  apply bind_inv_ok in Hrun as (layers_value & ? & [_ ->]%hub_lift_inv_ok & Hrun).
  apply bind_inv_ok in Hrun as (layer_list & ? & [_ ->]%hub_lift_inv_ok & Hrun).
  apply bind_inv_ok in Hrun as (layers & ? & [_ ->]%hub_lift_inv_ok & Hrun).
  apply bind_inv_ok in Hrun as ([] & w2 & Hstore & Hrun).
  apply bind_inv_ok in Hrun as ([] & w3 & Hdl & Hrun).
  apply bind_inv_ok in Hrun as (cfg_str & ? & [_ ->]%hub_lift_inv_ok & Hrun).
  apply bind_inv_ok in Hrun as (layer_strs & ? & [_ ->]%hub_lift_inv_ok & Hrun).
  apply bind_inv_ok in Hrun as ([] & w4 & Hmap & Hrun).
  injection Hrun as <- <-.
  destruct (map_repository_run _ _ _ _ _ _ _ _ Hmap) as (mdhex & _ & Hlinks & _).
  cbv zeta in Hlinks. destruct Hlinks as (Hcur & _).
  exists body, man, ct, w1. cbn [fst snd] in *. repeat split; try reflexivity.
  - exact Hfetch.
  - exact Hcur.
Qed.

End StoreKept.

(** ** More runs of the seeder *)

Section StoreRuns.

Import Hub Spec.

Ltac by_vm :=
  lazymatch goal with
  | |- _ = ?b => let n := eval vm_compute in b in vm_cast_no_check (@eq_refl _ n)
  end.

(** X17 on a second run over the seeded store. *)
Lemma process_image_keeps_files_witness :
  is_Some (fs (snd (process_image (H := HubFixture.env) HubFixture.out
                      "library/app" "latest" HubFixture.seeded))
             !! HubFixture.layer_path).
Proof.
  apply (process_image_keeps_files (H := HubFixture.env) HubFixture.out
           "library/app" "latest" HubFixture.seeded HubFixture.layer_path).
  - reflexivity.
  - exists "<layer>". by_vm.
Defined.

(** X18 on the links of [library/app:latest]. *)
Lemma map_repository_links_witness :
  let w' := snd (map_repository HubFixture.out "library/app" "latest"
                   "sha256:hash-of-<manifest>" "sha256:hash-of-<config>"
                   ["sha256:hash-of-<layer>"] HubFixture.empty_world) in
  exists mdhex,
    hex_part "sha256:hash-of-<manifest>" = Ok mdhex
    /\ (let repo_root := path_join (path_join HubFixture.out ["docker"; "registry"; "v2"])
                           ("repositories" :: PyStr.split "/" "library/app") in
        fs w' !! path_join repo_root ["_manifests"; "tags"; "latest"; "current"; "link"]
        = Some "sha256:hash-of-<manifest>"
        /\ fs w' !! path_join repo_root
                      ["_manifests"; "tags"; "latest"; "index"; "sha256"; mdhex; "link"]
           = Some "sha256:hash-of-<manifest>"
        /\ fs w' !! path_join repo_root ["_manifests"; "revisions"; "sha256"; mdhex; "link"]
           = Some "sha256:hash-of-<manifest>")
    /\ Forall (fun dg => is_ok (hex_part dg) = true)
         ["sha256:hash-of-<config>"; "sha256:hash-of-<layer>"]
    /\ DOWNLOADED w' = DOWNLOADED HubFixture.empty_world
    /\ trace w' = trace HubFixture.empty_world.
Proof.
  intros w'.
  apply (map_repository_links HubFixture.out "library/app" "latest"
           "sha256:hash-of-<manifest>" "sha256:hash-of-<config>"
           ["sha256:hash-of-<layer>"] HubFixture.empty_world w').
  by_vm.
Defined.

(** X19 on a first run, from an empty store. *)
Lemma process_image_stores_every_blob_witness :
  marked_present HubFixture.out HubFixture.seeded
  /\ present HubFixture.out "sha256:hash-of-<manifest>" HubFixture.seeded
  /\ Forall (fun dg => exists s, dg = JStr s /\ present HubFixture.out s HubFixture.seeded)
       [JStr "sha256:hash-of-<config>"; JStr "sha256:hash-of-<layer>"].
Proof.
  apply (process_image_stores_every_blob (H := HubFixture.env) HubFixture.out
           "library/app" "latest" HubFixture.empty_world HubFixture.app_meta HubFixture.seeded).
  - intros d Hd. now apply elem_of_empty in Hd.
  - by_vm.
Defined.

(** X20 on a blob the registry does not have. *)
Lemma failed_download_leaves_marker_witness :
  let dest := "/srv/registry/docker/registry/v2/blobs/sha256/no/nothing/data" in
  let w' := snd (stream_download_blob (H := HubFixture.env) "library/app"
                   "sha256:nothing" dest HubFixture.empty_world) in
  "sha256:nothing" ∈ DOWNLOADED w'
  /\ fs w' !! dest = None
  /\ stream_download_blob (H := HubFixture.env) "library/app" "sha256:nothing" dest w'
     = (Ok tt, w').
Proof.
  intros dest w'.
  apply (failed_download_leaves_marker (H := HubFixture.env) "library/app"
           "sha256:nothing" dest HubFixture.empty_world (HTTPError (Some 404)) w').
  - reflexivity.
  - by_vm.
  - discriminate.
Defined.

(** X21 on the manifest picked from the index of [library/app]. *)
Lemma fetch_manifest_consistent_witness :
  let w' := snd (fetch_manifest (H := HubFixture.env) "library/app" "latest"
                   HubFixture.empty_world) in
  json_loads (Env := HubFixture.env) "<manifest>"
  = Some (JObj [("config", JObj [("digest", JStr "sha256:hash-of-<config>")]);
                ("layers", JArr [JObj [("digest", JStr "sha256:hash-of-<layer>")]])])
  /\ fs w' = fs HubFixture.empty_world
  /\ DOWNLOADED w' = DOWNLOADED HubFixture.empty_world.
Proof.
  intros w'.
  apply (fetch_manifest_consistent (H := HubFixture.env) "library/app" "latest"
           HubFixture.empty_world "<manifest>" _ HubFixture.manifest_type w').
  by_vm.
Defined.

(** X22 over the seeded store. *)
Lemma download_blobs_skips_existing_witness :
  exists w',
    download_blobs (H := HubFixture.env) HubFixture.out "library/app"
      [JStr "sha256:hash-of-<config>"; JStr "sha256:hash-of-<layer>"] HubFixture.seeded = (Ok tt, w')
    /\ fs w' = fs HubFixture.seeded
    /\ trace w' = trace HubFixture.seeded
    /\ DOWNLOADED HubFixture.seeded ⊆ DOWNLOADED w'
    /\ Forall (fun dg => exists s, dg = JStr s /\ s ∈ DOWNLOADED w')
         [JStr "sha256:hash-of-<config>"; JStr "sha256:hash-of-<layer>"].
Proof.
  apply (download_blobs_skips_existing (H := HubFixture.env)).
  repeat constructor.
  - exists "sha256:hash-of-<config>",
      "/srv/registry/docker/registry/v2/blobs/sha256/ha/hash-of-<config>/data".
    split; [reflexivity|]. split; [reflexivity|]. exists "<config>". by_vm.
  - exists "sha256:hash-of-<layer>", HubFixture.layer_path.
    split; [reflexivity|]. split; [reflexivity|]. exists "<layer>". by_vm.
Defined.

(** X23 on [library/app:latest]. *)
Lemma process_image_tags_manifest_witness :
  exists body man ct w1,
    fetch_manifest (H := HubFixture.env) "library/app" "latest" HubFixture.empty_world
    = (Ok (body, man, ct), w1)
    /\ meta_repo HubFixture.app_meta = "library/app"
    /\ meta_tag HubFixture.app_meta = "latest"
    /\ meta_manifest_digest HubFixture.app_meta
       = PyStr.cat "sha256:" (sha256_hex (Env := HubFixture.env) body)
    /\ meta_manifest_media_type HubFixture.app_meta = ct
    /\ fs HubFixture.seeded !! path_join (path_join (path_join HubFixture.out
                                            ["docker"; "registry"; "v2"])
                                 ("repositories" :: PyStr.split "/" "library/app"))
                      ["_manifests"; "tags"; "latest"; "current"; "link"]
       = Some (meta_manifest_digest HubFixture.app_meta).
Proof.
  apply (process_image_tags_manifest (H := HubFixture.env) HubFixture.out
           "library/app" "latest" HubFixture.empty_world HubFixture.app_meta HubFixture.seeded).
  by_vm.
Defined.

End StoreRuns.
